(** * Job lifecycle of the quant-finance platform

    A shallow embedding of the job store ([backend/app/models.py]), the
    response schemas ([backend/app/schemas.py]), the publisher
    ([backend/app/pubsub.py]), the jobs API ([backend/app/api/jobs.py]) and
    the worker's push endpoint ([backend/worker/main.py]), followed by the
    properties of the job lifecycle that hold of them.

    Conventions.
    - A Python [str] is the [string] of its characters, which are those of
      one byte (Latin-1): [len] is the length of the string and the order of
      two texts is the order of their characters.  A [datetime] is a number
      of microseconds ([Z]); a [uuid.UUID] is its 128-bit integer ([Z]), so
      that comparing [str(a) != str(b)] on two UUIDs is comparing the
      integers.
    - A Python [float] is a binary64 primitive float; an [int] is a [Z].
    - A call that may raise returns a [result]; the exception carries what
      the handlers look at: whether it is an [HTTPException], and its text.
    - The clock ([datetime.utcnow()]), the identifier drawn by [uuid.uuid4]
      and the answers of the external services are arguments. *)

From Stdlib Require Import ZArith List Ascii String Bool Lia.
From Stdlib Require Import Floats.PrimFloat.
From Stdlib Require Import Floats.SpecFloat Floats.FloatOps Floats.FloatAxioms.
From Stdlib Require Import Sorting.Sorted Sorting.Permutation.
Import ListNotations.

Set Warnings "-register-all,-inexact-float".
Local Open Scope string_scope.
Local Open Scope Z_scope.

(** ** Python values and exceptions *)

Definition datetime := Z.
Definition UUID := Z.

(** What [json.loads] and a JSON column hold.  A [JObj] lists the items of a
    [dict] in insertion order, its keys distinct. *)
Inductive json : Type :=
| JNull
| JBool (b : bool)
| JInt (z : Z)
| JFloat (f : float)
| JStr (s : string)
| JArr (l : list json)
| JObj (items : list (string * json)).

Inductive exn : Type :=
| HTTPException (status_code : Z) (detail : string)
| Exception (cls : string) (msg : string).

Inductive result (A : Type) : Type :=
| Ok (a : A)
| Raise (e : exn).
Arguments Ok {A} a.
Arguments Raise {A} e.

Definition bind {A B} (r : result A) (k : A -> result B) : result B :=
  match r with
  | Ok a => k a
  | Raise e => Raise e
  end.

Notation "x <- r ;; k" := (bind r (fun x => k))
  (at level 61, r at next level, right associativity).

Fixpoint mapM {A B} (f : A -> result B) (l : list A) : result (list B) :=
  match l with
  | [] => Ok []
  | a :: l' => b <- f a ;; bs <- mapM f l' ;; Ok (b :: bs)
  end.

(** Decimal text of an integer, as an f-string prints a status code. *)
Fixpoint digits (fuel : nat) (n : Z) (acc : string) : string :=
  match fuel with
  | O => acc
  | S fuel' =>
      let acc' := String (Ascii.ascii_of_nat (48 + Z.to_nat (n mod 10))) acc in
      if n <? 10 then acc' else digits fuel' (n / 10) acc'
  end.

Definition str_of_int (n : Z) : string :=
  if n <? 0 then "-" ++ digits 40 (- n) "" else digits 40 n "".

(** [str(e)]: the message of an ordinary exception; Starlette prints an
    [HTTPException] as its status code, a colon and its detail. *)
Definition str_exn (e : exn) : string :=
  match e with
  | HTTPException c d => str_of_int c ++ ": " ++ d
  | Exception _ m => m
  end.

(** Truth value of a Python object ([if not data]). *)
Definition truthy (v : json) : bool :=
  match v with
  | JNull => false
  | JBool b => b
  | JInt z => negb (z =? 0)
  | JFloat f => negb (PrimFloat.eqb f 0%float)
  | JStr s => negb (s =? "")%string
  | JArr l => match l with [] => false | _ => true end
  | JObj l => match l with [] => false | _ => true end
  end.

Fixpoint assoc (k : string) (items : list (string * json)) : option json :=
  match items with
  | [] => None
  | (k', v) :: rest => if (k =? k')%string then Some v else assoc k rest
  end.

(** [obj.get(key, default)]; an object that is not a [dict] has no [get]. *)
Definition py_get (obj : json) (key : string) (default : json) : result json :=
  match obj with
  | JObj items =>
      Ok match assoc key items with Some v => v | None => default end
  | _ => Raise (Exception "AttributeError" "object has no attribute 'get'")
  end.

(** [a / b] on two integers, for a positive [b]: the quotient is rounded
    once, to the nearest float, ties to even.  The quotient is taken with
    more than 64 bits and one more bit that records whether the division
    left a remainder. *)
Definition int_truediv (a b : Z) : float :=
  let k := Z.log2 b + 64 in
  let n := Z.abs a * 2 ^ k in
  let sticky := if n mod b =? 0 then 0 else 1 in
  let x :=
    SF2Prim (binary_normalize prec emax (2 * (n / b) + sticky) (- (k + 1))
               false) in
  if a <? 0 then PrimFloat.opp x else x.

(** [int -> float], as an integer operand of a float division is converted:
    the nearest float. *)
Definition float_of_Z (z : Z) : float := int_truediv z 1.

(** [timedelta.total_seconds()] of a difference in microseconds: the
    division of two integers. *)
Definition total_seconds (us : Z) : float := int_truediv us 1000000.

(** [min(a, b)] of Python: [a], unless [b < a]. *)
Definition py_min (a b : float) : float :=
  if PrimFloat.ltb b a then b else a.

(** ** Library functions of the runtime

    Parsers and printers of the Python libraries the code calls; each is
    [None] where the library raises. *)
Record PyLib : Type := {
  (** [uuid.UUID(s)] *)
  uuid_parse : string -> option UUID;
  (** [str(u)] of a UUID *)
  uuid_str : UUID -> string;
  (** [datetime.strptime(s, "%Y-%m-%d")] *)
  strptime_ymd : string -> option datetime;
  (** [d.strftime("%Y-%m-%d")] *)
  strftime_ymd : datetime -> string;
  (** [json.loads(base64.b64decode(s).decode("utf-8"))]: the value, or
      the text of the exception *)
  b64_json_loads : string -> json + string;
  (** [str(v)], as an f-string prints a value *)
  py_format : json -> string
}.

(** ** Schemas ([backend/app/schemas.py]) *)

Inductive JobType : Type := MONTE_CARLO | MARKOWITZ | BLACK_SCHOLES | BACKTEST.

Definition JobType_value (t : JobType) : string :=
  match t with
  | MONTE_CARLO => "montecarlo"
  | MARKOWITZ => "markowitz"
  | BLACK_SCHOLES => "blackscholes"
  | BACKTEST => "backtest"
  end.

(** [JobType(s)]: the member whose value is [s], else [ValueError]. *)
Definition JobType_of (s : string) : option JobType :=
  if (s =? "montecarlo")%string then Some MONTE_CARLO
  else if (s =? "markowitz")%string then Some MARKOWITZ
  else if (s =? "blackscholes")%string then Some BLACK_SCHOLES
  else if (s =? "backtest")%string then Some BACKTEST
  else None.

(** The enumeration has four members; there is none for ["cancelled"]. *)
Inductive JobStatus : Type := QUEUED | RUNNING | COMPLETED | FAILED.

Definition JobStatus_value (s : JobStatus) : string :=
  match s with
  | QUEUED => "queued"
  | RUNNING => "running"
  | COMPLETED => "completed"
  | FAILED => "failed"
  end.

Definition JobStatus_of (s : string) : option JobStatus :=
  if (s =? "queued")%string then Some QUEUED
  else if (s =? "running")%string then Some RUNNING
  else if (s =? "completed")%string then Some COMPLETED
  else if (s =? "failed")%string then Some FAILED
  else None.

Definition DataInterval_values : list string :=
  ["1min"; "5min"; "15min"; "30min"; "45min"; "1h"; "2h"; "4h"; "1d";
   "1week"; "1month"].

Definition DataVendor_values : list string := ["eodhd"; "twelvedata"].

Definition mem_string (s : string) (l : list string) : bool :=
  existsb (String.eqb s) l.

(** ** The job store ([backend/app/models.py]) *)

(** A row of the table [jobs].  The columns [id] and [created_at] take their
    defaults ([uuid.uuid4], [datetime.utcnow]) when the row is inserted. *)
Record Job : Type := mkJob {
  id : UUID;
  user_id : UUID;
  type : string;
  status : string;
  params_json : json;
  symbols : list string;
  start_ts : datetime;
  end_ts : datetime;
  interval : string;
  vendor : string;
  adjusted : bool;
  created_at : datetime;
  started_at : option datetime;
  finished_at : option datetime;
  result_refs : option json;
  error : option string
}.

Definition with_status (s : string) (j : Job) : Job :=
  mkJob (id j) (user_id j) (type j) s (params_json j) (symbols j)
    (start_ts j) (end_ts j) (interval j) (vendor j) (adjusted j)
    (created_at j) (started_at j) (finished_at j) (result_refs j) (error j).

Definition with_started_at (t : option datetime) (j : Job) : Job :=
  mkJob (id j) (user_id j) (type j) (status j) (params_json j) (symbols j)
    (start_ts j) (end_ts j) (interval j) (vendor j) (adjusted j)
    (created_at j) t (finished_at j) (result_refs j) (error j).

Definition with_finished_at (t : option datetime) (j : Job) : Job :=
  mkJob (id j) (user_id j) (type j) (status j) (params_json j) (symbols j)
    (start_ts j) (end_ts j) (interval j) (vendor j) (adjusted j)
    (created_at j) (started_at j) t (result_refs j) (error j).

Definition with_result_refs (r : option json) (j : Job) : Job :=
  mkJob (id j) (user_id j) (type j) (status j) (params_json j) (symbols j)
    (start_ts j) (end_ts j) (interval j) (vendor j) (adjusted j)
    (created_at j) (started_at j) (finished_at j) r (error j).

Definition with_error (e : option string) (j : Job) : Job :=
  mkJob (id j) (user_id j) (type j) (status j) (params_json j) (symbols j)
    (start_ts j) (end_ts j) (interval j) (vendor j) (adjusted j)
    (created_at j) (started_at j) (finished_at j) (result_refs j) e.

(** A SQLAlchemy session on the table: the committed rows in insertion
    order, and the objects handed to [db.add] that no commit has written. *)
Record Session : Type := mkSession {
  rows : list Job;
  pending : list Job
}.

Definition db_add (j : Job) (db : Session) : Session :=
  mkSession (rows db) (pending db ++ [j]).

Definition has_id (u : UUID) (l : list Job) : bool :=
  existsb (fun j => id j =? u) l.

Fixpoint insert_rows (new : list Job) (table : list Job) : option (list Job) :=
  match new with
  | [] => Some table
  | j :: rest =>
      if has_id (id j) table then None else insert_rows rest (table ++ [j])
  end.

(** [db.commit()]: the pending objects become rows; a primary key already
    in the table is refused and nothing is written. *)
Definition db_commit (db : Session) : result unit * Session :=
  match insert_rows (pending db) (rows db) with
  | Some table => (Ok tt, mkSession table [])
  | None => (Raise (Exception "IntegrityError" "duplicate key"), db)
  end.

Definition db_rollback (db : Session) : Session := mkSession (rows db) [].

(** [db.commit()] in a session whose only change is the one made to an
    object loaded under the key [key]: the row of that key is rewritten.
    This is the commit of the handlers, whose session [get_db] opens for
    the request and which holds no added object when [update_status] runs.
    Objects left pending would be written by the same commit: what is
    stated of [set_error] and [set_results] on a session of any origin is
    stated for [pending db = []]. *)
Definition db_commit_object (key : UUID) (j : Job) (db : Session) : Session :=
  mkSession (map (fun r => if id r =? key then j else r) (rows db))
            (pending db).

(** [Job.create_job] *)
Definition Job_create_job (py : PyLib) (db : Session)
    (new_id : UUID) (now : datetime)
    (user : UUID) (job_type : string) (syms : list string)
    (start_date end_date : string) (ival vend : string) (adj : bool)
    (params : json) : result Job * Session :=
  match strptime_ymd py start_date with
  | None => (Raise (Exception "ValueError" "time data does not match format"), db)
  | Some start =>
      match strptime_ymd py end_date with
      | None =>
          (Raise (Exception "ValueError" "time data does not match format"), db)
      | Some stop =>
          let job := mkJob new_id user job_type "queued" params syms
                           start stop ival vend adj now None None None None in
          let db1 := db_add job db in
          match db_commit db1 with
          | (Ok _, db2) => (Ok job, db2)
          | (Raise e, db2) => (Raise e, db2)
          end
      end
  end.

(** [Job.get_job]: the first row with that identifier. *)
Definition Job_get_job (db : Session) (job_id : UUID) : option Job :=
  find (fun j => id j =? job_id) (rows db).

(** [ORDER BY created_at DESC].  SQL leaves open the order of rows created
    at the same instant; they come here in the reverse of their insertion
    order, as SQLite and PostgreSQL return them for this query, and no
    statement below depends on it. *)
Fixpoint insert_desc (j : Job) (l : list Job) : list Job :=
  match l with
  | [] => [j]
  | k :: l' =>
      if created_at k <? created_at j then j :: l else k :: insert_desc j l'
  end.

Definition order_by_created_desc (l : list Job) : list Job :=
  fold_right insert_desc [] l.

Definition owned_by (u : UUID) (l : list Job) : list Job :=
  filter (fun j => user_id j =? u) l.

(** [Job.get_user_jobs]: one page of the user's jobs, newest first, and the
    number of all the user's jobs.  [OFFSET] and [LIMIT] are those of a page
    [1 <= page] of a size [0 <= size], as [list_jobs] asks for; on a
    negative number the two databases part ways (SQLite takes a negative
    limit for none and a negative offset for 0, PostgreSQL refuses the
    query), and the statements below take the bounds as hypotheses. *)
Definition Job_get_user_jobs (db : Session) (u : UUID) (page size : Z)
  : list Job * Z :=
  let offset := (page - 1) * size in
  let jobs := firstn (Z.to_nat size)
                (skipn (Z.to_nat offset)
                   (order_by_created_desc (owned_by u (rows db)))) in
  let total := Z.of_nat (List.length (owned_by u (rows db))) in
  (jobs, total).

(** A keyword argument of [update_status]: [setattr] writes it when the
    object has an attribute of that name.  [status] is the positional
    parameter and never a keyword; a name that is no column ([kw_other])
    leaves the row as it is. *)
Inductive kwarg : Type :=
| kw_id (v : UUID)
| kw_user_id (v : UUID)
| kw_type (v : string)
| kw_params_json (v : json)
| kw_symbols (v : list string)
| kw_start_ts (v : datetime)
| kw_end_ts (v : datetime)
| kw_interval (v : string)
| kw_vendor (v : string)
| kw_adjusted (v : bool)
| kw_created_at (v : datetime)
| kw_started_at (v : option datetime)
| kw_finished_at (v : option datetime)
| kw_result_refs (v : option json)
| kw_error (v : option string)
| kw_other (name : string).

Definition setattr (j : Job) (k : kwarg) : Job :=
  match k with
  | kw_id v =>
      mkJob v (user_id j) (type j) (status j) (params_json j) (symbols j)
        (start_ts j) (end_ts j) (interval j) (vendor j) (adjusted j)
        (created_at j) (started_at j) (finished_at j) (result_refs j)
        (error j)
  | kw_user_id v =>
      mkJob (id j) v (type j) (status j) (params_json j) (symbols j)
        (start_ts j) (end_ts j) (interval j) (vendor j) (adjusted j)
        (created_at j) (started_at j) (finished_at j) (result_refs j)
        (error j)
  | kw_type v =>
      mkJob (id j) (user_id j) v (status j) (params_json j) (symbols j)
        (start_ts j) (end_ts j) (interval j) (vendor j) (adjusted j)
        (created_at j) (started_at j) (finished_at j) (result_refs j)
        (error j)
  | kw_params_json v =>
      mkJob (id j) (user_id j) (type j) (status j) v (symbols j) (start_ts j)
        (end_ts j) (interval j) (vendor j) (adjusted j) (created_at j)
        (started_at j) (finished_at j) (result_refs j) (error j)
  | kw_symbols v =>
      mkJob (id j) (user_id j) (type j) (status j) (params_json j) v
        (start_ts j) (end_ts j) (interval j) (vendor j) (adjusted j)
        (created_at j) (started_at j) (finished_at j) (result_refs j)
        (error j)
  | kw_start_ts v =>
      mkJob (id j) (user_id j) (type j) (status j) (params_json j) (symbols j)
        v (end_ts j) (interval j) (vendor j) (adjusted j) (created_at j)
        (started_at j) (finished_at j) (result_refs j) (error j)
  | kw_end_ts v =>
      mkJob (id j) (user_id j) (type j) (status j) (params_json j) (symbols j)
        (start_ts j) v (interval j) (vendor j) (adjusted j) (created_at j)
        (started_at j) (finished_at j) (result_refs j) (error j)
  | kw_interval v =>
      mkJob (id j) (user_id j) (type j) (status j) (params_json j) (symbols j)
        (start_ts j) (end_ts j) v (vendor j) (adjusted j) (created_at j)
        (started_at j) (finished_at j) (result_refs j) (error j)
  | kw_vendor v =>
      mkJob (id j) (user_id j) (type j) (status j) (params_json j) (symbols j)
        (start_ts j) (end_ts j) (interval j) v (adjusted j) (created_at j)
        (started_at j) (finished_at j) (result_refs j) (error j)
  | kw_adjusted v =>
      mkJob (id j) (user_id j) (type j) (status j) (params_json j) (symbols j)
        (start_ts j) (end_ts j) (interval j) (vendor j) v (created_at j)
        (started_at j) (finished_at j) (result_refs j) (error j)
  | kw_created_at v =>
      mkJob (id j) (user_id j) (type j) (status j) (params_json j) (symbols j)
        (start_ts j) (end_ts j) (interval j) (vendor j) (adjusted j) v
        (started_at j) (finished_at j) (result_refs j) (error j)
  | kw_started_at v =>
      mkJob (id j) (user_id j) (type j) (status j) (params_json j) (symbols j)
        (start_ts j) (end_ts j) (interval j) (vendor j) (adjusted j)
        (created_at j) v (finished_at j) (result_refs j) (error j)
  | kw_finished_at v =>
      mkJob (id j) (user_id j) (type j) (status j) (params_json j) (symbols j)
        (start_ts j) (end_ts j) (interval j) (vendor j) (adjusted j)
        (created_at j) (started_at j) v (result_refs j) (error j)
  | kw_result_refs v =>
      mkJob (id j) (user_id j) (type j) (status j) (params_json j) (symbols j)
        (start_ts j) (end_ts j) (interval j) (vendor j) (adjusted j)
        (created_at j) (started_at j) (finished_at j) v (error j)
  | kw_error v =>
      mkJob (id j) (user_id j) (type j) (status j) (params_json j) (symbols j)
        (start_ts j) (end_ts j) (interval j) (vendor j) (adjusted j)
        (created_at j) (started_at j) (finished_at j) (result_refs j) v
  | kw_other _ => j
  end.

(** [Job.update_status]: the status is assigned first, whatever the current
    one is. *)
Definition Job_update_status (j : Job) (db : Session) (now : datetime)
    (new_status : string) (kwargs : list kwarg) : Job * Session :=
  let j1 := with_status new_status j in
  let j2 :=
    if (new_status =? "running")%string then
      match started_at j1 with
      | None => with_started_at (Some now) j1
      | Some _ => j1
      end
    else if mem_string new_status ["completed"; "failed"] then
      match finished_at j1 with
      | None => with_finished_at (Some now) j1
      | Some _ => j1
      end
    else j1 in
  let j3 := fold_left setattr kwargs j2 in
  (j3, db_commit_object (id j) j3 db).

(** [Job.set_error] *)
Definition Job_set_error (j : Job) (db : Session) (now : datetime)
    (err : string) : Job * Session :=
  Job_update_status (with_error (Some err) j) db now "failed" [].

(** [Job.set_results] *)
Definition Job_set_results (j : Job) (db : Session) (now : datetime)
    (refs : json) : Job * Session :=
  Job_update_status (with_result_refs (Some refs) j) db now "completed" [].

(** ** The publisher ([backend/app/pubsub.py]) *)

(** [self.publisher] is [None] when the client was not initialised (no
    [GCP_PROJECT], or the library is missing); otherwise the broker answers
    a publish with a message identifier or an exception. *)
Record PubSubPublisher : Type := {
  publisher : option (json -> result string)
}.

(** [PubSubPublisher.publish_job]; [topic] holds the messages the broker
    accepted so far. *)
Definition publish_job (self : PubSubPublisher) (topic : list json)
    (job_data : json) : result (option string) * list json :=
  match publisher self with
  | None => (Ok None, topic)
  | Some broker =>
      match broker job_data with
      | Ok message_id => (Ok (Some message_id), (topic ++ [job_data])%list)
      | Raise e => (Raise e, topic)
      end
  end.

(** ** The jobs API ([backend/app/api/jobs.py]) *)

(** What the handlers of the API act on: the session of the request and the
    topic of the broker. *)
Record App : Type := mkApp {
  db : Session;
  topic : list json
}.

(** The members of the [Union] of the field [params]: the four parameter
    models, and a dictionary that is none of them. *)
Inductive ParamsModel : Type :=
| MonteCarloParams
| MarkowitzParams
| BlackScholesParams
| BacktestParams
| PlainDict.

(** The fields of a [CreateJobRequest].  [r_params_model] is the member of
    the [Union] that the field [params] is an instance of, and [r_params]
    is what [create_job] hands to the store: [params.dict()] for a model,
    the dictionary itself otherwise. *)
Record CreateJobRequest : Type := {
  r_type : JobType;
  r_symbols : list string;
  r_start : string;
  r_end : string;
  r_interval : string;
  r_vendor : option string;
  r_adjusted : bool;
  r_params_model : ParamsModel;
  r_params : json
}.

(** The bounds of a [Field]: [ge] and [le] on a float or an integer, [gt]
    on a float; an [Optional] field may be [None]. *)
Definition float_between (lo hi : float) (v : json) : bool :=
  match v with
  | JFloat f => PrimFloat.leb lo f && PrimFloat.leb f hi
  | _ => false
  end.

Definition float_above (lo : float) (v : json) : bool :=
  match v with
  | JFloat f => PrimFloat.ltb lo f
  | _ => false
  end.

Definition int_between (lo hi : Z) (v : json) : bool :=
  match v with
  | JInt z => (lo <=? z) && (z <=? hi)
  | _ => false
  end.

Definition is_text (v : json) : bool :=
  match v with JStr _ => true | _ => false end.

Definition optional (p : json -> bool) (v : json) : bool :=
  match v with JNull => true | _ => p v end.

(** [d] is the [dict()] of an instance of the model: its fields in the
    order of their declaration, each of its type and within the bounds of
    its [Field]. *)
Definition is_params_dict (m : ParamsModel) (d : json) : bool :=
  match m, d with
  | MonteCarloParams,
    JObj [ (k1, simulations); (k2, time_steps); (k3, risk_free_rate);
           (k4, confidence_level) ] =>
      (k1 =? "simulations")%string && (k2 =? "time_steps")%string
      && (k3 =? "risk_free_rate")%string && (k4 =? "confidence_level")%string
      && int_between 1000 100000 simulations
      && int_between 30 1000 time_steps
      && float_between 0%float 0.5%float risk_free_rate
      && float_between 0.8%float 0.99%float confidence_level
  | MarkowitzParams,
    JObj [ (k1, target_return); (k2, risk_aversion); (k3, max_weight);
           (k4, min_weight); (k5, covariance_method) ] =>
      (k1 =? "target_return")%string && (k2 =? "risk_aversion")%string
      && (k3 =? "max_weight")%string && (k4 =? "min_weight")%string
      && (k5 =? "covariance_method")%string
      && optional (float_between 0%float 1%float) target_return
      && float_between 0.1%float 10%float risk_aversion
      && float_between 0.1%float 1%float max_weight
      && float_between 0%float 0.1%float min_weight
      && is_text covariance_method
  | BlackScholesParams,
    JObj [ (k1, option_type); (k2, strike_price); (k3, time_to_expiry);
           (k4, risk_free_rate); (k5, volatility) ] =>
      (k1 =? "option_type")%string && (k2 =? "strike_price")%string
      && (k3 =? "time_to_expiry")%string && (k4 =? "risk_free_rate")%string
      && (k5 =? "volatility")%string
      && match option_type with
         | JStr s => (s =? "call")%string || (s =? "put")%string
         | _ => false
         end
      && float_above 0%float strike_price
      && float_above 0%float time_to_expiry
      && float_between 0%float 10%float time_to_expiry
      && float_between 0%float 0.5%float risk_free_rate
      && optional (float_between 0.01%float 5%float) volatility
  | BacktestParams,
    JObj [ (k1, strategy); (k2, rebalance_frequency); (k3, transaction_costs);
           (k4, slippage) ] =>
      (k1 =? "strategy")%string && (k2 =? "rebalance_frequency")%string
      && (k3 =? "transaction_costs")%string && (k4 =? "slippage")%string
      && is_text strategy && is_text rebalance_frequency
      && float_between 0%float 0.1%float transaction_costs
      && float_between 0%float 0.01%float slippage
  | PlainDict, JObj _ => true
  | _, _ => false
  end.

(** [s.replace(c, "")] for a character [c]. *)
Fixpoint remove_char (c : Ascii.ascii) (s : string) : string :=
  match s with
  | EmptyString => EmptyString
  | String x s' =>
      if Ascii.eqb x c then remove_char c s' else String x (remove_char c s')
  end.

(** [c.isalnum()]: the digits and letters among the characters of one
    byte, by their code points. *)
Definition char_isalnum (c : Ascii.ascii) : bool :=
  let n := Z.of_nat (Ascii.nat_of_ascii c) in
  existsb (fun r => (fst r <=? n) && (n <=? snd r))
    [ (48, 57); (65, 90); (97, 122); (170, 170); (178, 179); (181, 181);
      (185, 186); (188, 190); (192, 214); (216, 246); (248, 255) ].

(** [s.isalnum()]: every character is a letter or a digit, and there is at
    least one. *)
Definition isalnum (s : string) : bool :=
  negb (s =? "")%string && forallb char_isalnum (list_ascii_of_string s).

(** The validators of [CreateJobRequest].  [local_now] is
    [datetime.now()].  Strings are compared as Python compares them,
    character by character. *)
Definition validate_dates (py : PyLib) (local_now : datetime) (v : string)
  : bool :=
  match strptime_ymd py v with
  | Some date_obj => negb (local_now <? date_obj)
  | None => false
  end.

Definition validate_date_range (start stop : string) : bool :=
  negb (String.leb stop start).

Fixpoint all_distinct (l : list string) : bool :=
  match l with
  | [] => true
  | s :: l' => negb (mem_string s l') && all_distinct l'
  end.

Definition validate_symbols (v : list string) : bool :=
  all_distinct v
  && forallb (fun symbol =>
                negb (symbol =? "")%string
                && (Z.of_nat (String.length symbol) <=? 20)
                && isalnum (remove_char "/"%char
                              (remove_char "-"%char
                                 (remove_char "."%char symbol)))) v.

Definition validate_params_type (t : JobType) (m : ParamsModel) : bool :=
  match t, m with
  | MONTE_CARLO, MonteCarloParams => true
  | MARKOWITZ, MarkowitzParams => true
  | BLACK_SCHOLES, BlackScholesParams => true
  | BACKTEST, BacktestParams => true
  | _, _ => false
  end.

Definition CreateJobRequest_validators (py : PyLib) (local_now : datetime)
    (req : CreateJobRequest) : bool :=
  (1 <=? Z.of_nat (List.length (r_symbols req)))
  && (Z.of_nat (List.length (r_symbols req)) <=? 100)
  && validate_dates py local_now (r_start req)
  && validate_dates py local_now (r_end req)
  && validate_date_range (r_start req) (r_end req)
  && validate_symbols (r_symbols req)
  && mem_string (r_interval req) DataInterval_values
  && match r_vendor req with
     | Some v => mem_string v DataVendor_values
     | None => true
     end
  && is_params_dict (r_params_model req) (r_params req)
  && validate_params_type (r_type req) (r_params_model req).

Record JobCreateResponse : Type := {
  c_job_id : UUID;
  c_status : JobStatus;
  c_message : string;
  c_estimated_duration : option Z
}.

Record JobStatusResponse : Type := {
  v_job_id : UUID;
  v_user_id : UUID;
  v_type : JobType;
  v_status : JobStatus;
  v_symbols : list string;
  v_start : string;
  v_end : string;
  v_interval : string;
  v_vendor : string;
  v_adjusted : bool;
  v_params : json;
  v_created_at : datetime;
  v_started_at : option datetime;
  v_finished_at : option datetime;
  v_metrics : option json;
  v_result_urls : option json;
  v_error : option string;
  v_progress : option float
}.

Record JobListResponse : Type := {
  l_jobs : list JobStatusResponse;
  l_total : Z;
  l_page : Z;
  l_size : Z;
  l_has_next : bool
}.

(** [_estimate_job_duration] *)
Definition _estimate_job_duration (job_type : JobType) (num_symbols : Z) : Z :=
  let base :=
    match job_type with
    | MONTE_CARLO => 30
    | MARKOWITZ => 15
    | BLACK_SCHOLES => 10
    | BACKTEST => 45
    end in
  let symbol_factor := Z.min (num_symbols * 2) 60 in
  base + symbol_factor.

(** [_calculate_job_progress]; [JobType(job.type)] raises on a type that is
    no member.  The column [created_at] is never null. *)
Definition _calculate_job_progress (job : Job) : result (option float) :=
  if (status job =? "queued")%string then Ok (Some 0%float)
  else if (status job =? "running")%string then
    match started_at job with
    | Some started =>
        let elapsed := total_seconds (started - created_at job) in
        match JobType_of (type job) with
        | None => Raise (Exception "ValueError" "not a valid JobType")
        | Some t =>
            let estimated_duration :=
              _estimate_job_duration t (Z.of_nat (List.length (symbols job))) in
            Ok (Some (py_min 0.9%float
                        (PrimFloat.div elapsed (float_of_Z estimated_duration))))
        end
    | None => Ok (Some 0.5%float)
    end
  else if (status job =? "completed")%string then Ok (Some 1%float)
  else if (status job =? "failed")%string then Ok (Some 0%float)
  else Ok None.

Definition ValidationError (model : string) : exn :=
  Exception "ValidationError" ("validation error for " ++ model).

(** [x.get(key) if x else None] on the column [result_refs]. *)
Definition refs_get (refs : option json) (key : string) : result (option json) :=
  match refs with
  | None => Ok None
  | Some r =>
      if truthy r then
        v <- py_get r key JNull ;;
        Ok match v with JNull => None | _ => Some v end
      else Ok None
  end.

Definition is_dict (v : json) : bool :=
  match v with JObj _ => true | _ => false end.

Definition is_str_list (v : json) : bool :=
  match v with
  | JArr l => forallb (fun x => match x with JStr _ => true | _ => false end) l
  | _ => false
  end.

Definition opt_check {A} (p : A -> bool) (o : option A) : bool :=
  match o with Some a => p a | None => true end.

(** The construction of a [JobStatusResponse] from a row, as [get_job] and
    [list_jobs] write it: the arguments are evaluated in order, then the
    model validates its fields and raises when one of them is refused. *)
Definition JobStatusResponse_of (py : PyLib) (job : Job)
  : result JobStatusResponse :=
  match JobType_of (type job) with
  | None => Raise (Exception "ValueError" "not a valid JobType")
  | Some t =>
      metrics <- refs_get (result_refs job) "metrics" ;;
      urls <- refs_get (result_refs job) "urls" ;;
      progress <- _calculate_job_progress job ;;
      match JobStatus_of (status job) with
      | None => Raise (ValidationError "JobStatusResponse")
      | Some st =>
          if mem_string (interval job) DataInterval_values
             && mem_string (vendor job) DataVendor_values
             && is_dict (params_json job)
             && opt_check is_dict metrics
             && opt_check is_str_list urls
             && opt_check (fun p => PrimFloat.leb 0%float p
                                    && PrimFloat.leb p 1%float) progress
          then
            Ok {| v_job_id := id job;
                  v_user_id := user_id job;
                  v_type := t;
                  v_status := st;
                  v_symbols := symbols job;
                  v_start := strftime_ymd py (start_ts job);
                  v_end := strftime_ymd py (end_ts job);
                  v_interval := interval job;
                  v_vendor := vendor job;
                  v_adjusted := adjusted job;
                  v_params := params_json job;
                  v_created_at := created_at job;
                  v_started_at := started_at job;
                  v_finished_at := finished_at job;
                  v_metrics := metrics;
                  v_result_urls := urls;
                  v_error := error job;
                  v_progress := progress |}
          else Raise (ValidationError "JobStatusResponse")
      end
  end.

(** The dispatch message [create_job] publishes for a job. *)
Definition message_data (py : PyLib) (job : Job) (req : CreateJobRequest)
  : json :=
  JObj [ ("job_id", JStr (uuid_str py (id job)));
         ("user_id", JStr (uuid_str py (user_id job)));
         ("type", JStr (type job));
         ("symbols", JArr (map JStr (symbols job)));
         ("start_date", JStr (r_start req));
         ("end_date", JStr (r_end req));
         ("interval", JStr (interval job));
         ("vendor", JStr (vendor job));
         ("adjusted", JBool (adjusted job));
         ("params", params_json job) ].

(** The call of [Job.create_job] that [create_job] makes for a request. *)
Definition persist_request (py : PyLib) (new_id : UUID) (now : datetime)
    (current_user : UUID) (req : CreateJobRequest) (d : Session)
  : result Job * Session :=
  Job_create_job py d new_id now current_user
    (JobType_value (r_type req)) (r_symbols req) (r_start req)
    (r_end req) (r_interval req)
    (match r_vendor req with Some v => v | None => "eodhd" end)
    (r_adjusted req) (r_params req).

(** The body of the [try] of [create_job]. *)
Definition create_job_try (py : PyLib) (pubsub : PubSubPublisher)
    (new_id : UUID) (now : datetime) (current_user : UUID)
    (req : CreateJobRequest) (w : App) : result JobCreateResponse * App :=
  match persist_request py new_id now current_user req (db w) with
  | (Raise e, db1) => (Raise e, mkApp db1 (topic w))
  | (Ok job, db1) =>
      match publish_job pubsub (topic w) (message_data py job req) with
      | (Raise e, topic1) => (Raise e, mkApp db1 topic1)
      | (Ok _, topic1) =>
          let estimated_duration :=
            _estimate_job_duration (r_type req)
              (Z.of_nat (List.length (r_symbols req))) in
          match JobStatus_of (status job) with
          | None => (Raise (ValidationError "JobCreateResponse"),
                     mkApp db1 topic1)
          | Some st =>
              (Ok {| c_job_id := id job;
                     c_status := st;
                     c_message := "Job queued successfully";
                     c_estimated_duration := Some estimated_duration |},
               mkApp db1 topic1)
          end
      end
  end.

(** [create_job]: any exception of the body rolls the session back and
    becomes a 500. *)
Definition create_job (py : PyLib) (pubsub : PubSubPublisher)
    (new_id : UUID) (now : datetime) (current_user : UUID)
    (req : CreateJobRequest) (w : App) : result JobCreateResponse * App :=
  match create_job_try py pubsub new_id now current_user req w with
  | (Ok resp, w1) => (Ok resp, w1)
  | (Raise e, w1) =>
      (Raise (HTTPException 500 ("Failed to create job: " ++ str_exn e)),
       mkApp (db_rollback (db w1)) (topic w1))
  end.

(** The lookup [get_job] and [cancel_job] start with. *)
Definition load_own_job (py : PyLib) (current_user : UUID) (job_id : string)
    (w : App) : result Job :=
  match uuid_parse py job_id with
  | None => Raise (HTTPException 400 "Invalid job ID format")
  | Some job_uuid =>
      match Job_get_job (db w) job_uuid with
      | None => Raise (HTTPException 404 "Job not found")
      | Some job =>
          if negb (user_id job =? current_user)
          then Raise (HTTPException 403 "Access denied")
          else Ok job
      end
  end.

(** [get_job] *)
Definition get_job (py : PyLib) (current_user : UUID) (job_id : string)
    (w : App) : result JobStatusResponse :=
  job <- load_own_job py current_user job_id w ;;
  JobStatusResponse_of py job.

(** The filter of [list_jobs]; an empty [status_filter] counts as absent. *)
Definition passes (job_type : option JobType) (status_filter : option string)
    (job : Job) : bool :=
  match job_type with
  | Some t => (type job =? JobType_value t)%string
  | None => true
  end
  &&
  match status_filter with
  | Some s => if (s =? "")%string then true else (status job =? s)%string
  | None => true
  end.

(** [list_jobs]; the bounds of [page] and [size] are those of their
    [Query] declarations, refused with a 422 before the handler runs. *)
Definition list_jobs (py : PyLib) (current_user : UUID) (page size : Z)
    (job_type : option JobType) (status_filter : option string) (w : App)
  : result JobListResponse :=
  if negb ((1 <=? page) && (1 <=? size) && (size <=? 100))
  then Raise (HTTPException 422 "Unprocessable Entity")
  else
    let '(jobs, total) := Job_get_user_jobs (db w) current_user page size in
    let jobs := filter (passes job_type status_filter) jobs in
    job_responses <- mapM (JobStatusResponse_of py) jobs ;;
    Ok {| l_jobs := job_responses;
          l_total := total;
          l_page := page;
          l_size := size;
          l_has_next := page * size <? total |}.

(** [cancel_job] *)
Definition cancel_job (py : PyLib) (now : datetime) (current_user : UUID)
    (job_id : string) (w : App) : result string * App :=
  match load_own_job py current_user job_id w with
  | Raise e => (Raise e, w)
  | Ok job =>
      if negb (status job =? "queued")%string
      then (Raise (HTTPException 400 "Only queued jobs can be cancelled"), w)
      else
        let '(_, db1) := Job_update_status job (db w) now "cancelled" [] in
        (Ok "Job cancelled successfully", mkApp db1 (topic w))
  end.

(** ** The worker ([backend/worker/main.py], [backend/worker/gcs.py]) *)

(** A table of [pandas], by its content. *)
Definition DataFrame := json.

(** The collaborators of the worker outside the repository: the warehouse
    behind [load_prices], the numeric models behind [run_model], [pandas],
    and the storage client behind the writer. *)
Record Services : Type := {
  load_prices : json -> json -> json -> json -> json -> json -> result DataFrame;
  run_model : json -> json -> DataFrame -> result (list (string * json));
  to_DataFrame : json -> result DataFrame;
  (** [self.bucket] of the writer is set *)
  bucket : bool;
  (** [blob.upload_from_string] on the object of that name *)
  upload : string -> result unit;
  (** [client.list_blobs] under a prefix: the call itself may fail *)
  list_blobs : string -> result unit;
  (** [blob.generate_signed_url] *)
  signed_url : string -> result string
}.

Inductive Blob : Type :=
| JsonBlob (v : json)
| CsvBlob (df : DataFrame).

(** The bucket: objects by name. *)
Definition Blobs := list (string * Blob).

Fixpoint put_blob (name : string) (b : Blob) (g : Blobs) : Blobs :=
  match g with
  | [] => [(name, b)]
  | (n, b') :: g' =>
      if (n =? name)%string then (n, b) :: g' else (n, b') :: put_blob name b g'
  end.

(** Code that writes to the bucket and may raise. *)
Definition M (A : Type) : Type := Blobs -> result A * Blobs.

Definition ret {A} (a : A) : M A := fun g => (Ok a, g).

Definition raise {A} (e : exn) : M A := fun g => (Raise e, g).

Definition lift {A} (r : result A) : M A := fun g => (r, g).

Definition bindM {A B} (m : M A) (k : A -> M B) : M B :=
  fun g =>
    match m g with
    | (Ok a, g1) => k a g1
    | (Raise e, g1) => (Raise e, g1)
    end.

Notation "x <~ m ;; k" := (bindM m (fun x => k))
  (at level 61, m at next level, right associativity).

(** [try: m except Exception as e: h e] *)
Definition try_except {A} (m : M A) (h : exn -> M A) : M A :=
  fun g =>
    match m g with
    | (Ok a, g1) => (Ok a, g1)
    | (Raise e, g1) => h e g1
    end.

Definition job_path (py : PyLib) (job_id : json) (filename : string) : string :=
  "jobs/" ++ py_format py job_id ++ "/" ++ filename.

Definition write_blob (sv : Services) (py : PyLib) (job_id : json)
    (filename : string) (b : Blob) : M string :=
  if bucket sv then
    let path := job_path py job_id filename in
    fun g =>
      match upload sv path with
      | Ok _ => (Ok path, put_blob path b g)
      | Raise e => (Raise e, g)
      end
  else raise (Exception "RuntimeError" "GCS client not available").

(** [GCSWriter.write_metrics_json] *)
Definition write_metrics_json (sv : Services) (py : PyLib) (job_id : json)
    (metrics : json) (filename : string) : M string :=
  write_blob sv py job_id filename (JsonBlob metrics).

(** [GCSWriter.write_artifact_dataframe] with the format ["csv"] *)
Definition write_artifact_dataframe (sv : Services) (py : PyLib)
    (job_id : json) (df : DataFrame) (name : string) : M string :=
  write_blob sv py job_id (name ++ ".csv") (CsvBlob df).

(** [GCSWriter.write_job_summary] *)
Definition write_job_summary (sv : Services) (py : PyLib) (now_iso : string)
    (job_id job_type syms start_date end_date metrics : json)
    (artifacts : list string) : M string :=
  let summary :=
    JObj [ ("job_id", job_id); ("job_type", job_type); ("symbols", syms);
           ("start_date", start_date); ("end_date", end_date);
           ("created_at", JStr now_iso); ("metrics", metrics);
           ("artifacts", JArr (map JStr artifacts)) ] in
  write_metrics_json sv py job_id summary "summary.json".

(** The store lists its objects in the order of their names. *)
Fixpoint insert_name (n : string) (l : list string) : list string :=
  match l with
  | [] => [n]
  | m :: l' => if String.leb n m then n :: l else m :: insert_name n l'
  end.

Definition sort_names (l : list string) : list string :=
  fold_right insert_name [] l.

(** [GCSWriter.generate_signed_urls]: one link per object under the
    directory of the job, in the order of the listing. *)
Definition generate_signed_urls (sv : Services) (py : PyLib) (job_id : json)
  : M (list string) :=
  if bucket sv then
    fun g =>
      let job_prefix := job_path py job_id "" in
      match list_blobs sv job_prefix with
      | Raise e => (Raise e, g)
      | Ok _ =>
          let names :=
            sort_names (filter (String.prefix job_prefix) (map fst g)) in
          (mapM (signed_url sv) names, g)
      end
  else raise (Exception "RuntimeError" "GCS client not available").

(** [d[key]]; the text of a [KeyError] is the key between quotes. *)
Definition getitem (d : list (string * json)) (key : string) : result json :=
  match assoc key d with
  | Some v => Ok v
  | None => Raise (Exception "KeyError" ("'" ++ key ++ "'"))
  end.

Definition has_key (key : string) (d : list (string * json)) : bool :=
  match assoc key d with Some _ => true | None => false end.

(** [len(v)]; a number, a boolean and [None] have no length. *)
Definition py_len (v : json) : result Z :=
  match v with
  | JStr s => Ok (Z.of_nat (String.length s))
  | JArr l => Ok (Z.of_nat (List.length l))
  | JObj l => Ok (Z.of_nat (List.length l))
  | _ => Raise (Exception "TypeError" "object has no len()")
  end.

Definition is_str (v : json) (s : string) : bool :=
  match v with JStr s' => (s' =? s)%string | _ => false end.

(** The [try] of [process_job]: load, run the model, write the artifacts. *)
Definition process_job_try (sv : Services) (py : PyLib) (now_iso : string)
    (job_id job_type syms start_date end_date ival vend adj params : json)
  : M json :=
  prices_df <~ lift (load_prices sv syms start_date end_date ival adj vend) ;;
  _ <~ lift (py_len syms) ;;
  model_results <~ lift (run_model sv job_type params prices_df) ;;
  metrics <~ lift (getitem model_results "metrics") ;;
  metrics_path <~ write_metrics_json sv py job_id metrics "metrics.json" ;;
  let artifacts := [metrics_path] in
  artifacts <~
    (if has_key "prices" model_results then
       prices_path <~ write_artifact_dataframe sv py job_id prices_df "prices" ;;
       ret (artifacts ++ [prices_path])%list
     else ret artifacts) ;;
  artifacts <~
    (if is_str job_type "montecarlo" && has_key "paths" model_results then
       paths <~ lift (getitem model_results "paths") ;;
       paths_df <~ lift (to_DataFrame sv paths) ;;
       paths_path <~
         write_artifact_dataframe sv py job_id paths_df "simulation_paths" ;;
       ret (artifacts ++ [paths_path])%list
     else if is_str job_type "markowitz" && has_key "weights" model_results then
       weights <~ lift (getitem model_results "weights") ;;
       weights_df <~ lift (to_DataFrame sv weights) ;;
       weights_path <~
         write_artifact_dataframe sv py job_id weights_df "portfolio_weights" ;;
       ret (artifacts ++ [weights_path])%list
     else ret artifacts) ;;
  _ <~ write_job_summary sv py now_iso job_id job_type syms start_date
         end_date metrics artifacts ;;
  signed_urls <~ generate_signed_urls sv py job_id ;;
  ret (JObj [ ("job_id", job_id); ("status", JStr "completed");
              ("artifacts", JArr (map JStr artifacts));
              ("signed_urls", JArr (map JStr signed_urls));
              ("metrics", metrics) ]).

(** The inner [try] of the handler of [process_job]: the error is written
    to the bucket as [error.json]; a failure of that write is printed and
    dropped. *)
Definition record_error (sv : Services) (py : PyLib) (now_iso : string)
    (job_id : json) (e : exn) : M unit :=
  let error_data :=
    JObj [ ("job_id", job_id); ("error", JStr (str_exn e));
           ("timestamp", JStr now_iso) ] in
  try_except
    (_ <~ write_metrics_json sv py job_id error_data "error.json" ;; ret tt)
    (fun _ => ret tt).

(** [process_job]: on an exception of the pipeline the error is recorded in
    the bucket and the exception is raised again.  The function has no
    handle on the job store. *)
Definition process_job (sv : Services) (py : PyLib) (now_iso : string)
    (job_data : json) : M json :=
  job_id <~ lift (py_get job_data "job_id" JNull) ;;
  job_type <~ lift (py_get job_data "type" JNull) ;;
  syms <~ lift (py_get job_data "symbols" (JArr [])) ;;
  start_date <~ lift (py_get job_data "start_date" JNull) ;;
  end_date <~ lift (py_get job_data "end_date" JNull) ;;
  ival <~ lift (py_get job_data "interval" (JStr "1d")) ;;
  vend <~ lift (py_get job_data "vendor" (JStr "eodhd")) ;;
  adj <~ lift (py_get job_data "adjusted" (JBool true)) ;;
  params <~ lift (py_get job_data "params" (JObj [])) ;;
  try_except
    (process_job_try sv py now_iso job_id job_type syms start_date end_date
       ival vend adj params)
    (fun e => _ <~ record_error sv py now_iso job_id e ;; raise e).

(** A push request of the broker: its [authorization] header, and the body
    as [request.json()] reads it, or the text of the exception it raises. *)
Record Request : Type := {
  authorization : option string;
  body : json + string
}.

Record JSONResponse : Type := {
  content : json;
  status_code : Z
}.

(** What [json.dumps(v, allow_nan=False)] accepts: a value in which no
    number is NaN or infinite. *)
Fixpoint json_compliant (v : json) : bool :=
  match v with
  | JFloat f => negb (PrimFloat.is_nan f || PrimFloat.is_infinity f)
  | JArr l => forallb json_compliant l
  | JObj items => forallb (fun kv => json_compliant (snd kv)) items
  | _ => true
  end.

(** [JSONResponse(content=..., status_code=...)]: the constructor renders
    the content at once, with [allow_nan=False], and raises when the
    content is refused; the texts of the content always encode. *)
Definition JSONResponse_init (content : json) (status_code : Z)
  : result JSONResponse :=
  if json_compliant content
  then Ok {| content := content; status_code := status_code |}
  else Raise (Exception "ValueError"
                "Out of range float values are not JSON compliant").

(** The decoding of the field [data] of the message; what is no text makes
    [b64decode] raise. *)
Definition decode_data (py : PyLib) (data : json) : json + string :=
  match data with
  | JStr s => b64_json_loads py s
  | _ => inr "argument should be a bytes-like object or ASCII string"
  end.

(** The [try] of [process_pubsub_message]. *)
Definition process_pubsub_message_try (sv : Services) (py : PyLib)
    (now_iso : string) (request : Request) : M JSONResponse :=
  match authorization request with
  | None => raise (HTTPException 401 "Invalid authentication")
  | Some auth_header =>
      if negb (String.prefix "Bearer " auth_header)
      then raise (HTTPException 401 "Invalid authentication")
      else
        match body request with
        | inr msg => raise (Exception "JSONDecodeError" msg)
        | inl body =>
            message <~ lift (py_get body "message" (JObj [])) ;;
            data <~ lift (py_get message "data" (JStr "")) ;;
            if negb (truthy data)
            then raise (HTTPException 400 "No message data")
            else
              match decode_data py data with
              | inr msg =>
                  raise (HTTPException 400 ("Invalid message format: " ++ msg))
              | inl job_data =>
                  _ <~ process_job sv py now_iso job_data ;;
                  job_id <~ lift (py_get job_data "job_id" JNull) ;;
                  lift (JSONResponse_init
                          (JObj [ ("status", JStr "processed");
                                  ("job_id", job_id) ]) 200)
              end
        end
  end.

(** The two [except] clauses of [process_pubsub_message]: an
    [HTTPException] passes, anything else becomes a 500. *)
Definition http_error_of (e : exn) : exn :=
  match e with
  | HTTPException _ _ => e
  | Exception _ _ =>
      HTTPException 500 ("Internal server error: " ++ str_exn e)
  end.

(** [process_pubsub_message] *)
Definition process_pubsub_message (sv : Services) (py : PyLib)
    (now_iso : string) (request : Request) : M JSONResponse :=
  try_except (process_pubsub_message_try sv py now_iso request)
    (fun e => raise (http_error_of e)).

(** ** The deployment: store, topic and bucket *)

Record System : Type := mkSystem {
  app : App;
  gcs : Blobs
}.

(** The broker pushes a request to the worker.  The worker is handed the
    bucket only: the job store is out of its reach. *)
Definition deliver (sv : Services) (py : PyLib) (now_iso : string)
    (request : Request) (s : System) : result JSONResponse * System :=
  let '(r, g) := process_pubsub_message sv py now_iso request (gcs s) in
  (r, mkSystem (app s) g).

(** What the broker takes as an acknowledgement: a response with a success
    status.  An error status makes it deliver the message again. *)
Inductive Delivery : Type := Ack | Nack.

Definition delivery_of (r : result JSONResponse) : Delivery :=
  match r with
  | Ok resp =>
      if (200 <=? status_code resp) && (status_code resp <? 300)
      then Ack else Nack
  | Raise _ => Nack
  end.

(** The request is one the handler authenticates and decodes to
    [job_data]. *)
Definition carries (py : PyLib) (request : Request) (job_data : json) : Prop :=
  exists auth_header payload message data,
    authorization request = Some auth_header /\
    String.prefix "Bearer " auth_header = true /\
    body request = inl payload /\
    py_get payload "message" (JObj []) = Ok message /\
    py_get message "data" (JStr "") = Ok data /\
    truthy data = true /\
    decode_data py data = inl job_data.

(** The request is one the handler authenticates and whose data it fails
    to decode, with the text [msg]. *)
Definition undecodable (py : PyLib) (request : Request) (msg : string) : Prop :=
  exists auth_header payload message data,
    authorization request = Some auth_header /\
    String.prefix "Bearer " auth_header = true /\
    body request = inl payload /\
    py_get payload "message" (JObj []) = Ok message /\
    py_get message "data" (JStr "") = Ok data /\
    truthy data = true /\
    decode_data py data = inr msg.

Definition field (items : list (string * json)) (key : string)
    (default : json) : json :=
  match assoc key items with Some v => v | None => default end.

(** The pipeline as [process_job] runs it for the message [items]. *)
Definition pipeline_run (sv : Services) (py : PyLib) (now_iso : string)
    (items : list (string * json)) : M json :=
  process_job_try sv py now_iso
    (field items "job_id" JNull) (field items "type" JNull)
    (field items "symbols" (JArr [])) (field items "start_date" JNull)
    (field items "end_date" JNull) (field items "interval" (JStr "1d"))
    (field items "vendor" (JStr "eodhd")) (field items "adjusted" (JBool true))
    (field items "params" (JObj [])).

Definition terminal (s : string) : bool :=
  mem_string s ["completed"; "failed"; "cancelled"].

(** The state the store holds for an identifier, if it holds a row. *)
Definition status_of (w : App) (u : UUID) : option string :=
  option_map status (Job_get_job (db w) u).

(** The requests that act on the system: a submission, a cancellation, a
    push to the worker.  The two queries of the API only read. *)
Inductive request_step (py : PyLib) : System -> System -> Prop :=
| step_create_job (pubsub : PubSubPublisher) (new_id : UUID) (now : datetime)
    (user : UUID) (req : CreateJobRequest) (s : System) :
    request_step py s
      (mkSystem (snd (create_job py pubsub new_id now user req (app s))) (gcs s))
| step_cancel_job (now : datetime) (user : UUID) (job_id : string)
    (s : System) :
    request_step py s
      (mkSystem (snd (cancel_job py now user job_id (app s))) (gcs s))
| step_deliver (sv : Services) (now_iso : string) (request : Request)
    (s : System) :
    request_step py s (snd (deliver sv py now_iso request s)).

(** A run: requests one after the other. *)
Inductive request_steps (py : PyLib) : System -> System -> Prop :=
| steps_none (s : System) : request_steps py s s
| steps_more (s s1 s2 : System) :
    request_steps py s s1 -> request_step py s1 s2 -> request_steps py s s2.

(** How the state stored under an identifier may differ between two
    systems: not at all, or created as [queued] (and possibly cancelled
    since), or moved from [queued] to [cancelled]. *)
Definition status_moved (before after : option string) : Prop :=
  after = before \/
  (before = None /\ (after = Some "queued" \/ after = Some "cancelled")) \/
  (before = Some "queued" /\ after = Some "cancelled").

(** ** Sample values

    Concrete library answers, rows and requests on which the statements
    below are evaluated. *)

Definition sample_uuid_text (u : UUID) : string :=
  "00000000-0000-0000-0000-00000000000" ++ str_of_int u.

(** The base64 text of a message for job 7. *)
Definition sample_payload : string :=
  "eyJqb2JfaWQiOiAiMDAwMDAwMDAtMDAwMC0wMDAwLTAwMDAtMDAwMDAwMDAwMDA3IiwgInR5cGUiOiAiYmxhY2tzY2hvbGVzIn0=".

(** The base64 text of [{"job_id": NaN, "type": "blackscholes"}], which
    [json.loads] accepts. *)
Definition nan_payload : string :=
  "eyJqb2JfaWQiOiBOYU4sICJ0eXBlIjogImJsYWNrc2Nob2xlcyJ9".

(** The answers of the libraries on the values used below. *)
Definition sample_py : PyLib :=
  {| uuid_parse := fun s =>
       if (s =? sample_uuid_text 1)%string then Some 1
       else if (s =? sample_uuid_text 7)%string then Some 7
       else if (s =? sample_uuid_text 8)%string then Some 8
       else None;
     uuid_str := sample_uuid_text;
     strptime_ymd := fun s =>
       if (s =? "2024-01-01")%string then Some 1704067200000000
       else if (s =? "2024-01-31")%string then Some 1706659200000000
       else None;
     strftime_ymd := fun d =>
       if d =? 1704067200000000 then "2024-01-01"
       else if d =? 1706659200000000 then "2024-01-31"
       else "1970-01-01";
     b64_json_loads := fun s =>
       if (s =? sample_payload)%string
       then inl (JObj [("job_id", JStr (sample_uuid_text 7));
                       ("type", JStr "blackscholes")])
       else if (s =? nan_payload)%string
       then inl (JObj [("job_id", JFloat PrimFloat.nan);
                       ("type", JStr "blackscholes")])
       else inr "Expecting property name enclosed in double quotes";
     py_format := fun v =>
       match v with
       | JStr s => s
       | JInt z => str_of_int z
       | JFloat f => if PrimFloat.is_nan f then "nan" else "None"
       | _ => "None"
       end |}.

(** The [dict()] of the parameters of a Black-Scholes job. *)
Definition sample_params : json :=
  JObj [ ("option_type", JStr "call"); ("strike_price", JFloat 150%float);
         ("time_to_expiry", JFloat 0.5%float);
         ("risk_free_rate", JFloat 0.02%float); ("volatility", JNull) ].

Definition sample_job (i : UUID) (st : string) (created : datetime)
    (started : option datetime) : Job :=
  {| id := i; user_id := 1; type := "blackscholes"; status := st;
     params_json := sample_params;
     symbols := ["AAPL"];
     start_ts := 1704067200000000; end_ts := 1706659200000000;
     interval := "1d"; vendor := "eodhd"; adjusted := true;
     created_at := created; started_at := started; finished_at := None;
     result_refs := None; error := None |}.

Definition sample_request : CreateJobRequest :=
  {| r_type := BLACK_SCHOLES; r_symbols := ["AAPL"];
     r_start := "2024-01-01"; r_end := "2024-01-31";
     r_interval := "1d"; r_vendor := Some "eodhd"; r_adjusted := true;
     r_params_model := BlackScholesParams; r_params := sample_params |}.

(** A Monte Carlo request, with the [dict()] of its [MonteCarloParams]. *)
Definition montecarlo_request : CreateJobRequest :=
  {| r_type := MONTE_CARLO; r_symbols := ["AAPL"; "MSFT"];
     r_start := "2024-01-01"; r_end := "2024-01-31";
     r_interval := "1d"; r_vendor := Some "eodhd"; r_adjusted := true;
     r_params_model := MonteCarloParams;
     r_params := JObj [ ("simulations", JInt 10000); ("time_steps", JInt 252);
                        ("risk_free_rate", JFloat 0.02%float);
                        ("confidence_level", JFloat 0.95%float) ] |}.

Definition empty_app : App := mkApp (mkSession [] []) [].

Definition app_of (table : list Job) : App := mkApp (mkSession table []) [].

Definition sample_store : App :=
  app_of [sample_job 7 "queued" 0 None; sample_job 8 "running" 0 (Some 5)].

Definition failing_publisher : PubSubPublisher :=
  {| publisher := Some (fun _ => Raise (Exception "DeadlineExceeded" "timeout")) |}.

Definition working_publisher : PubSubPublisher :=
  {| publisher := Some (fun _ => Ok "m-1") |}.

Definition disabled_publisher : PubSubPublisher := {| publisher := None |}.

(** Three jobs of user 1; the two newest are queued, the oldest runs. *)
Definition sample_listing : App :=
  app_of [sample_job 8 "running" 10 (Some 15);
          sample_job 7 "queued" 20 None;
          sample_job 1 "queued" 30 None].

(** The jobs of two users: the three jobs of user 1 above, and between
    them two jobs of user 2, one of them running. *)
Definition shared_listing : App :=
  app_of [sample_job 8 "running" 10 (Some 15);
          setattr (sample_job 5 "running" 15 (Some 18)) (kw_user_id 2);
          sample_job 7 "queued" 20 None;
          setattr (sample_job 6 "queued" 25 None) (kw_user_id 2);
          sample_job 1 "queued" 30 None].

(** Services that answer: prices, a model result with its metrics, and a
    bucket that takes every upload. *)
Definition working_services : Services :=
  {| load_prices := fun _ _ _ _ _ _ => Ok (JArr [JFloat 155%float]);
     run_model := fun _ _ _ =>
       Ok [("metrics", JObj [("delta", JFloat 0.5%float)])];
     to_DataFrame := fun v => Ok v;
     bucket := true;
     upload := fun _ => Ok tt;
     list_blobs := fun _ => Ok tt;
     signed_url := fun name => Ok ("https://storage/" ++ name) |}.

(** Services whose warehouse has no data. *)
Definition failing_services : Services :=
  {| load_prices := fun _ _ _ _ _ _ =>
       Raise (Exception "RuntimeError" "Failed to load prices from BigQuery");
     run_model := fun _ _ _ =>
       Ok [("metrics", JObj [("delta", JFloat 0.5%float)])];
     to_DataFrame := fun v => Ok v;
     bucket := true;
     upload := fun _ => Ok tt;
     list_blobs := fun _ => Ok tt;
     signed_url := fun name => Ok ("https://storage/" ++ name) |}.

Definition push_of (data : string) : Request :=
  {| authorization := Some "Bearer token";
     body := inl (JObj [("message", JObj [("data", JStr data)])]) |}.

(** The push of the message of job 7, and a push whose data is the base64
    text of [{not json]. *)
Definition sample_push : Request := push_of sample_payload.

Definition poison_push : Request := push_of "e25vdCBqc29u".

(** The push of a message whose job identifier is the number NaN. *)
Definition nan_push : Request := push_of nan_payload.

Definition system_of (table : list Job) : System :=
  mkSystem (app_of table) [].

(** ** Notions for the statements

    What a statement says of a query is said without the query. *)

(** [m] lists the elements of [l] that satisfy [P], in the order of [l]. *)
Inductive selected {A : Type} (P : A -> Prop) : list A -> list A -> Prop :=
| selected_nil : selected P [] []
| selected_keep (a : A) (l m : list A) :
    P a -> selected P l m -> selected P (a :: l) (a :: m)
| selected_drop (a : A) (l m : list A) :
    ~ P a -> selected P l m -> selected P (a :: l) m.

(** A list of jobs runs from the newest to the oldest. *)
Definition newest_first (l : list Job) : Prop :=
  StronglySorted (fun a b => created_at b <= created_at a) l.

(** The job is of the type and in the state that the filters of a listing
    ask for; an empty status filter asks for nothing. *)
Definition matches (job_type : option JobType) (status_filter : option string)
    (j : Job) : Prop :=
  (forall t, job_type = Some t -> type j = JobType_value t) /\
  (forall s, status_filter = Some s -> s <> "" -> status j = s).

(** The value holds a number that is NaN or infinite, at any depth. *)
Inductive nonfinite_in : json -> Prop :=
| nonfinite_float (f : float) :
    PrimFloat.is_nan f = true \/ PrimFloat.is_infinity f = true ->
    nonfinite_in (JFloat f)
| nonfinite_element (l : list json) (v : json) :
    In v l -> nonfinite_in v -> nonfinite_in (JArr l)
| nonfinite_item (items : list (string * json)) (k : string) (v : json) :
    In (k, v) items -> nonfinite_in v -> nonfinite_in (JObj items).

(** The identifier that [process_job] reads in a message. *)
Definition job_id_of (job_data : json) : json :=
  match job_data with
  | JObj items => field items "job_id" JNull
  | _ => JNull
  end.

(** ** The specification's wording

    Definitions that follow the words of the specification, to be compared
    with the code. *)

(** The estimate as the specification words it: the time elapsed since the
    job started, over the heuristic duration, capped at 0.9. *)
Definition running_progress_since_start (job : Job) (started now : datetime)
    (t : JobType) : float :=
  py_min 0.9%float
    (PrimFloat.div (total_seconds (now - started))
       (float_of_Z (_estimate_job_duration t
                      (Z.of_nat (List.length (symbols job)))))).

(** A successful submission creates exactly one record, in [queued], and
    publishes exactly one message, which carries the identifier of the
    record. *)
Definition submit_publishes_exactly_one : Prop :=
  forall (py : PyLib) (pubsub : PubSubPublisher) (new_id : UUID)
         (now local_now : datetime) (user : UUID) (req : CreateJobRequest)
         (w w' : App) (resp : JobCreateResponse),
    CreateJobRequest_validators py local_now req = true ->
    pending (db w) = [] ->
    create_job py pubsub new_id now user req w = (Ok resp, w') ->
    exists job message,
      rows (db w') = (rows (db w) ++ [job])%list /\
      status job = "queued" /\
      topic w' = (topic w ++ [message])%list /\
      py_get message "job_id" JNull = Ok (JStr (uuid_str py (id job))).

(** A delivery for a job whose record is in a terminal state is
    acknowledged and changes nothing: no run of the pipeline, no mutation. *)
Definition terminal_delivery_is_noop : Prop :=
  forall (sv : Services) (py : PyLib) (now_iso : string) (request : Request)
         (job_data : json) (job : Job) (s : System),
    carries py request job_data ->
    py_get job_data "job_id" JNull = Ok (JStr (uuid_str py (id job))) ->
    In job (rows (db (app s))) ->
    terminal (status job) = true ->
    let out := deliver sv py now_iso request s in
    delivery_of (fst out) = Ack /\ snd out = s.

(** A delivery whose pipeline fails moves the record from [running] to
    [failed], with its error, and is acknowledged. *)
Definition pipeline_failure_marks_failed : Prop :=
  forall (sv : Services) (py : PyLib) (now_iso : string) (request : Request)
         (items : list (string * json)) (job : Job) (s : System) (e : exn)
         (g : Blobs),
    carries py request (JObj items) ->
    field items "job_id" JNull = JStr (uuid_str py (id job)) ->
    Job_get_job (db (app s)) (id job) = Some job ->
    status job = "running" ->
    pipeline_run sv py now_iso items (gcs s) = (Raise e, g) ->
    let out := deliver sv py now_iso request s in
    delivery_of (fst out) = Ack /\
    exists job',
      Job_get_job (db (app (snd out))) (id job) = Some job' /\
      status job' = "failed" /\ error job' <> None.

(** A delivery whose payload cannot be decoded is acknowledged. *)
Definition undecodable_is_acked : Prop :=
  forall (sv : Services) (py : PyLib) (now_iso : string) (request : Request)
         (msg : string) (s : System),
    undecodable py request msg ->
    delivery_of (fst (deliver sv py now_iso request s)) = Ack.

(** The transitions of the lifecycle: [queued] to [running] or [cancelled],
    [running] to [completed] or [failed], and none out of a terminal
    state. *)
Definition lifecycle_edge (from to : string) : bool :=
  ((from =? "queued") && (to =? "running"))%string
  || ((from =? "queued") && (to =? "cancelled"))%string
  || ((from =? "running") && (to =? "completed"))%string
  || ((from =? "running") && (to =? "failed"))%string.

(** A mutation follows the lifecycle when it keeps the state or takes one
    of its transitions. *)
Definition follows_lifecycle (from to : string) : bool :=
  (from =? to)%string || lifecycle_edge from to.

(** Every status mutation follows the lifecycle. *)
Definition mutations_follow_lifecycle : Prop :=
  forall (j : Job) (d : Session) (now : datetime),
    (forall (new_status : string) (kwargs : list kwarg),
        follows_lifecycle (status j)
          (status (fst (Job_update_status j d now new_status kwargs))) = true) /\
    (forall (err : string),
        follows_lifecycle (status j)
          (status (fst (Job_set_error j d now err))) = true).

(** ** Further functions of the store and the publisher *)

(** [ORDER BY created_at ASC]; rows created at the same instant keep their
    insertion order. *)
Fixpoint insert_asc (j : Job) (l : list Job) : list Job :=
  match l with
  | [] => [j]
  | k :: l' =>
      if created_at j <=? created_at k then j :: l else k :: insert_asc j l'
  end.

Definition order_by_created_asc (l : list Job) : list Job :=
  fold_right insert_asc [] l.

(** [Job.get_pending_jobs]: the jobs that are queued or running, oldest
    first, at most [limit] of them, for a limit [0 <= limit]; on a negative
    limit the two databases part ways (SQLite takes it for no limit,
    PostgreSQL refuses the query), and the statement below takes the bound
    as a hypothesis. *)
Definition Job_get_pending_jobs (db : Session) (limit : Z) : list Job :=
  firstn (Z.to_nat limit)
    (order_by_created_asc
       (filter (fun j => mem_string (status j) ["queued"; "running"])
          (rows db))).

(** The object of the bucket under a name. *)
Fixpoint get_blob (name : string) (g : Blobs) : option Blob :=
  match g with
  | [] => None
  | (n, b) :: g' => if (n =? name)%string then Some b else get_blob name g'
  end.

(** A list of jobs runs from the oldest to the newest. *)
Definition oldest_first (l : list Job) : Prop :=
  StronglySorted (fun a b => created_at a <= created_at b) l.

Definition is_pending (j : Job) : bool :=
  mem_string (status j) ["queued"; "running"].

(** The name lies in the directory of the job in the bucket. *)
Definition in_job_dir (py : PyLib) (job_id : json) (name : string) : bool :=
  String.prefix (job_path py job_id "") name.

(** From [g] to [g'] the bucket changed only by objects written under names
    that satisfy [P]: every other name holds what it held, and no object
    disappeared. *)
Definition bucket_grows_in (P : string -> bool) (g g' : Blobs) : Prop :=
  forall name,
    get_blob name g' = get_blob name g \/
    (P name = true /\ get_blob name g' <> None).

Definition grows_in (P : string -> bool) {A} (m : M A) : Prop :=
  forall g, bucket_grows_in P g (snd (m g)).

(** The content of [error.json] for an exception. *)
Definition error_data (now_iso : string) (job_id : json) (e : exn) : json :=
  JObj [ ("job_id", job_id); ("error", JStr (str_exn e));
         ("timestamp", JStr now_iso) ].

(** The artifacts that a run of the pipeline lists for a result of the
    model: the metrics, the prices when the model returns any, then the
    paths of a Monte Carlo job or the weights of a Markowitz job. *)
Definition artifacts_of (py : PyLib) (job_id job_type : json)
    (model_results : list (string * json)) : list string :=
  ([job_path py job_id "metrics.json"]
   ++ (if has_key "prices" model_results
       then [job_path py job_id "prices.csv"] else [])
   ++ (if is_str job_type "montecarlo" && has_key "paths" model_results
       then [job_path py job_id "simulation_paths.csv"]
       else if is_str job_type "markowitz" && has_key "weights" model_results
       then [job_path py job_id "portfolio_weights.csv"]
       else []))%list.

(** Services whose writer has no bucket. *)
Definition bucketless_services : Services :=
  {| load_prices := load_prices working_services;
     run_model := run_model working_services;
     to_DataFrame := to_DataFrame working_services;
     bucket := false;
     upload := upload working_services;
     list_blobs := list_blobs working_services;
     signed_url := signed_url working_services |}.


(** A sequence of uploads, applied to the bucket in order. *)
Definition apply_writes (ws : list (string * Blob)) (g : Blobs) : Blobs :=
  fold_left (fun g w => put_blob (fst w) (snd w) g) ws g.

(** The last object that a sequence of uploads writes under a name. *)
Fixpoint last_write (name : string) (ws : list (string * Blob))
  : option Blob :=
  match ws with
  | [] => None
  | (n, b) :: ws' =>
      match last_write name ws' with
      | Some b' => Some b'
      | None => if (n =? name)%string then Some b else None
      end
  end.

(** Two sequences of uploads write the same names in the same order, and
    the same objects except perhaps under the name [skip]. *)
Definition same_writes_but (skip : string) (ws1 ws2 : list (string * Blob))
  : Prop :=
  Forall2 (fun w1 w2 => fst w1 = fst w2 /\ (fst w1 <> skip -> snd w1 = snd w2))
    ws1 ws2.

(** Two computations that do not read the bucket, return the same result
    and upload the same names, with the same objects outside [skip]. *)
Definition oblivious2 (skip : string) {A} (m1 m2 : M A) : Prop :=
  exists r ws1 ws2,
    same_writes_but skip ws1 ws2 /\
    (forall g, m1 g = (r, apply_writes ws1 g)) /\
    (forall g, m2 g = (r, apply_writes ws2 g)).

(** Two such computations whose result is read off the names of the bucket
    once the uploads are done. *)
Definition tail_reader2 (skip : string) {A} (m1 m2 : M A) : Prop :=
  exists ws1 ws2 (F : list string -> result A),
    same_writes_but skip ws1 ws2 /\
    (forall g, m1 g = (F (map fst (apply_writes ws1 g)), apply_writes ws1 g)) /\
    (forall g, m2 g = (F (map fst (apply_writes ws2 g)), apply_writes ws2 g)).

(** ** The publisher, its construction and its second entry point *)

(** [PubSubPublisher.__init__]: the client is built only when
    [GCP_PROJECT] is set to a non-empty text and the library was imported;
    a failure to build it is printed and leaves the publisher without a
    client.  [client] is what [pubsub_v1.PublisherClient()] gives. *)
Definition PubSubPublisher_init (GCP_PROJECT : option string)
    (PUBSUB_AVAILABLE : bool) (client : result (json -> result string))
  : PubSubPublisher :=
  let project_set :=
    match GCP_PROJECT with
    | Some p => negb (p =? "")%string
    | None => false
    end in
  if project_set && PUBSUB_AVAILABLE then
    match client with
    | Ok broker => {| publisher := Some broker |}
    | Raise _ => {| publisher := None |}
    end
  else {| publisher := None |}.

(** [get_pubsub_publisher]: the module keeps the publisher it built at the
    first call; [global] is [_pubsub_publisher]. *)
Definition get_pubsub_publisher (GCP_PROJECT : option string)
    (PUBSUB_AVAILABLE : bool) (client : result (json -> result string))
    (global : option PubSubPublisher)
  : PubSubPublisher * option PubSubPublisher :=
  match global with
  | Some p => (p, Some p)
  | None =>
      let p := PubSubPublisher_init GCP_PROJECT PUBSUB_AVAILABLE client in
      (p, Some p)
  end.

(** [d[key] = value] on a dictionary: the value of a key that is present
    is replaced where it stands, a new key goes to the end. *)
Fixpoint dict_set (items : list (string * json)) (key : string) (value : json)
  : list (string * json) :=
  match items with
  | [] => [(key, value)]
  | (k, v) :: rest =>
      if (k =? key)%string then (k, value) :: rest
      else (k, v) :: dict_set rest key value
  end.

(** [PubSubPublisher.publish_job_created]; the call itself is refused when
    a keyword repeats one of the named parameters. *)
Definition publish_job_created (self : PubSubPublisher) (topic : list json)
    (job_id job_type : string) (kwargs : list (string * json))
  : result (option string) * list json :=
  if has_key "self" kwargs || has_key "job_id" kwargs
     || has_key "job_type" kwargs
  then (Raise (Exception "TypeError" "got multiple values for argument"), topic)
  else
    let message_data :=
      fold_left (fun d kv => dict_set d (fst kv) (snd kv)) kwargs
        [ ("event_type", JStr "job_created"); ("job_id", JStr job_id);
          ("job_type", JStr job_type) ] in
    publish_job self topic (JObj message_data).

(** ** The test endpoint of the worker *)

(** The job of [test_job_processing]; [new_uuid] is [str(uuid.uuid4())]. *)
Definition test_job (new_uuid : string) : json :=
  JObj [ ("job_id", JStr new_uuid); ("type", JStr "montecarlo");
         ("symbols", JArr [JStr "AAPL"]);
         ("start_date", JStr "2024-01-01"); ("end_date", JStr "2024-01-31");
         ("interval", JStr "1d"); ("vendor", JStr "eodhd");
         ("adjusted", JBool true);
         ("params", JObj [ ("simulations", JInt 1000);
                           ("time_steps", JInt 252);
                           ("risk_free_rate", JFloat 0.02%float);
                           ("confidence_level", JFloat 0.95%float) ]) ].

(** [test_job_processing]; [ENVIRONMENT] is the variable of that name. *)
Definition test_job_processing (sv : Services) (py : PyLib)
    (now_iso : string) (ENVIRONMENT : option string) (new_uuid : string)
  : M json :=
  if match ENVIRONMENT with
     | Some env => (env =? "production")%string
     | None => false
     end
  then raise (HTTPException 404 "Test endpoint not available in production")
  else
    try_except
      (result <~ process_job sv py now_iso (test_job new_uuid) ;;
       ret (JObj [ ("status", JStr "success");
                   ("test_job", test_job new_uuid);
                   ("result", result) ]))
      (fun e =>
         ret (JObj [ ("status", JStr "error");
                     ("test_job", test_job new_uuid);
                     ("error", JStr (str_exn e)) ])).

(** ** What the requests can make of a row *)

(** A row as [create_job] writes it, possibly cancelled since: queued or
    cancelled, never started, never finished, without results or error. *)
Definition untouched_row (j : Job) : Prop :=
  (status j = "queued" \/ status j = "cancelled") /\
  started_at j = None /\ finished_at j = None /\
  result_refs j = None /\ error j = None.
(** * Properties *)

(** ** The progress estimator *)

Lemma calculate_job_progress_queued (job : Job) :
  status job = "queued" -> _calculate_job_progress job = Ok (Some 0%float).
Proof.
  intros H. unfold _calculate_job_progress. rewrite H. reflexivity.
Qed.

Lemma calculate_job_progress_completed (job : Job) :
  status job = "completed" -> _calculate_job_progress job = Ok (Some 1%float).
Proof.
  intros H. unfold _calculate_job_progress. rewrite H. reflexivity.
Qed.

Lemma calculate_job_progress_failed (job : Job) :
  status job = "failed" -> _calculate_job_progress job = Ok (Some 0%float).
Proof.
  intros H. unfold _calculate_job_progress. rewrite H. reflexivity.
Qed.

Lemma calculate_job_progress_cancelled (job : Job) :
  status job = "cancelled" -> _calculate_job_progress job = Ok None.
Proof.
  intros H. unfold _calculate_job_progress. rewrite H. reflexivity.
Qed.

(** While a job runs the estimate is computed from the delay between its
    creation and its start. *)
Lemma calculate_job_progress_running (job : Job) (started : datetime)
    (t : JobType) :
  status job = "running" ->
  started_at job = Some started ->
  JobType_of (type job) = Some t ->
  _calculate_job_progress job =
  Ok (Some (py_min 0.9%float
              (PrimFloat.div (total_seconds (started - created_at job))
                 (float_of_Z (_estimate_job_duration t
                                (Z.of_nat (List.length (symbols job)))))))).
Proof.
  intros Hs Hst Ht. unfold _calculate_job_progress.
  rewrite Hs, Hst, Ht. reflexivity.
Qed.

(** The heuristic duration is the base cost of the kind plus two seconds a
    symbol, the latter capped at sixty. *)
Lemma estimate_job_duration_bounds (t : JobType) (n : Z) :
  0 <= n ->
  10 <= _estimate_job_duration t n <= 105 /\
  _estimate_job_duration t n - _estimate_job_duration t 0 <= 60.
Proof.
  intros Hn. unfold _estimate_job_duration. destruct t; lia.
Qed.

(** C8: at a job created at second 0 and started at second 3, observed
    twenty seconds after its start: a Black-Scholes job on one symbol has a
    heuristic duration of 12 seconds; the estimator answers 3/12, the delay
    before the start over the duration, where the time since the start gives
    the cap 0.9; and it has no clock to read, so the answer stays 0.25 for
    as long as the job runs. *)
Theorem progress_running_uses_queue_delay :
  let job := sample_job 7 "running" 0 (Some 3000000) in
  _estimate_job_duration BLACK_SCHOLES 1 = 12 /\
  _calculate_job_progress job = Ok (Some 0.25%float) /\
  running_progress_since_start job 3000000 23000000 BLACK_SCHOLES = 0.9%float.
Proof.
  cbv zeta. split; [reflexivity|]. split; vm_compute; reflexivity.
Qed.

(** ** The view of a job *)

Lemma JobStatusResponse_of_cancelled (py : PyLib) (job : Job) :
  status job = "cancelled" ->
  exists e, JobStatusResponse_of py job = Raise e.
Proof.
  intros H. unfold JobStatusResponse_of.
  destruct (JobType_of (type job)); [|eauto].
  destruct (refs_get (result_refs job) "metrics"); cbn [bind]; [|eauto].
  destruct (refs_get (result_refs job) "urls"); cbn [bind]; [|eauto].
  rewrite (calculate_job_progress_cancelled job H). cbn [bind].
  rewrite H. cbn. eauto.
Qed.

Lemma JobStatus_of_value (s : string) (st : JobStatus) :
  JobStatus_of s = Some st -> JobStatus_value st = s.
Proof.
  unfold JobStatus_of.
  destruct (String.eqb_spec s "queued") as [->|_];
    [intros H; injection H as <-; reflexivity|].
  destruct (String.eqb_spec s "running") as [->|_];
    [intros H; injection H as <-; reflexivity|].
  destruct (String.eqb_spec s "completed") as [->|_];
    [intros H; injection H as <-; reflexivity|].
  destruct (String.eqb_spec s "failed") as [->|_];
    [intros H; injection H as <-; reflexivity|discriminate].
Qed.

Lemma JobType_of_value (s : string) (t : JobType) :
  JobType_of s = Some t -> JobType_value t = s.
Proof.
  unfold JobType_of.
  destruct (String.eqb_spec s "montecarlo") as [->|_];
    [intros H; injection H as <-; reflexivity|].
  destruct (String.eqb_spec s "markowitz") as [->|_];
    [intros H; injection H as <-; reflexivity|].
  destruct (String.eqb_spec s "blackscholes") as [->|_];
    [intros H; injection H as <-; reflexivity|].
  destruct (String.eqb_spec s "backtest") as [->|_];
    [intros H; injection H as <-; reflexivity|discriminate].
Qed.

(** A view that is built mirrors its row. *)
Lemma JobStatusResponse_of_mirrors (py : PyLib) (job : Job)
    (v : JobStatusResponse) :
  JobStatusResponse_of py job = Ok v ->
  v_job_id v = id job /\ v_user_id v = user_id job /\
  JobType_value (v_type v) = type job /\
  JobStatus_value (v_status v) = status job /\
  v_symbols v = symbols job /\ v_created_at v = created_at job /\
  v_started_at v = started_at job /\ v_finished_at v = finished_at job /\
  v_error v = error job /\
  _calculate_job_progress job = Ok (v_progress v).
Proof.
  unfold JobStatusResponse_of. intros H.
  destruct (JobType_of (type job)) as [t|] eqn:Ht; [|discriminate].
  destruct (refs_get (result_refs job) "metrics"); cbn [bind] in H;
    [|discriminate].
  destruct (refs_get (result_refs job) "urls"); cbn [bind] in H;
    [|discriminate].
  destruct (_calculate_job_progress job) as [p|]; cbn [bind] in H;
    [|discriminate].
  destruct (JobStatus_of (status job)) as [st|] eqn:Hst; [|discriminate].
  match type of H with
  | (if ?c then _ else _) = _ => destruct c; [|discriminate]
  end.
  injection H as <-. cbn.
  rewrite (JobType_of_value _ _ Ht), (JobStatus_of_value _ _ Hst).
  repeat split.
Qed.

(** C9: a stored job of the caller whose state is [cancelled] has no view:
    [get_job] raises, because [JobStatus] has no member for that state. *)
Theorem get_job_cancelled_raises (py : PyLib) (current_user : UUID)
    (job_id : string) (w : App) (job : Job) :
  load_own_job py current_user job_id w = Ok job ->
  status job = "cancelled" ->
  exists e, get_job py current_user job_id w = Raise e.
Proof.
  intros Hl Hs. unfold get_job. rewrite Hl. cbn [bind].
  apply JobStatusResponse_of_cancelled. exact Hs.
Qed.

(** ** Rows and identifiers *)

Lemma Job_get_job_id (d : Session) (u : UUID) (job : Job) :
  Job_get_job d u = Some job -> id job = u /\ In job (rows d).
Proof.
  unfold Job_get_job. intros H. apply find_some in H.
  destruct H as [Hin Heq]. apply Z.eqb_eq in Heq. auto.
Qed.

(** Rewriting the row of a key changes what a lookup by identifier finds
    only for that key. *)
Lemma find_after_commit_object (j : Job) (u : UUID) (l : list Job) :
  find (fun r => id r =? u)
       (map (fun r => if id r =? id j then j else r) l) =
  if u =? id j
  then match find (fun r => id r =? u) l with
       | Some _ => Some j
       | None => None
       end
  else find (fun r => id r =? u) l.
Proof.
  induction l as [|r l IH]; cbn [map find].
  - destruct (u =? id j); reflexivity.
  - destruct (Z.eqb_spec (id r) (id j)) as [E|E].
    + destruct (Z.eqb_spec u (id j)) as [F|F].
      * rewrite <- F in E. rewrite E, F, !Z.eqb_refl. reflexivity.
      * assert (G : (id j =? u) = false) by (apply Z.eqb_neq; congruence).
        assert (G' : (id r =? u) = false) by (apply Z.eqb_neq; congruence).
        rewrite G, G'. exact IH.
    + destruct (Z.eqb_spec (id r) u) as [F|F].
      * destruct (Z.eqb_spec u (id j)) as [F'|F']; [congruence|reflexivity].
      * exact IH.
Qed.

Lemma load_own_job_found (py : PyLib) (user : UUID) (job_id : string)
    (w : App) (job : Job) :
  load_own_job py user job_id w = Ok job ->
  uuid_parse py job_id = Some (id job) /\
  Job_get_job (db w) (id job) = Some job /\
  user_id job = user.
Proof.
  unfold load_own_job. intros H.
  destruct (uuid_parse py job_id) as [u|]; [|discriminate].
  destruct (Job_get_job (db w) u) as [j|] eqn:Hj; [|discriminate].
  destruct (Z.eqb_spec (user_id j) user) as [E|E]; cbn in H; [|discriminate].
  injection H as ->. destruct (Job_get_job_id _ _ _ Hj) as [-> _]. auto.
Qed.

Lemma update_status_cancelled (j : Job) (d : Session) (now : datetime) :
  Job_update_status j d now "cancelled" [] =
  (with_status "cancelled" j,
   db_commit_object (id j) (with_status "cancelled" j) d).
Proof. reflexivity. Qed.

(** ** Cancellation *)

(** C7: for a stored job of the caller, [cancel_job] succeeds exactly when
    the job is [queued], and the stored job is then [cancelled]; in any other
    state it fails with the client error 400 and the store is what it
    was. *)
Theorem cancel_job_iff_queued (py : PyLib) (now : datetime) (user : UUID)
    (job_id : string) (w : App) (job : Job) :
  load_own_job py user job_id w = Ok job ->
  ((exists m, fst (cancel_job py now user job_id w) = Ok m) <->
   status job = "queued") /\
  (status job = "queued" ->
   Job_get_job (db (snd (cancel_job py now user job_id w))) (id job) =
   Some (with_status "cancelled" job)) /\
  (status job <> "queued" ->
   cancel_job py now user job_id w =
   (Raise (HTTPException 400 "Only queued jobs can be cancelled"), w)).
Proof.
  intros Hl. destruct (load_own_job_found _ _ _ _ _ Hl) as (_ & Hget & _).
  unfold cancel_job. rewrite Hl.
  destruct (String.eqb_spec (status job) "queued") as [E|E]; cbn [negb].
  - rewrite update_status_cancelled. cbn [fst snd db].
    split; [split; eauto|]. split; [|congruence].
    intros _. unfold Job_get_job, db_commit_object. cbn [rows].
    rewrite (find_after_commit_object (with_status "cancelled" job)).
    cbn [id with_status]. rewrite Z.eqb_refl. unfold Job_get_job in Hget. rewrite Hget. reflexivity.
  - split; [|split].
    + cbn [fst]. split; [intros [m Hm]; discriminate | congruence].
    + congruence.
    + reflexivity.
Qed.

Lemma cancel_job_iff_queued_witness :
  load_own_job sample_py 1 (sample_uuid_text 7) sample_store =
    Ok (sample_job 7 "queued" 0 None) /\
  Job_get_job (db (snd (cancel_job sample_py 9 1 (sample_uuid_text 7)
                          sample_store))) 7 =
    Some (sample_job 7 "cancelled" 0 None).
Proof.
  split; [reflexivity|].
  apply (cancel_job_iff_queued sample_py 9 1 (sample_uuid_text 7) sample_store
           (sample_job 7 "queued" 0 None)); reflexivity.
Defined.

(** ** Submission *)

Lemma insert_rows_app (new table t' : list Job) :
  insert_rows new table = Some t' -> t' = (table ++ new)%list.
Proof.
  revert table. induction new as [|j new IH]; intros table H; cbn in H.
  - injection H as <-. now rewrite app_nil_r.
  - destruct (has_id (id j) table); [discriminate|].
    apply IH in H. now rewrite <- app_assoc in H.
Qed.

Lemma insert_rows_last_fresh (l : list Job) (j : Job) (table t' : list Job) :
  insert_rows (l ++ [j]) table = Some t' ->
  has_id (id j) (table ++ l) = false.
Proof.
  revert table. induction l as [|a l IH]; intros table H; cbn in H.
  - rewrite app_nil_r. destruct (has_id (id j) table); [discriminate|reflexivity].
  - destruct (has_id (id a) table); [discriminate|].
    apply IH in H. now rewrite <- app_assoc in H.
Qed.

Lemma find_app_fresh (u : UUID) (l l2 : list Job) :
  has_id u l = false ->
  find (fun r => id r =? u) (l ++ l2) = find (fun r => id r =? u) l2.
Proof.
  unfold has_id. induction l as [|a l IH]; cbn; [reflexivity|].
  intros H. apply orb_false_iff in H. destruct H as [Ha Hl].
  rewrite Ha. auto.
Qed.

Lemma find_app_other (u : UUID) (l : list Job) (j : Job) :
  id j <> u ->
  find (fun r => id r =? u) (l ++ [j]) = find (fun r => id r =? u) l.
Proof.
  intros Hne. induction l as [|a l IH]; cbn.
  - apply Z.eqb_neq in Hne. now rewrite Hne.
  - destruct (id a =? u); auto.
Qed.

(** What a successful [Job.create_job] leaves: the new row, in state
    [queued], after the rows the table had, under an identifier the table
    did not hold. *)
Lemma persist_request_ok (py : PyLib) (new_id : UUID) (now : datetime)
    (user : UUID) (req : CreateJobRequest) (d d1 : Session) (job : Job) :
  persist_request py new_id now user req d = (Ok job, d1) ->
  id job = new_id /\ user_id job = user /\ status job = "queued" /\
  created_at job = now /\ started_at job = None /\ finished_at job = None /\
  rows d1 = (rows d ++ pending d ++ [job])%list /\ pending d1 = [] /\
  has_id new_id (rows d ++ pending d) = false.
Proof.
  unfold persist_request, Job_create_job. intros H.
  destruct (strptime_ymd py (r_start req)) as [start|]; [|discriminate].
  destruct (strptime_ymd py (r_end req)) as [stop|]; [|discriminate].
  unfold db_commit, db_add in H. cbn [rows pending] in H.
  match type of H with
  | context [insert_rows ?n ?t] => destruct (insert_rows n t) as [t'|] eqn:Hi
  end; [|discriminate].
  injection H as <- <-. cbn [id user_id status created_at started_at
                             finished_at rows pending].
  pose proof (insert_rows_last_fresh _ _ _ _ Hi) as Hf.
  apply insert_rows_app in Hi. cbn [id] in Hf. subst t'. repeat split; auto.
Qed.

Lemma persisted_job_found (new_id : UUID) (d d1 : Session) (job : Job) :
  id job = new_id ->
  rows d1 = (rows d ++ pending d ++ [job])%list ->
  has_id new_id (rows d ++ pending d) = false ->
  Job_get_job d1 new_id = Some job.
Proof.
  intros Hid Hrows Hf. unfold Job_get_job. rewrite Hrows, app_assoc.
  rewrite find_app_fresh by exact Hf. cbn. rewrite Hid, Z.eqb_refl.
  reflexivity.
Qed.

(** C6: when the record is persisted and the publish that follows raises,
    [create_job] fails with a 500, and the store still holds the record, in
    state [queued]: the rollback of the handler undoes nothing that was
    committed.  No message reached the topic. *)
Theorem publish_failure_keeps_record (py : PyLib) (pubsub : PubSubPublisher)
    (broker : json -> result string) (new_id : UUID) (now : datetime)
    (user : UUID) (req : CreateJobRequest) (w : App) (job : Job)
    (d1 : Session) (e : exn) :
  persist_request py new_id now user req (db w) = (Ok job, d1) ->
  publisher pubsub = Some broker ->
  broker (message_data py job req) = Raise e ->
  let out := create_job py pubsub new_id now user req w in
  fst out = Raise (HTTPException 500 ("Failed to create job: " ++ str_exn e)) /\
  rows (db (snd out)) = rows d1 /\
  In job (rows (db (snd out))) /\
  Job_get_job (db (snd out)) (id job) = Some job /\
  status job = "queued" /\
  topic (snd out) = topic w.
Proof.
  intros Hp Hpub Hb. cbv zeta.
  destruct (persist_request_ok _ _ _ _ _ _ _ _ Hp)
    as (Hid & _ & Hst & _ & _ & _ & Hrows & Hpend & Hf).
  unfold create_job, create_job_try, publish_job.
  rewrite Hp, Hpub, Hb. cbn [fst snd db topic db_rollback rows].
  repeat split; auto.
  - rewrite Hrows, app_assoc. apply in_or_app. right. now left.
  - rewrite Hid. unfold Job_get_job. cbn [rows].
    apply (persisted_job_found new_id (db w) d1 job Hid Hrows Hf).
Qed.

Lemma publish_failure_keeps_record_witness :
  let out := create_job sample_py failing_publisher 7 100 1 sample_request
               empty_app in
  fst out = Raise (HTTPException 500 "Failed to create job: timeout") /\
  Job_get_job (db (snd out)) 7 =
    Some (sample_job 7 "queued" 100 None).
Proof.
  pose proof (publish_failure_keeps_record sample_py failing_publisher
                (fun _ => Raise (Exception "DeadlineExceeded" "timeout"))
                7 100 1 sample_request empty_app
                (sample_job 7 "queued" 100 None)
                (mkSession [sample_job 7 "queued" 100 None] [])
                (Exception "DeadlineExceeded" "timeout")
                eq_refl eq_refl eq_refl) as H.
  cbv zeta in *. destruct H as (H1 & _ & _ & H4 & _). split; assumption.
Defined.

Lemma validate_dates_parses (py : PyLib) (local_now : datetime) (v : string) :
  validate_dates py local_now v = true ->
  exists d, strptime_ymd py v = Some d.
Proof.
  unfold validate_dates. destruct (strptime_ymd py v); [eauto|discriminate].
Qed.

(** A request that passes its validators, under a free identifier, with a
    publisher that is absent or accepts the message, is answered: the call
    is successful. *)
Lemma create_job_succeeds (py : PyLib) (pubsub : PubSubPublisher)
    (new_id : UUID) (now local_now : datetime) (user : UUID)
    (req : CreateJobRequest) (w : App) :
  pending (db w) = [] ->
  CreateJobRequest_validators py local_now req = true ->
  has_id new_id (rows (db w)) = false ->
  (forall broker job, publisher pubsub = Some broker ->
                      exists mid, broker (message_data py job req) = Ok mid) ->
  exists w',
    create_job py pubsub new_id now user req w =
    (Ok {| c_job_id := new_id; c_status := QUEUED;
           c_message := "Job queued successfully";
           c_estimated_duration :=
             Some (_estimate_job_duration (r_type req)
                     (Z.of_nat (List.length (r_symbols req)))) |}, w').
Proof.
  intros Hpend Hv Hf Hb. unfold CreateJobRequest_validators in Hv.
  repeat (apply andb_true_iff in Hv; destruct Hv as [Hv ?]).
  destruct (validate_dates_parses py local_now (r_start req)) as [start Hs];
    [assumption|].
  destruct (validate_dates_parses py local_now (r_end req)) as [stop He];
    [assumption|].
  unfold create_job, create_job_try, persist_request, Job_create_job.
  rewrite Hs, He. unfold db_commit, db_add. cbn [rows pending].
  rewrite Hpend. cbn [List.app insert_rows id]. rewrite Hf.
  unfold publish_job. destruct (publisher pubsub) as [broker|] eqn:Hp.
  - match goal with
    | |- context [broker (message_data py ?j req)] =>
        destruct (Hb broker j eq_refl) as [mid Hm]; rewrite Hm
    end.
    cbn. eauto.
  - cbn. eauto.
Qed.

(** Without an initialised publisher the submission of a valid request
    succeeds and the topic receives nothing: a Monte Carlo request with its
    parameters, on two symbols, submitted on 1 February 2024. *)
Lemma submit_publishes_exactly_one_fails : ~ submit_publishes_exactly_one.
Proof.
  intros H.
  destruct (H sample_py disabled_publisher 7 1706745600000000
              1706745600000000 1 montecarlo_request empty_app
              _ _ eq_refl eq_refl eq_refl) as (job & message & _ & _ & Ht & _).
  cbn in Ht. destruct (topic empty_app); discriminate.
Qed.

(** C4: a successful [create_job] adds exactly one row, in state [queued],
    whose identifier the response carries, and leaves nothing pending; when
    the publisher is initialised the topic receives exactly one message, the
    one of that job, carrying its identifier; when it is not, the topic
    receives none. *)
Theorem create_job_one_record_at_most_one_message (py : PyLib)
    (pubsub : PubSubPublisher) (new_id : UUID) (now : datetime) (user : UUID)
    (req : CreateJobRequest) (w w' : App) (resp : JobCreateResponse) :
  pending (db w) = [] ->
  create_job py pubsub new_id now user req w = (Ok resp, w') ->
  exists job,
    rows (db w') = (rows (db w) ++ [job])%list /\
    pending (db w') = [] /\
    status job = "queued" /\
    id job = c_job_id resp /\
    c_status resp = QUEUED /\
    py_get (message_data py job req) "job_id" JNull =
      Ok (JStr (uuid_str py (c_job_id resp))) /\
    topic w' =
      match publisher pubsub with
      | Some _ => (topic w ++ [message_data py job req])%list
      | None => topic w
      end.
Proof.
  intros Hpend H. unfold create_job in H.
  destruct (create_job_try py pubsub new_id now user req w) as [[r|e] w1] eqn:Ht;
    [|discriminate].
  injection H as -> ->. unfold create_job_try in Ht.
  destruct (persist_request py new_id now user req (db w)) as [[job|e] d1] eqn:Hp;
    [|discriminate].
  destruct (persist_request_ok _ _ _ _ _ _ _ _ Hp)
    as (Hid & _ & Hst & _ & _ & _ & Hrows & Hpend1 & _).
  rewrite Hpend in Hrows. cbn [List.app] in Hrows.
  exists job. unfold publish_job in Ht.
  destruct (publisher pubsub) as [broker|].
  - destruct (broker (message_data py job req)) as [mid|e]; [|discriminate].
    rewrite Hst in Ht. cbn in Ht. injection Ht as <- <-.
    cbn [db topic c_job_id c_status]. repeat split; auto.
  - rewrite Hst in Ht. cbn in Ht. injection Ht as <- <-.
    cbn [db topic c_job_id c_status]. repeat split; auto.
Qed.

Lemma create_job_one_record_at_most_one_message_witness :
  exists job,
    rows (db (snd (create_job sample_py working_publisher 7 100 1
                     sample_request empty_app))) = [job] /\
    topic (snd (create_job sample_py working_publisher 7 100 1
                  sample_request empty_app)) =
      [message_data sample_py job sample_request].
Proof.
  destruct (create_job_one_record_at_most_one_message sample_py
              working_publisher 7 100 1 sample_request empty_app
              _ _ eq_refl eq_refl) as (job & Hr & _ & _ & _ & _ & _ & Ht).
  exists job. split; [exact Hr | exact Ht].
Defined.

(** ** Ordering and paging *)

Section Sorting.

Variables (A : Type) (R : A -> A -> Prop).

Lemma In_firstn (n : nat) (l : list A) (x : A) :
  In x (firstn n l) -> In x l.
Proof.
  intros H. rewrite <- (firstn_skipn n l). apply in_or_app. now left.
Qed.

Lemma In_skipn (n : nat) (l : list A) (x : A) :
  In x (skipn n l) -> In x l.
Proof.
  intros H. rewrite <- (firstn_skipn n l). apply in_or_app. now right.
Qed.

Lemma StronglySorted_firstn (n : nat) (l : list A) :
  StronglySorted R l -> StronglySorted R (firstn n l).
Proof.
  intros H. revert n. induction H as [|a l Hs IH Hf]; intros [|n]; cbn;
    try constructor.
  - apply IH.
  - rewrite Forall_forall in *. intros x Hx. apply Hf.
    apply (In_firstn n l x Hx).
Qed.

Lemma StronglySorted_skipn (n : nat) (l : list A) :
  StronglySorted R l -> StronglySorted R (skipn n l).
Proof.
  intros H. revert n. induction H as [|a l Hs IH Hf]; intros [|n]; cbn;
    try constructor; auto.
Qed.

(** A filter whose test decides [P] selects the elements that satisfy
    [P]. *)
Lemma selected_filter (P : A -> Prop) (f : A -> bool) (l : list A) :
  (forall a, f a = true <-> P a) -> selected P l (filter f l).
Proof.
  intros H. induction l as [|a l IH]; cbn; [constructor|].
  destruct (f a) eqn:E.
  - apply selected_keep; [now apply H | exact IH].
  - apply selected_drop; [|exact IH]. intros Ha. apply H in Ha. congruence.
Qed.

End Sorting.

Lemma In_firstn_skipn (A : Type) (n m : nat) (l : list A) (x : A) :
  In x (firstn n (skipn m l)) -> In x l.
Proof.
  intros H. apply In_firstn in H. now apply In_skipn in H.
Qed.

Lemma insert_desc_perm (j : Job) (l : list Job) :
  Permutation (insert_desc j l) (j :: l).
Proof.
  induction l as [|k l IH]; cbn; [reflexivity|].
  destruct (created_at k <? created_at j); [reflexivity|].
  rewrite IH. apply perm_swap.
Qed.

Lemma order_by_created_desc_perm (l : list Job) :
  Permutation (order_by_created_desc l) l.
Proof.
  induction l as [|j l IH]; cbn; [reflexivity|].
  rewrite insert_desc_perm. now constructor.
Qed.

Lemma insert_desc_sorted (j : Job) (l : list Job) :
  newest_first l -> newest_first (insert_desc j l).
Proof.
  unfold newest_first. intros H. induction H as [|k l Hs IH Hf]; cbn.
  - repeat constructor.
  - destruct (Z.ltb_spec (created_at k) (created_at j)) as [E|E].
    + constructor; [constructor; assumption|].
      constructor; [lia|].
      rewrite Forall_forall in *. intros x Hx. specialize (Hf x Hx). lia.
    + constructor; [exact IH|].
      eapply Permutation_Forall; [symmetry; apply insert_desc_perm|].
      constructor; [lia | exact Hf].
Qed.

Lemma order_by_created_desc_sorted (l : list Job) :
  newest_first (order_by_created_desc l).
Proof.
  induction l as [|j l IH]; cbn; [constructor|].
  apply insert_desc_sorted. exact IH.
Qed.

Lemma owned_by_selected (u : UUID) (l : list Job) :
  selected (fun j => user_id j = u) l (owned_by u l).
Proof.
  unfold owned_by. apply selected_filter. intros j. apply Z.eqb_eq.
Qed.

(** What [Job.get_user_jobs] returns, said without the query: the rows of
    the user, put from the newest to the oldest, cut to the page; and the
    number of the rows of the user. *)
Lemma get_user_jobs_spec (d : Session) (u : UUID) (page size : Z) :
  exists mine sorted,
    selected (fun j => user_id j = u) (rows d) mine /\
    Permutation sorted mine /\ newest_first sorted /\
    fst (Job_get_user_jobs d u page size) =
      firstn (Z.to_nat size) (skipn (Z.to_nat ((page - 1) * size)) sorted) /\
    snd (Job_get_user_jobs d u page size) = Z.of_nat (List.length mine).
Proof.
  exists (owned_by u (rows d)), (order_by_created_desc (owned_by u (rows d))).
  split; [apply owned_by_selected|].
  split; [apply order_by_created_desc_perm|].
  split; [apply order_by_created_desc_sorted|].
  split; reflexivity.
Qed.

(** ** Listing *)

Lemma mapM_length {A B} (f : A -> result B) (l : list A) (l' : list B) :
  mapM f l = Ok l' -> List.length l' = List.length l.
Proof.
  revert l'. induction l as [|a l IH]; intros l' H; cbn in H.
  - injection H as <-. reflexivity.
  - destruct (f a) as [b|e]; cbn in H; [|discriminate].
    destruct (mapM f l) as [bs|e]; cbn in H; [|discriminate].
    injection H as <-. cbn. f_equal. now apply IH.
Qed.

Lemma mapM_Forall2 {A B} (f : A -> result B) (l : list A) (l' : list B) :
  mapM f l = Ok l' -> Forall2 (fun a b => f a = Ok b) l l'.
Proof.
  revert l'. induction l as [|a l IH]; intros l' H; cbn in H.
  - injection H as <-. constructor.
  - destruct (f a) as [b|e] eqn:Hf; cbn in H; [|discriminate].
    destruct (mapM f l) as [bs|e]; cbn in H; [|discriminate].
    injection H as <-. constructor; auto.
Qed.

(** The test of [list_jobs] decides whether a job is of the type and in
    the state asked for. *)
Lemma passes_matches (job_type : option JobType)
    (status_filter : option string) (j : Job) :
  passes job_type status_filter j = true <-> matches job_type status_filter j.
Proof.
  unfold passes, matches. rewrite andb_true_iff. split.
  - intros [Ht Hs]. split.
    + intros t ->. now apply String.eqb_eq.
    + intros s -> Hne. destruct (String.eqb_spec s ""); [contradiction|].
      now apply String.eqb_eq.
  - intros [Ht Hs]. split.
    + destruct job_type as [t|]; [|reflexivity].
      apply String.eqb_eq. now apply Ht.
    + destruct status_filter as [s|]; [|reflexivity].
      destruct (String.eqb_spec s ""); [reflexivity|].
      apply String.eqb_eq. now apply Hs.
Qed.

Lemma list_jobs_ok (py : PyLib) (user : UUID) (page size : Z)
    (job_type : option JobType) (status_filter : option string) (w : App)
    (resp : JobListResponse) :
  list_jobs py user page size job_type status_filter w = Ok resp ->
  1 <= page /\ 1 <= size <= 100 /\
  mapM (JobStatusResponse_of py)
    (filter (passes job_type status_filter)
       (fst (Job_get_user_jobs (db w) user page size))) = Ok (l_jobs resp) /\
  l_total resp = snd (Job_get_user_jobs (db w) user page size) /\
  l_has_next resp = (page * size <? l_total resp).
Proof.
  unfold list_jobs. intros H.
  destruct ((1 <=? page) && (1 <=? size) && (size <=? 100)) eqn:Hb;
    cbn [negb] in H; [|discriminate].
  apply andb_true_iff in Hb. destruct Hb as [Hb H3].
  apply andb_true_iff in Hb. destruct Hb as [H1 H2].
  apply Z.leb_le in H1, H2, H3.
  destruct (Job_get_user_jobs (db w) user page size) as [jobs total].
  cbn [fst snd].
  destruct (mapM (JobStatusResponse_of py)
              (filter (passes job_type status_filter) jobs)) as [views|e];
    cbn [bind] in H; [|discriminate].
  injection H as <-. cbn. repeat split; auto.
Qed.

(** C10: [list_jobs] takes the page of the owner's jobs first and filters
    that page.  Said without the query: with [mine] the rows of the store
    whose owner is the caller, and [sorted] these rows from the newest to
    the oldest, the page is the segment of [sorted] that starts at
    [(page - 1) * size] and has at most [size] jobs; the listed views are
    those of the jobs of that page that are of the type and in the state
    asked for, in the order of the page; [total] is the number of [mine],
    and [has_next] compares [page * size] with it, whatever the filter.  So
    a filtered page can be shorter than [size] while [total] exceeds
    [page * size]: in a store of five jobs, three of them of user 1, a
    page of two and the filter [running] give user 1 an empty page, a total
    of 3 and [has_next], although one of the user's jobs is running. *)
Theorem list_jobs_filters_page_only :
  (forall (py : PyLib) (user : UUID) (page size : Z)
          (job_type : option JobType) (status_filter : option string)
          (w : App) (resp : JobListResponse),
      list_jobs py user page size job_type status_filter w = Ok resp ->
      exists mine sorted page_jobs kept,
        selected (fun j => user_id j = user) (rows (db w)) mine /\
        Permutation sorted mine /\ newest_first sorted /\
        page_jobs = firstn (Z.to_nat size)
                      (skipn (Z.to_nat ((page - 1) * size)) sorted) /\
        selected (matches job_type status_filter) page_jobs kept /\
        Forall2 (fun j v => JobStatusResponse_of py j = Ok v)
          kept (l_jobs resp) /\
        l_total resp = Z.of_nat (List.length mine) /\
        l_has_next resp = (page * size <? Z.of_nat (List.length mine)) /\
        (List.length (l_jobs resp) <= List.length page_jobs)%nat /\
        Z.of_nat (List.length page_jobs) <= size) /\
  (exists resp,
      list_jobs sample_py 1 1 2 None (Some "running") shared_listing = Ok resp /\
      l_jobs resp = [] /\ l_total resp = 3 /\ l_has_next resp = true /\
      List.length (rows (db shared_listing)) = 5%nat /\
      In (sample_job 8 "running" 10 (Some 15)) (rows (db shared_listing))).
Proof.
  split.
  - intros py user page size jt sf w resp H.
    destruct (list_jobs_ok _ _ _ _ _ _ _ _ H) as (Hp & Hs & Hm & Ht & Hn).
    destruct (get_user_jobs_spec (db w) user page size)
      as (mine & sorted & Hsel & Hperm & Hsort & Hpage & Htot).
    exists mine, sorted, (fst (Job_get_user_jobs (db w) user page size)),
      (filter (passes jt sf) (fst (Job_get_user_jobs (db w) user page size))).
    split; [exact Hsel|]. split; [exact Hperm|]. split; [exact Hsort|].
    split; [exact Hpage|].
    split; [apply selected_filter; intros j; apply passes_matches|].
    split; [apply mapM_Forall2; exact Hm|].
    split; [congruence|]. split; [congruence|]. split.
    + rewrite (mapM_length _ _ _ Hm). apply filter_length_le.
    + rewrite Hpage.
      pose proof (firstn_le_length (Z.to_nat size)
                    (skipn (Z.to_nat ((page - 1) * size)) sorted)) as Hl.
      lia.
  - eexists. split; [reflexivity|]. cbn [l_jobs l_total l_has_next].
    repeat split. left. reflexivity.
Qed.

Lemma list_jobs_filters_page_only_witness :
  exists resp mine,
    list_jobs sample_py 1 1 2 (Some BLACK_SCHOLES) (Some "queued")
      shared_listing = Ok resp /\
    selected (fun j => user_id j = 1) (rows (db shared_listing)) mine /\
    l_total resp = Z.of_nat (List.length mine) /\
    List.length (l_jobs resp) = 2%nat /\ l_total resp = 3.
Proof.
  eexists.
  destruct (proj1 list_jobs_filters_page_only sample_py 1 1 2
              (Some BLACK_SCHOLES) (Some "queued") shared_listing _ eq_refl)
    as (mine & sorted & page_jobs & kept & Hsel & _ & _ & _ & _ & _ & Ht & _).
  exists mine. split; [reflexivity|]. split; [exact Hsel|].
  split; [exact Ht|]. split; reflexivity.
Defined.

(** ** Deliveries *)

Section Deliveries.

Variables (sv : Services) (py : PyLib) (now_iso : string).

(** Both components of the outcome of a delivery follow the outcome of
    [process_job]. *)
Ltac by_run job_data s :=
  destruct (process_job sv py now_iso job_data (gcs s)) as [[?v|?e] ?g];
  reflexivity.

(** [process_job] returns only on a message that is a dictionary. *)
Lemma process_job_not_dict (job_data : json) (g : Blobs) (v : json)
    (g' : Blobs) :
  process_job sv py now_iso job_data g = (Ok v, g') ->
  exists items, job_data = JObj items.
Proof.
  destruct job_data; try (cbn; discriminate). eauto.
Qed.

(** What the handler does with a request it authenticates and decodes: it
    runs [process_job], and builds its response when that returns; the
    error of a response that cannot be built becomes a 500 like any
    other. *)
Lemma deliver_decoded (request : Request) (job_data : json) (s : System) :
  carries py request job_data ->
  deliver sv py now_iso request s =
  match process_job sv py now_iso job_data (gcs s) with
  | (Ok _, g) =>
      (match JSONResponse_init
               (JObj [ ("status", JStr "processed");
                       ("job_id", job_id_of job_data) ]) 200 with
       | Ok response => Ok response
       | Raise e => Raise (http_error_of e)
       end, mkSystem (app s) g)
  | (Raise e, g) => (Raise (http_error_of e), mkSystem (app s) g)
  end.
Proof.
  intros (h & b & message & data & Ha & Hp & Hb & Hm & Hd & Ht & Hdec).
  unfold deliver, process_pubsub_message, try_except,
    process_pubsub_message_try.
  rewrite Ha, Hp, Hb. cbn [negb]. unfold bindM at 1. unfold lift at 1.
  rewrite Hm. unfold bindM at 1. unfold lift at 1. rewrite Hd, Ht.
  cbn [negb]. rewrite Hdec. unfold bindM at 1.
  destruct (process_job sv py now_iso job_data (gcs s)) as [[v|e] g] eqn:Hr;
    [|reflexivity].
  destruct (process_job_not_dict _ _ _ _ Hr) as [items ->].
  unfold bindM, lift, ret, raise. cbn [py_get job_id_of].
  fold (field items "job_id" JNull).
  destruct (JSONResponse_init _ 200); reflexivity.
Qed.

(** An induction on JSON values that reaches the elements of an array and
    the values of a dictionary. *)
Lemma json_nested_ind (P : json -> Prop) :
  P JNull -> (forall b, P (JBool b)) -> (forall z, P (JInt z)) ->
  (forall f, P (JFloat f)) -> (forall s, P (JStr s)) ->
  (forall l, Forall P l -> P (JArr l)) ->
  (forall items, Forall (fun kv => P (snd kv)) items -> P (JObj items)) ->
  forall v, P v.
Proof.
  intros Hnull Hbool Hint Hfloat Hstr Harr Hobj. fix IH 1.
  intros [|b|z|f|s|l|items].
  - exact Hnull.
  - apply Hbool.
  - apply Hint.
  - apply Hfloat.
  - apply Hstr.
  - apply Harr. induction l as [|x l IHl]; constructor; [apply IH | exact IHl].
  - apply Hobj. induction items as [|[k x] items IHl]; constructor;
      [apply IH | exact IHl].
Qed.

(** The rendering with [allow_nan=False] accepts exactly the values that
    hold no number that is NaN or infinite. *)
Lemma json_compliant_spec (v : json) :
  json_compliant v = true <-> ~ nonfinite_in v.
Proof.
  induction v as [|b|z|f|s|l IH|items IH] using json_nested_ind;
    try (cbn; split; [intros _ H; inversion H | reflexivity]).
  - cbn [json_compliant]. rewrite negb_true_iff, orb_false_iff. split.
    + intros [Hn Hi] H. inversion H as [f' [E|E]| |]; congruence.
    + intros H. split.
      * destruct (PrimFloat.is_nan f) eqn:E; [|reflexivity].
        exfalso. apply H. constructor. now left.
      * destruct (PrimFloat.is_infinity f) eqn:E; [|reflexivity].
        exfalso. apply H. constructor. now right.
  - cbn [json_compliant]. rewrite forallb_forall. split.
    + intros Hall H. inversion H as [|l' v Hin Hv|]; subst.
      rewrite Forall_forall in IH. apply (IH v Hin); auto.
    + intros H v Hin. rewrite Forall_forall in IH. apply (IH v Hin).
      intros Hv. apply H. now apply (nonfinite_element l v).
  - cbn [json_compliant]. rewrite forallb_forall. split.
    + intros Hall H. inversion H as [| |items' k v Hin Hv]; subst.
      rewrite Forall_forall in IH. apply (IH (k, v) Hin); [|exact Hv].
      apply (Hall (k, v) Hin).
    + intros H [k v] Hin. rewrite Forall_forall in IH.
      apply (IH (k, v) Hin). intros Hv. apply H.
      now apply (nonfinite_item items k v).
Qed.

(** The response of the handler can be built exactly when the job
    identifier holds no number that is NaN or infinite. *)
Lemma JSONResponse_processed (job_id : json) :
  (~ nonfinite_in job_id ->
   JSONResponse_init
     (JObj [ ("status", JStr "processed"); ("job_id", job_id) ]) 200 =
   Ok {| content := JObj [ ("status", JStr "processed"); ("job_id", job_id) ];
         status_code := 200 |}) /\
  (nonfinite_in job_id ->
   exists e,
     JSONResponse_init
       (JObj [ ("status", JStr "processed"); ("job_id", job_id) ]) 200 =
     Raise e).
Proof.
  unfold JSONResponse_init.
  assert (E : json_compliant
                (JObj [ ("status", JStr "processed"); ("job_id", job_id) ]) =
              json_compliant job_id)
    by (cbn [json_compliant forallb snd andb]; apply andb_true_r).
  rewrite E. split.
  - intros H. apply json_compliant_spec in H. now rewrite H.
  - intros H. destruct (json_compliant job_id) eqn:Hc; [|eauto].
    apply json_compliant_spec in Hc. contradiction.
Qed.

Lemma process_job_dict (items : list (string * json)) :
  process_job sv py now_iso (JObj items) =
  try_except (pipeline_run sv py now_iso items)
    (fun e =>
       _ <~ record_error sv py now_iso (field items "job_id" JNull) e ;;
       raise e).
Proof. reflexivity. Qed.

(** The attempt to record an error never raises. *)
Lemma record_error_returns (job_id : json) (e : exn) (g : Blobs) :
  fst (record_error sv py now_iso job_id e g) = Ok tt.
Proof.
  unfold record_error, try_except, bindM, write_metrics_json, write_blob,
    raise, ret.
  destruct (bucket sv); [|reflexivity].
  destruct (upload sv _); reflexivity.
Qed.

(** A failure of the pipeline leaves [process_job] by the same exception,
    after the attempt to record it in the bucket. *)
Lemma process_job_failure (items : list (string * json)) (g g1 : Blobs)
    (e : exn) :
  pipeline_run sv py now_iso items g = (Raise e, g1) ->
  process_job sv py now_iso (JObj items) g =
  (Raise e,
   snd (record_error sv py now_iso (field items "job_id" JNull) e g1)).
Proof.
  intros H. rewrite process_job_dict. unfold try_except at 1. rewrite H.
  unfold bindM, raise.
  pose proof (record_error_returns (field items "job_id" JNull) e g1) as Hr.
  destruct (record_error sv py now_iso (field items "job_id" JNull) e g1)
    as [r g2]. cbn [fst snd] in *. rewrite Hr. reflexivity.
Qed.

Lemma delivery_of_http_error (e : exn) :
  delivery_of (Raise (http_error_of e)) = Nack.
Proof. reflexivity. Qed.

(** C1: for every delivery the handler authenticates and decodes, whatever
    the store holds for the job, terminal or not: the bucket is the one
    that [process_job] leaves on the message, the job store and the topic
    are left as they were, and two systems with the same bucket get the
    same response.  The handler answers with an acknowledgement exactly
    when [process_job] returns and the response can be built, that is when
    the job identifier of the message holds no number that is NaN or
    infinite; when [process_job] returns and the response cannot be built,
    the answer is the error 500, after the artifacts were written. *)
Theorem delivery_never_consults_job_store (request : Request)
    (job_data : json) (s : System) :
  carries py request job_data ->
  let out := deliver sv py now_iso request s in
  let run := process_job sv py now_iso job_data (gcs s) in
  app (snd out) = app s /\
  gcs (snd out) = snd run /\
  (delivery_of (fst out) = Ack <->
   (exists v, fst run = Ok v) /\ ~ nonfinite_in (job_id_of job_data)) /\
  ((exists v, fst run = Ok v) -> nonfinite_in (job_id_of job_data) ->
   exists detail, fst out = Raise (HTTPException 500 detail)) /\
  (forall s2, gcs s2 = gcs s ->
              fst (deliver sv py now_iso request s2) = fst out).
Proof.
  intros Hc. cbv zeta.
  destruct (JSONResponse_processed (job_id_of job_data)) as [Hgood Hbad].
  split; [|split; [|split; [|split]]].
  - rewrite (deliver_decoded _ _ _ Hc). by_run job_data s.
  - rewrite (deliver_decoded _ _ _ Hc). by_run job_data s.
  - rewrite (deliver_decoded _ _ _ Hc).
    destruct (process_job sv py now_iso job_data (gcs s)) as [[v|e] g] eqn:Hr.
    + cbn [fst]. split.
      * intros Hack. split; [eauto|]. intros Hnf.
        destruct (Hbad Hnf) as [e He]. rewrite He in Hack. discriminate.
      * intros [_ Hnf]. rewrite (Hgood Hnf). reflexivity.
    + cbn [fst]. rewrite delivery_of_http_error.
      split; [discriminate | intros [[v Hv] _]; discriminate].
  - rewrite (deliver_decoded _ _ _ Hc).
    destruct (process_job sv py now_iso job_data (gcs s)) as [[v|e] g] eqn:Hr.
    + intros _ Hnf. cbn [fst]. unfold JSONResponse_init in *.
      destruct (Hbad Hnf) as [e He].
      destruct (json_compliant _); [discriminate|]. cbn. eauto.
    + intros [v Hv]. discriminate.
  - intros s2 Hg. rewrite !(deliver_decoded _ _ _ Hc), Hg.
    by_run job_data s.
Qed.

(** C2: for every delivery the handler decodes and whose pipeline raises,
    [process_job] tries to write [error.json] to the bucket and raises the
    exception again; the handler answers with an error status, 500 for an
    exception that is no [HTTPException], which is no acknowledgement; the
    job store is left as it was: no record becomes [failed] and no [error]
    field is written. *)
Theorem pipeline_failure_is_raised (request : Request)
    (items : list (string * json)) (s : System) (e : exn) (g1 : Blobs) :
  carries py request (JObj items) ->
  pipeline_run sv py now_iso items (gcs s) = (Raise e, g1) ->
  let out := deliver sv py now_iso request s in
  fst out = Raise (http_error_of e) /\
  delivery_of (fst out) = Nack /\
  app (snd out) = app s /\
  gcs (snd out) =
    snd (record_error sv py now_iso (field items "job_id" JNull) e g1) /\
  (forall cls msg, e = Exception cls msg ->
     fst out = Raise (HTTPException 500 ("Internal server error: " ++ msg))).
Proof.
  intros Hc Hp. cbv zeta. rewrite (deliver_decoded _ _ _ Hc).
  rewrite (process_job_failure _ _ _ _ Hp). cbn [fst snd app gcs].
  repeat split. intros cls msg ->. reflexivity.
Qed.

(** C5: for every delivery the handler authenticates and whose data it
    cannot decode, the handler raises the client error 400 with the text of
    the decoding error, nothing is processed and the system is left as it
    was; the response is an error status, so it is no acknowledgement. *)
Theorem undecodable_is_rejected (request : Request) (msg : string)
    (s : System) :
  undecodable py request msg ->
  deliver sv py now_iso request s =
    (Raise (HTTPException 400 ("Invalid message format: " ++ msg)), s) /\
  delivery_of (fst (deliver sv py now_iso request s)) = Nack.
Proof.
  intros (h & b & message & data & Ha & Hp & Hb & Hm & Hd & Ht & Hdec).
  assert (E : deliver sv py now_iso request s =
              (Raise (HTTPException 400 ("Invalid message format: " ++ msg)), s)).
  { unfold deliver, process_pubsub_message, try_except,
      process_pubsub_message_try.
    rewrite Ha, Hp, Hb. cbn [negb]. unfold bindM at 1. unfold lift at 1.
    rewrite Hm. unfold bindM at 1. unfold lift at 1. rewrite Hd, Ht.
    cbn [negb]. rewrite Hdec. destruct s. reflexivity. }
  rewrite E. split; reflexivity.
Qed.

End Deliveries.

Lemma sample_push_carries :
  carries sample_py sample_push
    (JObj [("job_id", JStr (sample_uuid_text 7)); ("type", JStr "blackscholes")]).
Proof.
  exists "Bearer token",
    (JObj [("message", JObj [("data", JStr sample_payload)])]),
    (JObj [("data", JStr sample_payload)]), (JStr sample_payload).
  repeat split.
Defined.

Lemma nan_push_carries :
  carries sample_py nan_push
    (JObj [("job_id", JFloat PrimFloat.nan); ("type", JStr "blackscholes")]).
Proof.
  exists "Bearer token",
    (JObj [("message", JObj [("data", JStr nan_payload)])]),
    (JObj [("data", JStr nan_payload)]), (JStr nan_payload).
  repeat split.
Defined.

Lemma poison_push_undecodable :
  undecodable sample_py poison_push
    "Expecting property name enclosed in double quotes".
Proof.
  exists "Bearer token",
    (JObj [("message", JObj [("data", JStr "e25vdCBqc29u")])]),
    (JObj [("data", JStr "e25vdCBqc29u")]), (JStr "e25vdCBqc29u").
  repeat split.
Defined.

(** The record of job 7 is [completed]; the delivery of its message runs the
    pipeline all the same and fills the bucket. *)
Lemma terminal_delivery_is_noop_fails : ~ terminal_delivery_is_noop.
Proof.
  intros H.
  destruct (H working_services sample_py "2024-02-01T00:00:00" sample_push _
              (sample_job 7 "completed" 0 (Some 5))
              (system_of [sample_job 7 "completed" 0 (Some 5)])
              sample_push_carries eq_refl (or_introl eq_refl) eq_refl)
    as [_ Hs].
  apply (f_equal gcs) in Hs. vm_compute in Hs. discriminate.
Qed.

Lemma delivery_never_consults_job_store_witness :
  let s := system_of [sample_job 7 "cancelled" 0 None] in
  let out := deliver working_services sample_py "2024-02-01T00:00:00"
               sample_push s in
  let out' := deliver working_services sample_py "2024-02-01T00:00:00"
                nan_push s in
  (app (snd out) = app s /\ delivery_of (fst out) = Ack /\
   map fst (gcs (snd out)) =
     ["jobs/00000000-0000-0000-0000-000000000007/metrics.json";
      "jobs/00000000-0000-0000-0000-000000000007/summary.json"]) /\
  ((exists detail, fst out' = Raise (HTTPException 500 detail)) /\
   map fst (gcs (snd out')) =
     ["jobs/nan/metrics.json"; "jobs/nan/summary.json"]).
Proof.
  cbv zeta. split.
  - destruct (delivery_never_consults_job_store working_services sample_py
                "2024-02-01T00:00:00" sample_push _
                (system_of [sample_job 7 "cancelled" 0 None])
                sample_push_carries) as (Ha & Hg & Hd & _).
    split; [exact Ha|]. split.
    + apply Hd. split; [eexists; reflexivity|]. intros H. inversion H.
    + rewrite Hg. reflexivity.
  - destruct (delivery_never_consults_job_store working_services sample_py
                "2024-02-01T00:00:00" nan_push _
                (system_of [sample_job 7 "cancelled" 0 None])
                nan_push_carries) as (_ & Hg & _ & Hn & _).
    split.
    + apply Hn; [eexists; reflexivity|]. constructor. left. reflexivity.
    + rewrite Hg. reflexivity.
Defined.

(** The warehouse has no data for the running job 7: the delivery of its
    message is answered with a 500 and the record stays [running]. *)
Lemma pipeline_failure_marks_failed_fails : ~ pipeline_failure_marks_failed.
Proof.
  intros H.
  destruct (H failing_services sample_py "2024-02-01T00:00:00" sample_push
              [("job_id", JStr (sample_uuid_text 7));
               ("type", JStr "blackscholes")]
              (sample_job 7 "running" 0 (Some 5))
              (system_of [sample_job 7 "running" 0 (Some 5)])
              _ _ sample_push_carries eq_refl eq_refl eq_refl eq_refl)
    as [Hack _].
  vm_compute in Hack. discriminate.
Qed.

Lemma pipeline_failure_is_raised_witness :
  let s := system_of [sample_job 7 "running" 0 (Some 5)] in
  let out := deliver failing_services sample_py "2024-02-01T00:00:00"
               sample_push s in
  fst out = Raise (HTTPException 500
                     "Internal server error: Failed to load prices from BigQuery") /\
  app (snd out) = app s /\
  map fst (gcs (snd out)) =
    ["jobs/00000000-0000-0000-0000-000000000007/error.json"].
Proof.
  cbv zeta.
  destruct (pipeline_failure_is_raised failing_services sample_py
              "2024-02-01T00:00:00" sample_push
              [("job_id", JStr (sample_uuid_text 7));
               ("type", JStr "blackscholes")]
              (system_of [sample_job 7 "running" 0 (Some 5)])
              _ _ sample_push_carries eq_refl) as (H1 & _ & H3 & H4 & _).
  split; [exact H1|]. split; [exact H3|]. rewrite H4. reflexivity.
Defined.

(** The data of the push is the base64 text of [{not json]: the handler
    answers 400. *)
Lemma undecodable_is_acked_fails : ~ undecodable_is_acked.
Proof.
  intros H.
  pose proof (H working_services sample_py "2024-02-01T00:00:00" poison_push
                _ (system_of []) poison_push_undecodable) as Hack.
  vm_compute in Hack. discriminate.
Qed.

Lemma undecodable_is_rejected_witness :
  deliver working_services sample_py "2024-02-01T00:00:00" poison_push
    (system_of []) =
  (Raise (HTTPException 400
     "Invalid message format: Expecting property name enclosed in double quotes"),
   system_of []).
Proof.
  apply (undecodable_is_rejected working_services sample_py
           "2024-02-01T00:00:00" poison_push _ (system_of [])
           poison_push_undecodable).
Defined.

(** ** The lifecycle *)

Lemma setattr_status (k : kwarg) (j : Job) : status (setattr j k) = status j.
Proof. destruct k; reflexivity. Qed.

Lemma fold_setattr_status (kwargs : list kwarg) (j : Job) :
  status (fold_left setattr kwargs j) = status j.
Proof.
  revert j. induction kwargs as [|k l IH]; intros j; cbn; [reflexivity|].
  rewrite IH. apply setattr_status.
Qed.

(** [update_status] assigns the status it is given, whatever the current
    one. *)
Lemma update_status_assigns (j : Job) (d : Session) (now : datetime)
    (new_status : string) (kwargs : list kwarg) :
  status (fst (Job_update_status j d now new_status kwargs)) = new_status.
Proof.
  unfold Job_update_status. cbn [fst]. rewrite fold_setattr_status.
  destruct (new_status =? "running")%string.
  - destruct (started_at (with_status new_status j)); reflexivity.
  - destruct (mem_string new_status ["completed"; "failed"]);
      [destruct (finished_at (with_status new_status j))|]; reflexivity.
Qed.

(** [set_error] on a completed record makes it [failed]. *)
Lemma mutations_follow_lifecycle_fails : ~ mutations_follow_lifecycle.
Proof.
  intros H.
  destruct (H (sample_job 7 "completed" 0 (Some 5))
              (mkSession [sample_job 7 "completed" 0 (Some 5)] []) 9)
    as [_ He].
  specialize (He "late error"). vm_compute in He. discriminate.
Qed.

Lemma has_id_find (u : UUID) (l : list Job) :
  has_id u l = false -> find (fun r => id r =? u) l = None.
Proof.
  intros H. pose proof (find_app_fresh u l [] H) as E.
  now rewrite app_nil_r in E.
Qed.

Lemma persist_request_raise (py : PyLib) (new_id : UUID) (now : datetime)
    (user : UUID) (req : CreateJobRequest) (d d1 : Session) (e : exn) :
  persist_request py new_id now user req d = (Raise e, d1) ->
  rows d1 = rows d.
Proof.
  unfold persist_request, Job_create_job. intros H.
  destruct (strptime_ymd py (r_start req)); [|injection H as _ <-; reflexivity].
  destruct (strptime_ymd py (r_end req)); [|injection H as _ <-; reflexivity].
  unfold db_commit in H.
  match type of H with
  | context [insert_rows ?n ?t] => destruct (insert_rows n t)
  end; [discriminate|].
  injection H as _ <-. reflexivity.
Qed.

(** The rows after [create_job]: those before, and at most one more, in
    state [queued], under an identifier that was free. *)
Lemma create_job_rows (py : PyLib) (pubsub : PubSubPublisher) (new_id : UUID)
    (now : datetime) (user : UUID) (req : CreateJobRequest) (w : App) :
  pending (db w) = [] ->
  let w' := snd (create_job py pubsub new_id now user req w) in
  pending (db w') = [] /\
  (rows (db w') = rows (db w) \/
   exists job,
     id job = new_id /\ status job = "queued" /\
     has_id new_id (rows (db w)) = false /\
     rows (db w') = (rows (db w) ++ [job])%list).
Proof.
  intros Hpend. cbv zeta. unfold create_job, create_job_try.
  destruct (persist_request py new_id now user req (db w)) as [[job|e] d1] eqn:Hp.
  - destruct (persist_request_ok _ _ _ _ _ _ _ _ Hp)
      as (Hid & _ & Hst & _ & _ & _ & Hrows & Hpend1 & Hf).
    rewrite Hpend in Hrows, Hf. cbn [List.app] in Hrows. rewrite app_nil_r in Hf.
    assert (R : rows d1 = rows (db w) \/
                exists job0, id job0 = new_id /\ status job0 = "queued" /\
                  has_id new_id (rows (db w)) = false /\
                  rows d1 = (rows (db w) ++ [job0])%list)
      by (right; exists job; auto).
    destruct (publish_job pubsub (topic w) (message_data py job req))
      as [[m|e] t1].
    + destruct (JobStatus_of (status job)); cbn [snd db db_rollback rows pending];
        auto.
    + cbn [snd db db_rollback rows pending]. auto.
  - apply persist_request_raise in Hp.
    cbn [snd db db_rollback rows pending]. auto.
Qed.

(** One request leaves the state stored under an identifier as it was, or
    creates it as [queued], or moves it from [queued] to [cancelled]. *)
Lemma request_step_status (py : PyLib) (s s' : System) :
  pending (db (app s)) = [] ->
  request_step py s s' ->
  pending (db (app s')) = [] /\
  forall u : UUID,
    status_of (app s') u = status_of (app s) u \/
    (status_of (app s) u = None /\ status_of (app s') u = Some "queued") \/
    (status_of (app s) u = Some "queued" /\
     status_of (app s') u = Some "cancelled").
Proof.
  intros Hpend Hstep. destruct Hstep.
  - cbn [app].
    destruct (create_job_rows py pubsub new_id now user req (app s) Hpend)
      as [Hp [Hr | (job & Hid & Hst & Hf & Hr)]].
    + split; [exact Hp|]. intros u. left. unfold status_of, Job_get_job.
      now rewrite Hr.
    + split; [exact Hp|]. intros u. unfold status_of, Job_get_job.
      rewrite Hr. destruct (Z.eq_dec u new_id) as [->|Hne].
      * right. left. rewrite find_app_fresh by exact Hf.
        rewrite (has_id_find _ _ Hf). cbn. rewrite Hid, Z.eqb_refl. cbn.
        now rewrite Hst.
      * left. rewrite find_app_other by congruence. reflexivity.
  - cbn [app]. unfold cancel_job.
    destruct (load_own_job py user job_id (app s)) as [job|e] eqn:Hl;
      [|cbn [snd]; auto].
    destruct (load_own_job_found _ _ _ _ _ Hl) as (_ & Hget & _).
    destruct (String.eqb_spec (status job) "queued") as [E|E]; cbn [negb];
      [|cbn [snd]; auto].
    rewrite update_status_cancelled. cbn [snd db].
    split; [exact Hpend|]. intros u. unfold status_of, Job_get_job in *.
    unfold db_commit_object. cbn [rows db].
    rewrite (find_after_commit_object (with_status "cancelled" job)).
    cbn [id with_status].
    destruct (Z.eqb_spec u (id job)) as [->|Hne]; [|auto].
    right. right. rewrite Hget. cbn. rewrite E. auto.
  - unfold deliver.
    destruct (process_pubsub_message sv py now_iso request (gcs s)) as [r g].
    cbn [snd app]. auto.
Qed.

(** Over a run, the states stored under an identifier form a prefix of
    [queued], [cancelled]. *)
Lemma request_steps_status (py : PyLib) (s s' : System) :
  pending (db (app s)) = [] ->
  request_steps py s s' ->
  pending (db (app s')) = [] /\
  forall u : UUID, status_moved (status_of (app s) u) (status_of (app s') u).
Proof.
  intros Hpend Hrun. induction Hrun as [s|s s1 s2 Hrun IH Hstep].
  - split; [exact Hpend|]. intros u. left. reflexivity.
  - destruct (IH Hpend) as [Hp1 Hrel].
    destruct (request_step_status py s1 s2 Hp1 Hstep) as [Hp2 Hone].
    split; [exact Hp2|]. intros u. unfold status_moved in *.
    destruct (Hrel u) as [A | [[B1 [B2|B2]] | [C1 C2]]];
      destruct (Hone u) as [a | [[b1 b2] | [c1 c2]]];
      rewrite ?a, ?b2, ?c2; try congruence; auto.
    + right. left. split; [congruence|]. left. congruence.
    + right. right. split; congruence.
Qed.

(** C3: [update_status] checks nothing: the record takes the status it is
    given, from any state.  What keeps the records on the lifecycle is the
    requests themselves: a submission, a cancellation or a push to the
    worker leaves the state stored under every identifier as it was, or
    creates it as [queued], or moves it from [queued] to [cancelled]; so
    over any run of requests the states of a record form a prefix of
    [queued], [cancelled], and a record in any other state is never
    moved. *)
Theorem requests_create_queued_or_cancel_queued :
  (forall (j : Job) (d : Session) (now : datetime) (new_status : string)
          (kwargs : list kwarg),
      status (fst (Job_update_status j d now new_status kwargs)) = new_status) /\
  (forall (py : PyLib) (s s' : System),
      pending (db (app s)) = [] ->
      request_step py s s' ->
      pending (db (app s')) = [] /\
      forall u : UUID,
        status_of (app s') u = status_of (app s) u \/
        (status_of (app s) u = None /\ status_of (app s') u = Some "queued") \/
        (status_of (app s) u = Some "queued" /\
         status_of (app s') u = Some "cancelled")) /\
  (forall (py : PyLib) (s s' : System),
      pending (db (app s)) = [] ->
      request_steps py s s' ->
      forall u : UUID,
        status_moved (status_of (app s) u) (status_of (app s') u)).
Proof.
  split; [exact update_status_assigns|]. split.
  - exact request_step_status.
  - intros py s s' Hpend Hrun. exact (proj2 (request_steps_status py s s' Hpend Hrun)).
Qed.

Lemma requests_create_queued_or_cancel_queued_witness :
  status_of (app_of [sample_job 7 "queued" 0 None]) 7 = Some "queued" /\
  status_of (snd (cancel_job sample_py 9 1 (sample_uuid_text 7)
                    (app_of [sample_job 7 "queued" 0 None]))) 7 =
    Some "cancelled".
Proof.
  destruct (proj1 (proj2 requests_create_queued_or_cancel_queued) sample_py
              (system_of [sample_job 7 "queued" 0 None]) _ eq_refl
              (step_cancel_job sample_py 9 1 (sample_uuid_text 7)
                 (system_of [sample_job 7 "queued" 0 None])))
    as [_ H].
  destruct (H 7) as [E | [[E _] | [E1 E2]]].
  - vm_compute in E. discriminate.
  - vm_compute in E. discriminate.
  - split; [exact E1 | exact E2].
Defined.

Lemma get_job_cancelled_raises_witness :
  exists e,
    get_job sample_py 1 (sample_uuid_text 7)
      (snd (cancel_job sample_py 9 1 (sample_uuid_text 7) sample_store)) =
    Raise e.
Proof.
  apply (get_job_cancelled_raises sample_py 1 (sample_uuid_text 7)
           (snd (cancel_job sample_py 9 1 (sample_uuid_text 7) sample_store))
           (sample_job 7 "cancelled" 0 None)); reflexivity.
Defined.

(** * Further properties *)

(** ** The duration heuristic and the progress of a running job *)

(** X1: the estimated duration grows with the number of symbols, by two
    seconds a symbol up to thirty symbols, and stays at the base cost plus
    sixty seconds from thirty symbols on. *)
Theorem estimate_job_duration_monotone_capped (t : JobType) (n m : Z) :
  n <= m ->
  _estimate_job_duration t n <= _estimate_job_duration t m /\
  (n <= 30 -> _estimate_job_duration t n = _estimate_job_duration t 0 + 2 * n) /\
  (30 <= n -> _estimate_job_duration t m = _estimate_job_duration t 0 + 60).
Proof.
  intros H. unfold _estimate_job_duration. destruct t; lia.
Qed.

Lemma estimate_job_duration_monotone_capped_witness :
  _estimate_job_duration MARKOWITZ 3 <= _estimate_job_duration MARKOWITZ 40 /\
  _estimate_job_duration MARKOWITZ 3 = 21 /\
  _estimate_job_duration MARKOWITZ 40 = 75.
Proof.
  destruct (estimate_job_duration_monotone_capped MARKOWITZ 3 40 ltac:(lia))
    as (H1 & H2 & _).
  split; [exact H1|]. split; [|reflexivity].
  rewrite H2 by lia. reflexivity.
Defined.

Lemma float_ltb_leb (x y : float) :
  PrimFloat.ltb x y = true -> PrimFloat.leb x y = true.
Proof.
  rewrite ltb_spec, leb_spec. unfold SFltb, SFleb.
  destruct (SFcompare (Prim2SF x) (Prim2SF y)) as [[]|]; congruence.
Qed.

Lemma py_min_le_left (a x : float) :
  PrimFloat.leb a a = true -> PrimFloat.leb (py_min a x) a = true.
Proof.
  intros Ha. unfold py_min. destruct (PrimFloat.ltb x a) eqn:E.
  - apply float_ltb_leb. exact E.
  - exact Ha.
Qed.

(** X2: while a job runs, the estimator answers 0.5 when the job has no
    start time; it answers with a progress whenever the job has no start
    time or its type is a member of [JobType], and raises otherwise; and
    every progress it answers is at most 0.9, whatever the timestamps and
    the number of symbols: it never announces completion. *)
Theorem running_progress_at_most_09 (job : Job) :
  status job = "running" ->
  (started_at job = None ->
   _calculate_job_progress job = Ok (Some 0.5%float)) /\
  (started_at job = None \/ JobType_of (type job) <> None ->
   exists p, _calculate_job_progress job = Ok (Some p)) /\
  (started_at job <> None -> JobType_of (type job) = None ->
   exists e, _calculate_job_progress job = Raise e) /\
  (forall p, _calculate_job_progress job = Ok (Some p) ->
             PrimFloat.leb p 0.9%float = true /\ p <> 1%float).
Proof.
  intros Hs. unfold _calculate_job_progress. rewrite Hs. cbn.
  destruct (started_at job) as [started|].
  - destruct (JobType_of (type job)) as [t|].
    + split; [discriminate|]. split; [eauto|]. split; [congruence|].
      intros p H. injection H as <-.
      assert (Hle : PrimFloat.leb
                      (py_min 0.9%float
                         (PrimFloat.div (total_seconds (started - created_at job))
                            (float_of_Z (_estimate_job_duration t
                               (Z.of_nat (List.length (symbols job)))))))
                      0.9%float = true)
        by (apply py_min_le_left; reflexivity).
      split; [exact Hle|]. intros E. rewrite E in Hle. vm_compute in Hle.
      discriminate.
    + split; [discriminate|]. split; [intros [H|H]; congruence|].
      split; [eauto|]. discriminate.
  - split; [reflexivity|]. split; [eauto|]. split; [congruence|].
    intros p H. injection H as <-. split; [reflexivity|].
    intros E. apply (f_equal (fun x => PrimFloat.leb x 0.9%float)) in E.
    vm_compute in E. discriminate.
Qed.

Lemma running_progress_at_most_09_witness :
  (PrimFloat.leb 0.25%float 0.9%float = true /\ 0.25%float <> 1%float) /\
  _calculate_job_progress (sample_job 7 "running" 0 None) =
    Ok (Some 0.5%float).
Proof.
  split.
  - apply (proj2 (proj2 (proj2
             (running_progress_at_most_09
                (sample_job 7 "running" 0 (Some 3000000)) eq_refl)))).
    reflexivity.
  - apply (proj1 (running_progress_at_most_09
                    (sample_job 7 "running" 0 None) eq_refl)).
    reflexivity.
Defined.

(** ** Ordering and paging of the store *)

Lemma insert_asc_perm (j : Job) (l : list Job) :
  Permutation (insert_asc j l) (j :: l).
Proof.
  induction l as [|k l IH]; cbn; [reflexivity|].
  destruct (created_at j <=? created_at k); [reflexivity|].
  rewrite IH. apply perm_swap.
Qed.

Lemma order_by_created_asc_perm (l : list Job) :
  Permutation (order_by_created_asc l) l.
Proof.
  induction l as [|j l IH]; cbn; [reflexivity|].
  rewrite insert_asc_perm. now constructor.
Qed.

Lemma insert_asc_sorted (j : Job) (l : list Job) :
  oldest_first l -> oldest_first (insert_asc j l).
Proof.
  unfold oldest_first. intros H. induction H as [|k l Hs IH Hf]; cbn.
  - repeat constructor.
  - destruct (Z.leb_spec (created_at j) (created_at k)) as [E|E].
    + constructor; [constructor; assumption|].
      constructor; [exact E|].
      rewrite Forall_forall in *. intros x Hx. specialize (Hf x Hx). lia.
    + constructor; [exact IH|].
      eapply Permutation_Forall; [symmetry; apply insert_asc_perm|].
      constructor; [lia | exact Hf].
Qed.

Lemma order_by_created_asc_sorted (l : list Job) :
  oldest_first (order_by_created_asc l).
Proof.
  induction l as [|j l IH]; cbn; [constructor|].
  apply insert_asc_sorted. exact IH.
Qed.

Lemma In_owned_by (u : UUID) (l : list Job) (j : Job) :
  In j (owned_by u l) <-> In j l /\ user_id j = u.
Proof.
  unfold owned_by. rewrite filter_In, Z.eqb_eq. reflexivity.
Qed.

Lemma get_user_jobs_page_owned (d : Session) (u : UUID) (page size : Z)
    (j : Job) :
  In j (fst (Job_get_user_jobs d u page size)) ->
  In j (rows d) /\ user_id j = u.
Proof.
  unfold Job_get_user_jobs. cbn [fst]. intros H.
  apply In_firstn_skipn in H.
  apply (Permutation_in _ (order_by_created_desc_perm _)) in H.
  now apply In_owned_by in H.
Qed.

(** X3: for a page [1 <= page] of a size [0 <= size],
    [Job.get_user_jobs] returns the rows of the table that belong to the
    user, taken from the newest to the oldest, from the position
    [(page - 1) * size] on and at most [size] of them; the total it returns
    is the number of the rows of the table that belong to the user,
    whatever the page.  So the page holds only rows of the user, runs from
    the newest to the oldest, and has [size] rows while that many remain,
    the rest on the last page and none past the end. *)
Theorem get_user_jobs_page_sound (d : Session) (u : UUID) (page size : Z) :
  1 <= page -> 0 <= size ->
  exists mine sorted,
    selected (fun j => user_id j = u) (rows d) mine /\
    Permutation sorted mine /\ newest_first sorted /\
    fst (Job_get_user_jobs d u page size) =
      firstn (Z.to_nat size) (skipn (Z.to_nat ((page - 1) * size)) sorted) /\
    snd (Job_get_user_jobs d u page size) = Z.of_nat (List.length mine) /\
    (forall j, In j (fst (Job_get_user_jobs d u page size)) ->
               In j (rows d) /\ user_id j = u) /\
    newest_first (fst (Job_get_user_jobs d u page size)) /\
    Z.of_nat (List.length (fst (Job_get_user_jobs d u page size))) =
      Z.max 0 (Z.min size (Z.of_nat (List.length mine) - (page - 1) * size)).
Proof.
  intros Hp Hs.
  destruct (get_user_jobs_spec d u page size)
    as (mine & sorted & Hsel & Hperm & Hsort & Hpage & Htot).
  exists mine, sorted.
  split; [exact Hsel|]. split; [exact Hperm|]. split; [exact Hsort|].
  split; [exact Hpage|]. split; [exact Htot|]. split; [|split].
  - intros j. apply get_user_jobs_page_owned.
  - rewrite Hpage. apply StronglySorted_firstn, StronglySorted_skipn.
    exact Hsort.
  - rewrite Hpage, length_firstn, length_skipn.
    rewrite (Permutation_length Hperm). nia.
Qed.

Lemma In_pending (l : list Job) (j : Job) :
  In j (filter is_pending l) <->
  In j l /\ (status j = "queued" \/ status j = "running").
Proof.
  rewrite filter_In. unfold is_pending, mem_string. cbn [existsb].
  rewrite orb_false_r, orb_true_iff, !String.eqb_eq. reflexivity.
Qed.

Lemma pending_selected (l : list Job) :
  selected (fun j => status j = "queued" \/ status j = "running") l
    (filter is_pending l).
Proof.
  apply selected_filter. intros j. unfold is_pending, mem_string.
  cbn [existsb]. rewrite orb_false_r, orb_true_iff, !String.eqb_eq.
  reflexivity.
Qed.

(** X4: for a limit [0 <= limit], [Job.get_pending_jobs] returns the rows
    of the table that are queued or running, taken from the oldest to the
    newest, and at most [limit] of them.  So it never returns a completed,
    failed or cancelled row, and when no more than [limit] rows are queued
    or running it returns every one of them. *)
Theorem get_pending_jobs_sound (d : Session) (limit : Z) :
  0 <= limit ->
  exists waiting sorted,
    selected (fun j => status j = "queued" \/ status j = "running")
      (rows d) waiting /\
    Permutation sorted waiting /\ oldest_first sorted /\
    Job_get_pending_jobs d limit = firstn (Z.to_nat limit) sorted /\
    (forall j, In j (Job_get_pending_jobs d limit) ->
               In j (rows d) /\
               (status j = "queued" \/ status j = "running")) /\
    Z.of_nat (List.length (Job_get_pending_jobs d limit)) =
      Z.min limit (Z.of_nat (List.length waiting)) /\
    oldest_first (Job_get_pending_jobs d limit) /\
    (Z.of_nat (List.length waiting) <= limit ->
     forall j, In j (rows d) ->
               status j = "queued" \/ status j = "running" ->
               In j (Job_get_pending_jobs d limit)).
Proof.
  intros Hl. unfold Job_get_pending_jobs.
  change (fun j => mem_string (status j) ["queued"; "running"]) with is_pending.
  set (all := order_by_created_asc (filter is_pending (rows d))).
  assert (Hperm : Permutation all (filter is_pending (rows d)))
    by apply order_by_created_asc_perm.
  exists (filter is_pending (rows d)), all.
  split; [apply pending_selected|]. split; [exact Hperm|].
  split; [apply order_by_created_asc_sorted|]. split; [reflexivity|].
  split; [|split; [|split]].
  - intros j H. apply In_firstn in H.
    apply (Permutation_in _ Hperm) in H. now apply In_pending in H.
  - rewrite length_firstn, (Permutation_length Hperm). lia.
  - apply StronglySorted_firstn, order_by_created_asc_sorted.
  - intros Hle j Hin Hst. rewrite firstn_all2.
    + apply (Permutation_in _ (Permutation_sym Hperm)).
      apply In_pending. auto.
    + rewrite (Permutation_length Hperm). lia.
Qed.

Lemma get_pending_jobs_sound_witness :
  Z.of_nat (List.length
              (Job_get_pending_jobs
                 (mkSession [sample_job 1 "cancelled" 5 None;
                             sample_job 8 "running" 20 (Some 25);
                             sample_job 7 "queued" 10 None] []) 10)) = 2 /\
  In (sample_job 7 "queued" 10 None)
     (Job_get_pending_jobs
        (mkSession [sample_job 1 "cancelled" 5 None;
                    sample_job 8 "running" 20 (Some 25);
                    sample_job 7 "queued" 10 None] []) 10).
Proof.
  destruct (get_pending_jobs_sound
              (mkSession [sample_job 1 "cancelled" 5 None;
                          sample_job 8 "running" 20 (Some 25);
                          sample_job 7 "queued" 10 None] []) 10
              ltac:(lia))
    as (waiting & sorted & _ & _ & _ & _ & Hin & _).
  split; [reflexivity|].
  assert (H : In (sample_job 7 "queued" 10 None)
                (Job_get_pending_jobs
                   (mkSession [sample_job 1 "cancelled" 5 None;
                               sample_job 8 "running" 20 (Some 25);
                               sample_job 7 "queued" 10 None] []) 10))
    by (left; reflexivity).
  pose proof (Hin _ H) as _. exact H.
Defined.

Lemma get_user_jobs_page_sound_witness :
  exists mine,
    selected (fun j => user_id j = 1) (rows (db shared_listing)) mine /\
    snd (Job_get_user_jobs (db shared_listing) 1 2 2) =
      Z.of_nat (List.length mine) /\
    snd (Job_get_user_jobs (db shared_listing) 1 2 2) = 3 /\
    Z.of_nat (List.length (fst (Job_get_user_jobs (db shared_listing) 1 2 2)))
      = 1.
Proof.
  destruct (get_user_jobs_page_sound (db shared_listing) 1 2 2
              ltac:(lia) ltac:(lia))
    as (mine & sorted & Hsel & _ & _ & _ & Htot & _).
  exists mine. split; [exact Hsel|]. split; [exact Htot|].
  split; reflexivity.
Defined.

(** ** Listing and access *)

Lemma filter_all (A : Type) (l : list A) : filter (fun _ => true) l = l.
Proof. induction l as [|a l IH]; cbn; congruence. Qed.

Lemma Forall2_In_right {A B} (R : A -> B -> Prop) (l : list A) (l' : list B)
    (b : B) :
  Forall2 R l l' -> In b l' -> exists a, In a l /\ R a b.
Proof.
  intros H. induction H as [|a b' l l' Hab H IH]; intros Hin; [destruct Hin|].
  destruct Hin as [<-|Hin].
  - exists a. split; [now left | exact Hab].
  - destruct (IH Hin) as (a' & Ha & Hr). exists a'. split; [now right | exact Hr].
Qed.

(** X5: without a filter, [list_jobs] returns exactly the jobs of the page:
    [size] of them while jobs remain, the rest on the last page, none on a
    page past the end; and [has_next] is set exactly when jobs remain after
    the page. *)
Theorem list_jobs_unfiltered_page_length (py : PyLib) (user : UUID)
    (page size : Z) (w : App) (resp : JobListResponse) :
  list_jobs py user page size None None w = Ok resp ->
  Z.of_nat (List.length (l_jobs resp)) =
    Z.max 0 (Z.min size (l_total resp - (page - 1) * size)) /\
  (l_has_next resp = true <->
   (page - 1) * size + Z.of_nat (List.length (l_jobs resp)) < l_total resp).
Proof.
  intros H. destruct (list_jobs_ok _ _ _ _ _ _ _ _ H)
    as (Hp & Hs & Hm & Ht & Hn).
  apply mapM_length in Hm.
  assert (Hf : forall l, filter (passes None None) l = l)
    by (intros l; apply filter_all).
  rewrite Hf in Hm. unfold Job_get_user_jobs in *. cbn [fst snd] in *.
  rewrite length_firstn, length_skipn in Hm.
  rewrite (Permutation_length (order_by_created_desc_perm _)) in Hm.
  assert (Hlen : Z.of_nat (List.length (l_jobs resp)) =
                 Z.max 0 (Z.min size (l_total resp - (page - 1) * size))).
  { rewrite Hm, Ht. nia. }
  split; [exact Hlen|]. rewrite Hn, Z.ltb_lt, Hlen. nia.
Qed.

Lemma list_jobs_unfiltered_page_length_witness :
  exists resp,
    list_jobs sample_py 1 2 2 None None sample_listing = Ok resp /\
    Z.of_nat (List.length (l_jobs resp)) = 1 /\ l_has_next resp = false.
Proof.
  eexists. split; [reflexivity|].
  destruct (list_jobs_unfiltered_page_length sample_py 1 2 2 sample_listing
              _ eq_refl) as [H _].
  split; [exact H | reflexivity].
Defined.

Lemma JobStatusResponse_of_unknown_status (py : PyLib) (job : Job) :
  JobStatus_of (status job) = None ->
  exists e, JobStatusResponse_of py job = Raise e.
Proof.
  intros H. unfold JobStatusResponse_of.
  destruct (JobType_of (type job)); [|eauto].
  destruct (refs_get (result_refs job) "metrics"); cbn [bind]; [|eauto].
  destruct (refs_get (result_refs job) "urls"); cbn [bind]; [|eauto].
  destruct (_calculate_job_progress job); cbn [bind]; [|eauto].
  rewrite H. eauto.
Qed.

(** X6: every view that [list_jobs] returns is a view of a stored job of
    the caller that is on the page and passes the filters: its owner is the
    caller, its type is the requested type and its status the requested
    status. *)
Theorem list_jobs_views_match (py : PyLib) (user : UUID) (page size : Z)
    (job_type : option JobType) (status_filter : option string) (w : App)
    (resp : JobListResponse) (v : JobStatusResponse) :
  list_jobs py user page size job_type status_filter w = Ok resp ->
  In v (l_jobs resp) ->
  v_user_id v = user /\
  (exists job, In job (rows (db w)) /\ JobStatusResponse_of py job = Ok v) /\
  (forall t, job_type = Some t -> v_type v = t) /\
  (forall s, status_filter = Some s -> s <> "" ->
             JobStatus_value (v_status v) = s).
Proof.
  intros H Hin. destruct (list_jobs_ok _ _ _ _ _ _ _ _ H) as (_ & _ & Hm & _).
  apply mapM_Forall2 in Hm.
  destruct (Forall2_In_right _ _ _ _ Hm Hin) as (job & Hj & Hv).
  apply filter_In in Hj. destruct Hj as [Hpage Hpass].
  destruct (get_user_jobs_page_owned (db w) user page size job Hpage)
    as [Hrow Huser].
  destruct (JobStatusResponse_of_mirrors _ _ _ Hv)
    as (_ & Hu & Hty & Hst & _).
  unfold passes in Hpass. apply andb_true_iff in Hpass.
  destruct Hpass as [Pt Ps].
  split; [congruence|]. split; [eauto|]. split.
  - intros t ->. apply String.eqb_eq in Pt. rewrite <- Hty in Pt.
    destruct (v_type v), t; cbn in Pt; congruence.
  - intros s -> Hne. destruct (String.eqb_spec s "") as [|_]; [contradiction|].
    apply String.eqb_eq in Ps. congruence.
Qed.

Lemma list_jobs_views_match_witness :
  exists resp v,
    list_jobs sample_py 1 1 2 None (Some "queued") sample_listing = Ok resp /\
    In v (l_jobs resp) /\
    JobStatus_value (v_status v) = "queued" /\ v_user_id v = 1.
Proof.
  eexists. eexists. split; [reflexivity|]. split; [left; reflexivity|].
  match goal with
  | |- JobStatus_value (v_status ?v) = _ /\ _ =>
      destruct (list_jobs_views_match sample_py 1 1 2 None (Some "queued")
                  sample_listing _ v eq_refl (or_introl eq_refl))
        as (Hu & _ & _ & Hs)
  end.
  split; [apply (Hs "queued" eq_refl); discriminate | exact Hu].
Defined.

Lemma mapM_raises {A B} (f : A -> result B) (l : list A) (a : A) :
  In a l -> (exists e, f a = Raise e) -> exists e, mapM f l = Raise e.
Proof.
  intros Hin [e He]. induction l as [|x l IH]; [destruct Hin|]. cbn.
  destruct Hin as [->|Hin].
  - rewrite He. cbn. eauto.
  - destruct (f x) as [b|e']; cbn; [|eauto].
    destruct (IH Hin) as [e2 ->]. cbn. eauto.
Qed.

(** X7: a status filter that names no member of [JobStatus], such as
    [cancelled], never lists a job: whenever [list_jobs] returns, its list is
    empty; and when a job of the page passes such a filter, [list_jobs]
    raises instead of returning. *)
Theorem list_jobs_unknown_status_lists_nothing (py : PyLib) (user : UUID)
    (page size : Z) (job_type : option JobType) (s : string) (w : App) :
  s <> "" ->
  JobStatus_of s = None ->
  (forall resp,
      list_jobs py user page size job_type (Some s) w = Ok resp ->
      l_jobs resp = []) /\
  (forall job,
      In job (fst (Job_get_user_jobs (db w) user page size)) ->
      passes job_type (Some s) job = true ->
      exists e, list_jobs py user page size job_type (Some s) w = Raise e).
Proof.
  intros Hne Hs.
  assert (Hraise : forall job, passes job_type (Some s) job = true ->
                               exists e, JobStatusResponse_of py job = Raise e).
  { intros job Hpass. unfold passes in Hpass. apply andb_true_iff in Hpass.
    destruct Hpass as [_ Ps].
    destruct (String.eqb_spec s "") as [|_]; [contradiction|].
    apply String.eqb_eq in Ps.
    apply JobStatusResponse_of_unknown_status. now rewrite Ps. }
  split.
  - intros resp H.
    destruct (list_jobs_ok _ _ _ _ _ _ _ _ H) as (_ & _ & Hm & _).
    destruct (filter (passes job_type (Some s))
                (fst (Job_get_user_jobs (db w) user page size)))
      as [|job rest] eqn:Ef.
    + cbn in Hm. now injection Hm as <-.
    + assert (Hin : In job (filter (passes job_type (Some s))
                              (fst (Job_get_user_jobs (db w) user page size))))
        by (rewrite Ef; now left).
      apply filter_In in Hin. destruct Hin as [_ Hpass].
      destruct (Hraise job Hpass) as [e He].
      cbn in Hm. rewrite He in Hm. discriminate.
  - intros job Hin Hpass. unfold list_jobs.
    destruct (negb ((1 <=? page) && (1 <=? size) && (size <=? 100)));
      [eauto|].
    destruct (Job_get_user_jobs (db w) user page size) as [jobs total].
    cbn [fst] in Hin.
    destruct (mapM_raises (JobStatusResponse_of py)
                (filter (passes job_type (Some s)) jobs) job) as [e He].
    + apply filter_In. auto.
    + apply Hraise. exact Hpass.
    + rewrite He. cbn. eauto.
Qed.

Lemma list_jobs_unknown_status_lists_nothing_witness :
  (exists resp,
      list_jobs sample_py 1 1 2 None (Some "cancelled") sample_listing = Ok resp /\
      l_jobs resp = [] /\ l_total resp = 3) /\
  (exists e,
      list_jobs sample_py 1 1 2 None (Some "cancelled")
        (app_of [sample_job 7 "cancelled" 0 None]) = Raise e).
Proof.
  split.
  - eexists. split; [reflexivity|]. split; [|reflexivity].
    apply (proj1 (list_jobs_unknown_status_lists_nothing sample_py 1 1 2 None
                    "cancelled" sample_listing
                    ltac:(discriminate) eq_refl)).
    reflexivity.
  - apply (proj2 (list_jobs_unknown_status_lists_nothing sample_py 1 1 2 None
                    "cancelled" (app_of [sample_job 7 "cancelled" 0 None])
                    ltac:(discriminate) eq_refl)
             (sample_job 7 "cancelled" 0 None)).
    + left. reflexivity.
    + reflexivity.
Defined.

(** X8: a job stored under another user is out of reach of the caller:
    [get_job] answers 403 and shows nothing, [cancel_job] answers 403 and
    leaves the store and the topic as they were, whatever the state of the
    job. *)
Theorem other_users_job_is_forbidden (py : PyLib) (now : datetime)
    (current_user : UUID) (job_id : string) (w : App) (u : UUID)
    (job : Job) :
  uuid_parse py job_id = Some u ->
  Job_get_job (db w) u = Some job ->
  user_id job <> current_user ->
  get_job py current_user job_id w = Raise (HTTPException 403 "Access denied") /\
  cancel_job py now current_user job_id w =
    (Raise (HTTPException 403 "Access denied"), w).
Proof.
  intros Hp Hj Hne.
  assert (Hl : load_own_job py current_user job_id w =
               Raise (HTTPException 403 "Access denied")).
  { unfold load_own_job. rewrite Hp, Hj.
    destruct (Z.eqb_spec (user_id job) current_user); [contradiction|].
    reflexivity. }
  unfold get_job, cancel_job. rewrite Hl. split; reflexivity.
Qed.

Lemma other_users_job_is_forbidden_witness :
  cancel_job sample_py 9 2 (sample_uuid_text 7) sample_store =
    (Raise (HTTPException 403 "Access denied"), sample_store).
Proof.
  apply (other_users_job_is_forbidden sample_py 9 2 (sample_uuid_text 7)
           sample_store 7 (sample_job 7 "queued" 0 None));
    [reflexivity | reflexivity | discriminate].
Defined.

(** X9: an identifier that does not parse is answered 400 and one that is
    not stored 404, by [get_job] and by [cancel_job] alike, and
    [cancel_job] then leaves the store as it was. *)
Theorem unknown_job_is_not_found (py : PyLib) (now : datetime)
    (current_user : UUID) (job_id : string) (w : App) :
  (uuid_parse py job_id = None ->
   get_job py current_user job_id w =
     Raise (HTTPException 400 "Invalid job ID format") /\
   cancel_job py now current_user job_id w =
     (Raise (HTTPException 400 "Invalid job ID format"), w)) /\
  (forall u, uuid_parse py job_id = Some u ->
             has_id u (rows (db w)) = false ->
             get_job py current_user job_id w =
               Raise (HTTPException 404 "Job not found") /\
             cancel_job py now current_user job_id w =
               (Raise (HTTPException 404 "Job not found"), w)).
Proof.
  split.
  - intros Hp. unfold get_job, cancel_job, load_own_job. rewrite Hp.
    split; reflexivity.
  - intros u Hp Hf. unfold get_job, cancel_job, load_own_job, Job_get_job.
    rewrite Hp, (has_id_find _ _ Hf). split; reflexivity.
Qed.

Lemma unknown_job_is_not_found_witness :
  get_job sample_py 1 (sample_uuid_text 1) sample_store =
    Raise (HTTPException 404 "Job not found") /\
  get_job sample_py 1 "seven" sample_store =
    Raise (HTTPException 400 "Invalid job ID format").
Proof.
  split.
  - apply (proj2 (unknown_job_is_not_found sample_py 0 1 (sample_uuid_text 1)
                    sample_store) 1); reflexivity.
  - apply (proj1 (unknown_job_is_not_found sample_py 0 1 "seven" sample_store)).
    reflexivity.
Defined.

(** ** Cancelling *)

(** X10: a successful [cancel_job] changes the status of the stored job and
    nothing else: its timestamps, results and error are what they were (no
    [finished_at] is written), the rows stored under other identifiers and
    the topic are untouched; and cancelling the same job again is refused
    with a 400 that leaves the store as it is. *)
Theorem cancel_job_changes_status_only (py : PyLib) (now now' : datetime)
    (user : UUID) (job_id : string) (w : App) (job : Job) :
  load_own_job py user job_id w = Ok job ->
  status job = "queued" ->
  let w1 := snd (cancel_job py now user job_id w) in
  exists job1,
    Job_get_job (db w1) (id job) = Some job1 /\
    status job1 = "cancelled" /\
    started_at job1 = started_at job /\
    finished_at job1 = finished_at job /\
    result_refs job1 = result_refs job /\ error job1 = error job /\
    (forall u, u <> id job -> Job_get_job (db w1) u = Job_get_job (db w) u) /\
    topic w1 = topic w /\
    cancel_job py now' user job_id w1 =
      (Raise (HTTPException 400 "Only queued jobs can be cancelled"), w1).
Proof.
  intros Hl Hs. cbv zeta.
  destruct (load_own_job_found _ _ _ _ _ Hl) as (Hp & Hget & Hu).
  assert (E : cancel_job py now user job_id w =
              (Ok "Job cancelled successfully",
               mkApp (db_commit_object (id job) (with_status "cancelled" job)
                        (db w)) (topic w))).
  { unfold cancel_job. rewrite Hl, Hs. cbn [negb String.eqb].
    rewrite update_status_cancelled. reflexivity. }
  rewrite E. cbn [snd db topic].
  assert (G : forall u,
             Job_get_job (db_commit_object (id job)
                            (with_status "cancelled" job) (db w)) u =
             if u =? id job
             then Some (with_status "cancelled" job)
             else Job_get_job (db w) u).
  { intros u. unfold Job_get_job, db_commit_object. cbn [rows].
    rewrite (find_after_commit_object (with_status "cancelled" job)).
    cbn [id with_status]. destruct (Z.eqb_spec u (id job)) as [->|]; [|reflexivity].
    unfold Job_get_job in Hget. now rewrite Hget. }
  exists (with_status "cancelled" job).
  split; [rewrite G, Z.eqb_refl; reflexivity|].
  repeat split.
  - intros u Hne. rewrite G. destruct (Z.eqb_spec u (id job)); [contradiction|].
    reflexivity.
  - unfold cancel_job, load_own_job. cbn [db]. rewrite Hp, G, Z.eqb_refl.
    cbn [user_id with_status]. rewrite Hu, Z.eqb_refl. reflexivity.
Qed.

Lemma cancel_job_changes_status_only_witness :
  cancel_job sample_py 10 1 (sample_uuid_text 7)
    (snd (cancel_job sample_py 9 1 (sample_uuid_text 7) sample_store)) =
  (Raise (HTTPException 400 "Only queued jobs can be cancelled"),
   snd (cancel_job sample_py 9 1 (sample_uuid_text 7) sample_store)).
Proof.
  destruct (cancel_job_changes_status_only sample_py 9 10 1
              (sample_uuid_text 7) sample_store
              (sample_job 7 "queued" 0 None) eq_refl eq_refl)
    as (job1 & _ & _ & _ & _ & _ & _ & _ & _ & H).
  exact H.
Defined.

(** ** Status updates of the model *)

Lemma get_after_commit_object (d : Session) (key u : UUID) (j0 j' : Job) :
  Job_get_job d key = Some j0 ->
  id j' = key ->
  Job_get_job (db_commit_object key j' d) u =
  if u =? key then Some j' else Job_get_job d u.
Proof.
  intros Hget Hid. unfold Job_get_job, db_commit_object in *. cbn [rows].
  rewrite <- Hid. rewrite find_after_commit_object.
  destruct (Z.eqb_spec u (id j')) as [->|]; [|reflexivity].
  rewrite Hid, Hget. reflexivity.
Qed.

(** X11: without keyword arguments [update_status] writes a timestamp at
    most once: [started_at] is stamped on a move to [running] when it is
    null, [finished_at] on a move to [completed] or [failed] when it is
    null, and a timestamp that is set is never overwritten; a move to
    [cancelled] stamps nothing. *)
Theorem update_status_stamps_once (j : Job) (d : Session) (now : datetime)
    (s : string) :
  (forall t, started_at j = Some t ->
             started_at (fst (Job_update_status j d now s [])) = Some t) /\
  (forall t, finished_at j = Some t ->
             finished_at (fst (Job_update_status j d now s [])) = Some t) /\
  (started_at j = None ->
   started_at (fst (Job_update_status j d now s [])) =
   if (s =? "running")%string then Some now else None) /\
  (finished_at j = None ->
   finished_at (fst (Job_update_status j d now s [])) =
   if mem_string s ["completed"; "failed"] then Some now else None).
Proof.
  unfold Job_update_status. cbn [fst fold_left].
  destruct j as [i u ty st pj sy s0 e0 iv vd ad cr sa fa rr er].
  unfold with_status. cbn [started_at finished_at].
  destruct (String.eqb_spec s "running") as [->|_].
  - destruct sa, fa; cbn; repeat split; intros; congruence.
  - destruct (mem_string s ["completed"; "failed"]);
      destruct sa, fa; cbn; repeat split; intros; congruence.
Qed.

Lemma update_status_stamps_once_witness :
  started_at (fst (Job_update_status
                     (fst (Job_update_status (sample_job 7 "queued" 0 None)
                             (mkSession [] []) 5 "running" []))
                     (mkSession [] []) 9 "running" [])) = Some 5.
Proof.
  apply (update_status_stamps_once
           (fst (Job_update_status (sample_job 7 "queued" 0 None)
                   (mkSession [] []) 5 "running" []))
           (mkSession [] []) 9 "running").
  reflexivity.
Defined.

Lemma update_status_id (j : Job) (d : Session) (now : datetime) (s : string) :
  id (fst (Job_update_status j d now s [])) = id j.
Proof.
  unfold Job_update_status. cbn [fst fold_left].
  destruct (s =? "running")%string.
  - destruct (started_at (with_status s j)); reflexivity.
  - destruct (mem_string s ["completed"; "failed"]);
      [destruct (finished_at (with_status s j))|]; reflexivity.
Qed.

Lemma update_status_lookup (j j0 : Job) (d : Session) (now : datetime)
    (s : string) (u : UUID) :
  Job_get_job d (id j) = Some j0 ->
  Job_get_job (snd (Job_update_status j d now s [])) u =
  if u =? id j then Some (fst (Job_update_status j d now s []))
  else Job_get_job d u.
Proof.
  intros Hget.
  pose proof (update_status_id j d now s) as Hid.
  unfold Job_update_status in *. cbn [fst snd] in *.
  apply (get_after_commit_object d (id j) u j0 _ Hget Hid).
Qed.

Lemma update_status_pending (j : Job) (d : Session) (now : datetime)
    (s : string) :
  pending (snd (Job_update_status j d now s [])) = pending d.
Proof. reflexivity. Qed.

(** X12: in a session that holds the row of the job and has nothing
    pending, [set_error] stores the error, marks the row [failed] and
    stamps [finished_at] unless it is set; [set_results] stores the
    references, marks the row [completed] and stamps [finished_at] unless
    it is set.  Neither clears what the other wrote, so a row can hold
    results and an error at once, and neither changes [started_at] or
    another row.  The row found under the identifier afterwards is the
    updated one, and nothing is left pending. *)
Theorem set_error_and_set_results_effect (j j0 : Job) (d : Session)
    (now : datetime) :
  pending d = [] ->
  Job_get_job d (id j) = Some j0 ->
  (forall err,
      let j' := fst (Job_set_error j d now err) in
      let d' := snd (Job_set_error j d now err) in
      Job_get_job d' (id j) = Some j' /\
      status j' = "failed" /\ error j' = Some err /\
      finished_at j' =
        Some (match finished_at j with Some t => t | None => now end) /\
      result_refs j' = result_refs j /\ started_at j' = started_at j /\
      (forall u, u <> id j -> Job_get_job d' u = Job_get_job d u) /\
      pending d' = []) /\
  (forall refs,
      let j' := fst (Job_set_results j d now refs) in
      let d' := snd (Job_set_results j d now refs) in
      Job_get_job d' (id j) = Some j' /\
      status j' = "completed" /\ result_refs j' = Some refs /\
      finished_at j' =
        Some (match finished_at j with Some t => t | None => now end) /\
      error j' = error j /\ started_at j' = started_at j /\
      (forall u, u <> id j -> Job_get_job d' u = Job_get_job d u) /\
      pending d' = []).
Proof.
  intros Hpend Hget. split; intros x; cbv zeta.
  - unfold Job_set_error.
    assert (Hget' : Job_get_job d (id (with_error (Some x) j)) = Some j0)
      by exact Hget.
    split; [|split; [|split; [|split; [|split; [|split; [|split]]]]]].
    + rewrite (update_status_lookup _ j0 _ _ _ _ Hget').
      cbn [id with_error]. now rewrite Z.eqb_refl.
    + apply update_status_assigns.
    + destruct j; cbn. destruct finished_at0; reflexivity.
    + destruct j; cbn. destruct finished_at0; reflexivity.
    + destruct j; cbn. destruct finished_at0; reflexivity.
    + destruct j; cbn. destruct finished_at0; reflexivity.
    + intros u Hne. rewrite (update_status_lookup _ j0 _ _ _ _ Hget').
      cbn [id with_error]. destruct (Z.eqb_spec u (id j)); [contradiction|].
      reflexivity.
    + rewrite update_status_pending. exact Hpend.
  - unfold Job_set_results.
    assert (Hget' : Job_get_job d (id (with_result_refs (Some x) j)) = Some j0)
      by exact Hget.
    split; [|split; [|split; [|split; [|split; [|split; [|split]]]]]].
    + rewrite (update_status_lookup _ j0 _ _ _ _ Hget').
      cbn [id with_result_refs]. now rewrite Z.eqb_refl.
    + apply update_status_assigns.
    + destruct j; cbn. destruct finished_at0; reflexivity.
    + destruct j; cbn. destruct finished_at0; reflexivity.
    + destruct j; cbn. destruct finished_at0; reflexivity.
    + destruct j; cbn. destruct finished_at0; reflexivity.
    + intros u Hne. rewrite (update_status_lookup _ j0 _ _ _ _ Hget').
      cbn [id with_result_refs]. destruct (Z.eqb_spec u (id j)); [contradiction|].
      reflexivity.
    + rewrite update_status_pending. exact Hpend.
Qed.

Lemma set_error_and_set_results_effect_witness :
  let j := sample_job 7 "completed" 0 (Some 5) in
  let d := mkSession [j] [] in
  option_map status
    (Job_get_job (snd (Job_set_error j d 9 "late error")) 7) = Some "failed".
Proof.
  cbv zeta.
  destruct (proj1 (set_error_and_set_results_effect
                     (sample_job 7 "completed" 0 (Some 5))
                     (sample_job 7 "completed" 0 (Some 5))
                     (mkSession [sample_job 7 "completed" 0 (Some 5)] []) 9
                     eq_refl eq_refl) "late error") as (H1 & H2 & _).
  change (id (sample_job 7 "completed" 0 (Some 5))) with 7 in H1.
  rewrite H1. cbn [option_map]. now rewrite H2.
Defined.

(** ** Submission and retrieval *)

Lemma JobType_of_JobType_value (t : JobType) :
  JobType_of (JobType_value t) = Some t.
Proof. destruct t; reflexivity. Qed.

(** The row that a successful [Job.create_job] writes for a request. *)
Lemma persist_request_job (py : PyLib) (new_id : UUID) (now : datetime)
    (user : UUID) (req : CreateJobRequest) (d d1 : Session) (job : Job) :
  persist_request py new_id now user req d = (Ok job, d1) ->
  exists start stop,
    strptime_ymd py (r_start req) = Some start /\
    strptime_ymd py (r_end req) = Some stop /\
    job = mkJob new_id user (JobType_value (r_type req)) "queued"
            (r_params req) (r_symbols req) start stop (r_interval req)
            (match r_vendor req with Some v => v | None => "eodhd" end)
            (r_adjusted req) now None None None None.
Proof.
  unfold persist_request, Job_create_job. intros H.
  destruct (strptime_ymd py (r_start req)) as [start|]; [|discriminate].
  destruct (strptime_ymd py (r_end req)) as [stop|]; [|discriminate].
  destruct (db_commit _) as [[[]|e] d2]; [|discriminate].
  injection H as <- <-. eauto.
Qed.

Lemma create_job_ok_persisted (py : PyLib) (pubsub : PubSubPublisher)
    (new_id : UUID) (now : datetime) (user : UUID) (req : CreateJobRequest)
    (w w' : App) (resp : JobCreateResponse) :
  create_job py pubsub new_id now user req w = (Ok resp, w') ->
  exists job,
    persist_request py new_id now user req (db w) = (Ok job, db w') /\
    c_job_id resp = new_id.
Proof.
  unfold create_job. intros H.
  destruct (create_job_try py pubsub new_id now user req w) as [[r|e] w1] eqn:Ht;
    [|discriminate].
  injection H as -> ->. unfold create_job_try in Ht.
  destruct (persist_request py new_id now user req (db w)) as [[job|e] d1] eqn:Hp;
    [|discriminate].
  destruct (persist_request_ok _ _ _ _ _ _ _ _ Hp) as (Hid & _).
  exists job.
  destruct (publish_job pubsub (topic w) (message_data py job req))
    as [[m|e] t1]; [|discriminate].
  destruct (JobStatus_of (status job)); [|discriminate].
  injection Ht as <- <-. cbn. auto.
Qed.

(** X13: a job that [create_job] accepted can be read back at once: for a
    request that passed its validators and whose parameters are a
    dictionary, [get_job] by the same user under the returned identifier
    answers with a view in state [QUEUED] with progress 0.0, the type,
    symbols and parameters of the request, no start or finish time, no
    metrics and no error. *)
Theorem submitted_job_is_retrievable (py : PyLib) (pubsub : PubSubPublisher)
    (new_id : UUID) (now local_now : datetime) (user : UUID)
    (req : CreateJobRequest) (w w' : App) (resp : JobCreateResponse)
    (job_id : string) :
  pending (db w) = [] ->
  CreateJobRequest_validators py local_now req = true ->
  is_dict (r_params req) = true ->
  create_job py pubsub new_id now user req w = (Ok resp, w') ->
  uuid_parse py job_id = Some (c_job_id resp) ->
  exists v,
    get_job py user job_id w' = Ok v /\
    v_job_id v = c_job_id resp /\ v_user_id v = user /\
    v_type v = r_type req /\ v_status v = QUEUED /\
    v_symbols v = r_symbols req /\ v_params v = r_params req /\
    v_created_at v = now /\
    v_started_at v = None /\ v_finished_at v = None /\
    v_metrics v = None /\ v_result_urls v = None /\ v_error v = None /\
    v_progress v = Some 0%float.
Proof.
  intros Hpend Hv Hd Hc Hparse.
  destruct (create_job_ok_persisted _ _ _ _ _ _ _ _ _ Hc) as (job & Hp & Hid).
  destruct (persist_request_ok _ _ _ _ _ _ _ _ Hp)
    as (Hjid & _ & _ & _ & _ & _ & Hrows & _ & Hf).
  pose proof (persisted_job_found new_id (db w) (db w') job Hjid Hrows Hf)
    as Hget.
  destruct (persist_request_job _ _ _ _ _ _ _ _ Hp) as (start & stop & _ & _ & Hjob).
  unfold CreateJobRequest_validators in Hv.
  repeat (apply andb_true_iff in Hv; destruct Hv as [Hv ?]).
  unfold get_job, load_own_job. rewrite Hparse, Hid, Hget.
  assert (Hu : user_id job = user) by (rewrite Hjob; reflexivity).
  rewrite Hu, Z.eqb_refl. cbn [negb bind].
  unfold JobStatusResponse_of. rewrite Hjob.
  cbn [type result_refs refs_get bind status interval vendor params_json].
  rewrite JobType_of_JobType_value. cbn [bind].
  unfold _calculate_job_progress. cbn [status String.eqb Ascii.eqb Bool.eqb bind].
  cbn [JobStatus_of String.eqb Ascii.eqb Bool.eqb opt_check andb].
  match goal with
  | H : mem_string (r_interval req) _ = true |- _ => rewrite H
  end.
  rewrite Hd.
  assert (Hvend : mem_string
                    (match r_vendor req with Some v => v | None => "eodhd" end)
                    DataVendor_values = true)
    by (destruct (r_vendor req); [assumption | reflexivity]).
  rewrite Hvend. cbn. eexists. split; [reflexivity|]. cbn.
  repeat split.
Qed.

Lemma submitted_job_is_retrievable_witness :
  exists v,
    get_job sample_py 1 (sample_uuid_text 7)
      (snd (create_job sample_py disabled_publisher 7 100 1 sample_request
              empty_app)) = Ok v /\
    v_status v = QUEUED /\ v_progress v = Some 0%float.
Proof.
  destruct (submitted_job_is_retrievable sample_py disabled_publisher 7 100
              1706745600000000 1 sample_request empty_app _ _
              (sample_uuid_text 7) eq_refl eq_refl eq_refl eq_refl eq_refl)
    as (v & Hg & _ & _ & _ & Hs & _ & _ & _ & _ & _ & _ & _ & _ & Hp).
  exists v. split; [exact Hg|]. split; [exact Hs | exact Hp].
Defined.

(** X14: when [Job.create_job] raises, on a date that does not parse or on
    an identifier that is already stored, [create_job] answers 500 with the
    text of the exception, publishes nothing, and the rollback leaves the
    store with the rows it had and nothing pending. *)
Theorem create_job_failure_leaves_no_trace (py : PyLib)
    (pubsub : PubSubPublisher) (new_id : UUID) (now : datetime) (user : UUID)
    (req : CreateJobRequest) (w : App) :
  pending (db w) = [] ->
  strptime_ymd py (r_start req) = None \/
  strptime_ymd py (r_end req) = None \/
  has_id new_id (rows (db w)) = true ->
  exists e,
    fst (persist_request py new_id now user req (db w)) = Raise e /\
    fst (create_job py pubsub new_id now user req w) =
      Raise (HTTPException 500 ("Failed to create job: " ++ str_exn e)) /\
    rows (db (snd (create_job py pubsub new_id now user req w))) =
      rows (db w) /\
    pending (db (snd (create_job py pubsub new_id now user req w))) = [] /\
    topic (snd (create_job py pubsub new_id now user req w)) = topic w.
Proof.
  intros Hpend Hcause.
  unfold create_job, create_job_try, persist_request, Job_create_job.
  destruct (strptime_ymd py (r_start req)) as [start|] eqn:Hs.
  - destruct (strptime_ymd py (r_end req)) as [stop|] eqn:He.
    + destruct Hcause as [Hc|[Hc|Hc]]; try discriminate.
      unfold db_commit, db_add. cbn [rows pending]. rewrite Hpend.
      cbn [List.app insert_rows id]. rewrite Hc. cbn.
      eexists. repeat split.
    + cbn. eexists. repeat split.
  - cbn. eexists. repeat split.
Qed.

Lemma create_job_failure_leaves_no_trace_witness :
  rows (db (snd (create_job sample_py working_publisher 7 100 1
                   sample_request sample_store))) = rows (db sample_store) /\
  topic (snd (create_job sample_py working_publisher 7 100 1
                sample_request sample_store)) = [].
Proof.
  destruct (create_job_failure_leaves_no_trace sample_py working_publisher
              7 100 1 sample_request sample_store eq_refl
              (or_intror (or_intror eq_refl))) as (e & _ & _ & H1 & _ & H2).
  split; [exact H1 | exact H2].
Defined.

(** ** The push endpoint of the worker *)

Section Push.

Variables (sv : Services) (py : PyLib) (now_iso : string).

(** A request either carries a message, or is refused before anything is
    processed. *)
Lemma deliver_cases (request : Request) (s : System) :
  (exists job_data, carries py request job_data) \/
  (exists e, deliver sv py now_iso request s = (Raise e, s)).
Proof.
  unfold carries, deliver, process_pubsub_message, try_except,
    process_pubsub_message_try.
  destruct s as [a g]. cbn [gcs app].
  destruct (authorization request) as [h|]; [|right; cbn; eauto].
  destruct (String.prefix "Bearer " h) eqn:Hp; [|right; cbn; eauto].
  destruct (body request) as [b|msg]; [|right; cbn; eauto].
  cbn [negb]. unfold bindM at 1. unfold lift at 1.
  destruct (py_get b "message" (JObj [])) as [message|e] eqn:Hm;
    [|right; cbn; eauto].
  unfold bindM at 1. unfold lift at 1.
  destruct (py_get message "data" (JStr "")) as [data|e] eqn:Hd;
    [|right; cbn; eauto].
  destruct (truthy data) eqn:Ht; [|right; cbn; eauto].
  cbn [negb].
  destruct (decode_data py data) as [job_data|msg] eqn:Hdec;
    [|right; cbn; eauto].
  left. exists job_data, h, b, message, data. repeat split; auto.
Qed.

Lemma carries_unique (request : Request) (d1 d2 : json) :
  carries py request d1 -> carries py request d2 -> d1 = d2.
Proof.
  intros (h1 & b1 & m1 & x1 & A1 & _ & B1 & M1 & D1 & _ & E1)
         (h2 & b2 & m2 & x2 & A2 & _ & B2 & M2 & D2 & _ & E2).
  congruence.
Qed.

(** X15: a delivery is acknowledged only when the request was
    authenticated and decoded and [process_job] returned on its message: no
    other path of the handler answers with a success status. *)
Theorem ack_only_after_pipeline (request : Request) (s : System) :
  delivery_of (fst (deliver sv py now_iso request s)) = Ack ->
  exists job_data items v,
    carries py request job_data /\ job_data = JObj items /\
    fst (process_job sv py now_iso job_data (gcs s)) = Ok v.
Proof.
  intros H. destruct (deliver_cases request s) as [[job_data Hc] | [e He]].
  - rewrite (deliver_decoded sv py now_iso _ _ _ Hc) in H.
    destruct (process_job sv py now_iso job_data (gcs s)) as [[v|e] g] eqn:Hr.
    + destruct (process_job_not_dict _ _ _ _ _ _ _ Hr) as [items ->].
      exists (JObj items), items, v. rewrite Hr. repeat split; auto.
    + cbn in H. discriminate.
  - rewrite He in H. cbn in H. discriminate.
Qed.

(** X16: a push whose body has no [message], or whose message has no
    [data] or an empty one, is answered 400 [No message data]; nothing is
    decoded or processed and the system is left as it was. *)
Theorem missing_message_data_is_rejected (request : Request)
    (auth_header : string) (items : list (string * json)) (s : System) :
  authorization request = Some auth_header ->
  String.prefix "Bearer " auth_header = true ->
  body request = inl (JObj items) ->
  assoc "message" items = None \/
  (exists mitems,
      assoc "message" items = Some (JObj mitems) /\
      (assoc "data" mitems = None \/
       exists data, assoc "data" mitems = Some data /\ truthy data = false)) ->
  deliver sv py now_iso request s =
    (Raise (HTTPException 400 "No message data"), s).
Proof.
  intros Ha Hp Hb Hcase.
  unfold deliver, process_pubsub_message, try_except,
    process_pubsub_message_try.
  rewrite Ha, Hp, Hb. cbn [negb]. destruct s as [a g]. cbn [gcs app].
  unfold bindM, lift, py_get.
  destruct Hcase as [Hm | (mitems & Hm & [Hd | (data & Hd & Ht)])];
    rewrite Hm; try rewrite Hd; try rewrite Ht; reflexivity.
Qed.

(** Without a bucket [process_job] raises and writes nothing. *)
Lemma process_job_without_bucket (job_data : json) (g : Blobs) :
  bucket sv = false ->
  exists e, process_job sv py now_iso job_data g = (Raise e, g).
Proof.
  intros Hb. destruct job_data; try (cbn; eauto; fail).
  rewrite process_job_dict.
  assert (Hrun : exists e, pipeline_run sv py now_iso items g = (Raise e, g)).
  { unfold pipeline_run, process_job_try, bindM, lift, write_metrics_json,
      write_blob, raise. rewrite Hb.
    destruct (load_prices sv _ _ _ _ _ _); [|eauto].
    destruct (py_len _); [|eauto].
    destruct (run_model sv _ _ _); [|eauto].
    destruct (getitem _ _); eauto. }
  destruct Hrun as [e He]. exists e.
  unfold try_except at 1. rewrite He.
  unfold bindM, record_error, try_except, write_metrics_json, write_blob,
    raise, ret. rewrite Hb. reflexivity.
Qed.

(** X17: when the writer has no bucket, no delivery is ever acknowledged
    and the stored objects stay as they are: every request is answered
    with an error status. *)
Theorem no_bucket_no_ack (request : Request) (s : System) :
  bucket sv = false ->
  delivery_of (fst (deliver sv py now_iso request s)) = Nack /\
  snd (deliver sv py now_iso request s) = s.
Proof.
  intros Hb. destruct (deliver_cases request s) as [[job_data Hc] | [e He]].
  - rewrite (deliver_decoded sv py now_iso _ _ _ Hc).
    destruct (process_job_without_bucket job_data (gcs s) Hb) as [e He].
    rewrite He. destruct s. split; reflexivity.
  - rewrite He. split; reflexivity.
Qed.

End Push.

Lemma missing_message_data_is_rejected_witness :
  deliver working_services sample_py "2024-02-01T00:00:00"
    {| authorization := Some "Bearer token";
       body := inl (JObj [("subscription", JStr "jobs-push")]) |}
    (system_of []) =
  (Raise (HTTPException 400 "No message data"), system_of []).
Proof.
  apply (missing_message_data_is_rejected working_services sample_py
           "2024-02-01T00:00:00" _ "Bearer token"
           [("subscription", JStr "jobs-push")] (system_of []));
    [reflexivity | reflexivity | reflexivity | left; reflexivity].
Defined.

Lemma ack_only_after_pipeline_witness :
  exists job_data items v,
    carries sample_py sample_push job_data /\ job_data = JObj items /\
    fst (process_job working_services sample_py "2024-02-01T00:00:00"
           job_data []) = Ok v.
Proof.
  apply (ack_only_after_pipeline working_services sample_py
           "2024-02-01T00:00:00" sample_push (system_of [])).
  reflexivity.
Defined.

Lemma no_bucket_no_ack_witness :
  delivery_of (fst (deliver bucketless_services sample_py
                      "2024-02-01T00:00:00" sample_push (system_of []))) = Nack.
Proof.
  apply (no_bucket_no_ack bucketless_services sample_py "2024-02-01T00:00:00"
           sample_push (system_of [])).
  reflexivity.
Defined.

(** ** The bucket *)

Lemma get_blob_put_same (name : string) (b : Blob) (g : Blobs) :
  get_blob name (put_blob name b g) = Some b.
Proof.
  induction g as [|[n b'] g IH]; cbn.
  - now rewrite String.eqb_refl.
  - destruct (String.eqb_spec n name) as [->|Hne]; cbn.
    + now rewrite String.eqb_refl.
    + destruct (String.eqb_spec n name); [contradiction|exact IH].
Qed.

Lemma get_blob_put_other (name name' : string) (b : Blob) (g : Blobs) :
  name <> name' ->
  get_blob name' (put_blob name b g) = get_blob name' g.
Proof.
  intros Hne. induction g as [|[n b'] g IH]; cbn.
  - destruct (String.eqb_spec name name'); [contradiction|reflexivity].
  - destruct (String.eqb_spec n name) as [->|Hn]; cbn.
    + destruct (String.eqb_spec name name'); [contradiction|reflexivity].
    + destruct (String.eqb_spec n name'); [reflexivity|exact IH].
Qed.

Lemma put_blob_names (name : string) (b : Blob) (g : Blobs) :
  get_blob name g <> None -> map fst (put_blob name b g) = map fst g.
Proof.
  induction g as [|[n b'] g IH]; cbn; [congruence|].
  destruct (String.eqb_spec n name) as [->|Hne]; cbn; [reflexivity|].
  intros H. f_equal. apply IH. exact H.
Qed.

(** Writing again what a name already holds changes nothing. *)
Lemma put_blob_same (name : string) (b : Blob) (g : Blobs) :
  get_blob name g = Some b -> put_blob name b g = g.
Proof.
  induction g as [|[n b'] g IH]; cbn; [discriminate|].
  destruct (String.eqb_spec n name) as [->|Hne].
  - intros H. injection H as ->. reflexivity.
  - intros H. f_equal. apply IH. exact H.
Qed.

Lemma prefix_append (a b c : string) :
  String.prefix (a ++ b) (a ++ c) = String.prefix b c.
Proof.
  induction a as [|x a IH]; cbn; [reflexivity|].
  destruct (Ascii.ascii_dec x x); [exact IH|contradiction].
Qed.

Lemma append_cancel (a b c : string) : (a ++ b = a ++ c)%string -> b = c.
Proof.
  induction a as [|x a IH]; cbn; [auto|]. intros H. injection H as H. auto.
Qed.

Lemma job_path_in_job_dir (py : PyLib) (job_id : json) (filename : string) :
  in_job_dir py job_id (job_path py job_id filename) = true.
Proof.
  unfold in_job_dir, job_path. rewrite !prefix_append.
  destruct filename; reflexivity.
Qed.

Lemma job_path_inj (py : PyLib) (job_id : json) (f1 f2 : string) :
  job_path py job_id f1 = job_path py job_id f2 -> f1 = f2.
Proof.
  unfold job_path. intros H. now repeat apply append_cancel in H.
Qed.

Section Growth.

Variable P : string -> bool.

Lemma bucket_grows_refl (g : Blobs) : bucket_grows_in P g g.
Proof. intros name. now left. Qed.

Lemma bucket_grows_trans (g1 g2 g3 : Blobs) :
  bucket_grows_in P g1 g2 -> bucket_grows_in P g2 g3 ->
  bucket_grows_in P g1 g3.
Proof.
  intros H12 H23 name.
  destruct (H23 name) as [E23|[Hp Hn]]; [|now right].
  destruct (H12 name) as [E12|[Hp Hn]].
  - left. congruence.
  - right. split; [exact Hp|congruence].
Qed.

Lemma bucket_grows_put (name : string) (b : Blob) (g : Blobs) :
  P name = true -> bucket_grows_in P g (put_blob name b g).
Proof.
  intros Hp name'. destruct (String.eqb_spec name name') as [<-|Hne].
  - right. split; [exact Hp|]. rewrite get_blob_put_same. discriminate.
  - left. now apply get_blob_put_other.
Qed.

Lemma grows_ret {A} (a : A) : grows_in P (ret a).
Proof. intros g. apply bucket_grows_refl. Qed.

Lemma grows_raise {A} (e : exn) : grows_in P (@raise A e).
Proof. intros g. apply bucket_grows_refl. Qed.

Lemma grows_lift {A} (r : result A) : grows_in P (lift r).
Proof. intros g. apply bucket_grows_refl. Qed.

Lemma grows_bind {A B} (m : M A) (k : A -> M B) :
  grows_in P m -> (forall a, grows_in P (k a)) -> grows_in P (bindM m k).
Proof.
  intros Hm Hk g. unfold bindM. specialize (Hm g).
  destruct (m g) as [[a|e] g1]; cbn [snd] in *; [|exact Hm].
  eapply bucket_grows_trans; [exact Hm | apply Hk].
Qed.

Lemma grows_try {A} (m : M A) (h : exn -> M A) :
  grows_in P m -> (forall e, grows_in P (h e)) -> grows_in P (try_except m h).
Proof.
  intros Hm Hh g. unfold try_except. specialize (Hm g).
  destruct (m g) as [[a|e] g1]; cbn [snd] in *; [exact Hm|].
  eapply bucket_grows_trans; [exact Hm | apply Hh].
Qed.

End Growth.

Section JobDirectory.

Variables (sv : Services) (py : PyLib) (now_iso : string).

Lemma grows_write_blob (job_id : json) (filename : string) (b : Blob) :
  grows_in (in_job_dir py job_id) (write_blob sv py job_id filename b).
Proof.
  intros g. unfold write_blob. destruct (bucket sv); [|apply bucket_grows_refl].
  destruct (upload sv _); cbn [snd]; [|apply bucket_grows_refl].
  apply bucket_grows_put, job_path_in_job_dir.
Qed.

Lemma grows_generate_signed_urls (job_id : json) :
  grows_in (in_job_dir py job_id) (generate_signed_urls sv py job_id).
Proof.
  intros g. unfold generate_signed_urls.
  destruct (bucket sv); [|apply bucket_grows_refl].
  destruct (list_blobs sv _); apply bucket_grows_refl.
Qed.

Ltac grows :=
  repeat first
    [ apply grows_ret | apply grows_raise | apply grows_lift
    | apply grows_write_blob | apply grows_generate_signed_urls
    | apply grows_bind; [|intros ?]
    | apply grows_try; [|intros ?]
    | match goal with
      | |- grows_in _ (if ?c then _ else _) => destruct c
      end ].

Lemma grows_process_job_try
    (job_id job_type syms start_date end_date ival vend adj params : json) :
  grows_in (in_job_dir py job_id)
    (process_job_try sv py now_iso job_id job_type syms start_date end_date
       ival vend adj params).
Proof.
  unfold process_job_try, write_metrics_json, write_artifact_dataframe,
    write_job_summary. grows.
Qed.

Lemma grows_process_job (job_data : json) :
  grows_in (in_job_dir py (job_id_of job_data))
    (process_job sv py now_iso job_data).
Proof.
  destruct job_data; try (intros g; apply bucket_grows_refl).
  rewrite process_job_dict. cbn [job_id_of].
  apply grows_try; [apply grows_process_job_try|].
  intros e. unfold record_error, write_metrics_json. grows.
Qed.

(** X18: a delivery writes only into the directory of its own job: every
    object of the bucket whose name is not under [jobs/<job_id>/] holds
    after the delivery what it held before, and no object of the bucket
    disappears, whether the pipeline succeeds or fails. *)
Theorem delivery_confined_to_job_directory (request : Request)
    (job_data : json) (s : System) (name : string) :
  carries py request job_data ->
  (in_job_dir py (job_id_of job_data) name = false ->
   get_blob name (gcs (snd (deliver sv py now_iso request s))) =
   get_blob name (gcs s)) /\
  (get_blob name (gcs s) <> None ->
   get_blob name (gcs (snd (deliver sv py now_iso request s))) <> None).
Proof.
  intros Hc.
  assert (Hg : gcs (snd (deliver sv py now_iso request s)) =
               snd (process_job sv py now_iso job_data (gcs s))).
  { rewrite (deliver_decoded sv py now_iso _ _ _ Hc).
    destruct (process_job sv py now_iso job_data (gcs s)) as [[v|e] g];
      [destruct (py_get job_data "job_id" JNull)|]; reflexivity. }
  rewrite Hg.
  destruct (grows_process_job job_data (gcs s) name) as [E|[Hp Hn]].
  - rewrite E. split; auto.
  - split; [congruence | auto].
Qed.

End JobDirectory.

Lemma delivery_confined_to_job_directory_witness :
  let s := mkSystem empty_app
             [("jobs/other/metrics.json", JsonBlob (JInt 1))] in
  get_blob "jobs/other/metrics.json"
    (gcs (snd (deliver working_services sample_py "2024-02-01T00:00:00"
                 sample_push s))) = Some (JsonBlob (JInt 1)).
Proof.
  cbv zeta.
  apply (delivery_confined_to_job_directory working_services sample_py
           "2024-02-01T00:00:00" sample_push _
           (mkSystem empty_app [("jobs/other/metrics.json", JsonBlob (JInt 1))])
           "jobs/other/metrics.json" sample_push_carries).
  reflexivity.
Defined.

Section Artifacts.

Variables (sv : Services) (py : PyLib) (now_iso : string).

(** X19: when the pipeline raises, [process_job] leaves the text of the
    exception in [jobs/<job_id>/error.json], with the job identifier and the
    time, provided the writer has a bucket and the upload succeeds;
    otherwise the bucket stays as the pipeline left it.  In both cases the
    exception that [process_job] raises is the one of the pipeline, never
    the one of the failed write. *)
Theorem failure_is_recorded_in_error_json (items : list (string * json))
    (g g1 : Blobs) (e : exn) :
  pipeline_run sv py now_iso items g = (Raise e, g1) ->
  fst (process_job sv py now_iso (JObj items) g) = Raise e /\
  (bucket sv = true ->
   upload sv (job_path py (field items "job_id" JNull) "error.json") = Ok tt ->
   get_blob (job_path py (field items "job_id" JNull) "error.json")
     (snd (process_job sv py now_iso (JObj items) g)) =
   Some (JsonBlob (error_data now_iso (field items "job_id" JNull) e))) /\
  (bucket sv = false \/
   (exists e', upload sv (job_path py (field items "job_id" JNull)
                            "error.json") = Raise e') ->
   snd (process_job sv py now_iso (JObj items) g) = g1).
Proof.
  intros H. rewrite (process_job_failure sv py now_iso _ _ _ _ H).
  cbn [fst snd]. split; [reflexivity|].
  unfold record_error, try_except, bindM, write_metrics_json, write_blob,
    raise, ret.
  split.
  - intros Hb Hu. rewrite Hb, Hu. cbn [snd]. apply get_blob_put_same.
  - intros [Hb | [e' Hu]].
    + rewrite Hb. reflexivity.
    + destruct (bucket sv); [rewrite Hu|]; reflexivity.
Qed.

End Artifacts.

Lemma failure_is_recorded_in_error_json_witness :
  get_blob "jobs/00000000-0000-0000-0000-000000000007/error.json"
    (snd (process_job failing_services sample_py "2024-02-01T00:00:00"
            (JObj [("job_id", JStr (sample_uuid_text 7));
                   ("type", JStr "blackscholes")]) [])) =
  Some (JsonBlob
          (JObj [("job_id", JStr (sample_uuid_text 7));
                 ("error", JStr "Failed to load prices from BigQuery");
                 ("timestamp", JStr "2024-02-01T00:00:00")])).
Proof.
  apply (failure_is_recorded_in_error_json failing_services sample_py
           "2024-02-01T00:00:00"
           [("job_id", JStr (sample_uuid_text 7)); ("type", JStr "blackscholes")]
           [] []
           (Exception "RuntimeError" "Failed to load prices from BigQuery")
           eq_refl); reflexivity.
Defined.

(** ** From the API to the worker *)

Lemma create_job_ok_topic (py : PyLib) (pubsub : PubSubPublisher)
    (broker : json -> result string) (new_id : UUID) (now : datetime)
    (user : UUID) (req : CreateJobRequest) (w w' : App)
    (resp : JobCreateResponse) :
  create_job py pubsub new_id now user req w = (Ok resp, w') ->
  publisher pubsub = Some broker ->
  exists job,
    persist_request py new_id now user req (db w) = (Ok job, db w') /\
    topic w' = (topic w ++ [message_data py job req])%list.
Proof.
  unfold create_job. intros H Hb.
  destruct (create_job_try py pubsub new_id now user req w) as [[r|e] w1] eqn:Ht;
    [|discriminate].
  injection H as -> ->. unfold create_job_try, publish_job in Ht.
  destruct (persist_request py new_id now user req (db w)) as [[job|e] d1] eqn:Hp;
    [|discriminate].
  exists job. rewrite Hb in Ht.
  destruct (broker (message_data py job req)); [|discriminate].
  destruct (JobStatus_of (status job)); [|discriminate].
  injection Ht as <- <-. cbn. auto.
Qed.

(** X20: the message that a successful [create_job] publishes is a
    dictionary in which [process_job] finds every field it reads, so that
    none of its defaults applies: the worker runs the pipeline on the
    identifier of the created job and on the type, symbols, dates,
    interval, vendor ([eodhd] when the request names none), adjusted flag
    and parameters of the request. *)
Theorem published_message_drives_pipeline (sv : Services) (py : PyLib)
    (now_iso : string) (pubsub : PubSubPublisher)
    (broker : json -> result string) (new_id : UUID) (now : datetime)
    (user : UUID) (req : CreateJobRequest) (w w' : App)
    (resp : JobCreateResponse) :
  create_job py pubsub new_id now user req w = (Ok resp, w') ->
  publisher pubsub = Some broker ->
  exists items,
    topic w' = (topic w ++ [JObj items])%list /\
    pipeline_run sv py now_iso items =
    process_job_try sv py now_iso
      (JStr (uuid_str py (c_job_id resp)))
      (JStr (JobType_value (r_type req)))
      (JArr (map JStr (r_symbols req)))
      (JStr (r_start req)) (JStr (r_end req))
      (JStr (r_interval req))
      (JStr (match r_vendor req with Some v => v | None => "eodhd" end))
      (JBool (r_adjusted req))
      (r_params req).
Proof.
  intros Hc Hb.
  destruct (create_job_ok_topic _ _ _ _ _ _ _ _ _ _ Hc Hb) as (job & Hp & Ht).
  destruct (create_job_ok_persisted _ _ _ _ _ _ _ _ _ Hc) as (job' & Hp' & Hid).
  destruct (persist_request_job _ _ _ _ _ _ _ _ Hp) as (start & stop & _ & _ & ->).
  eexists. split; [exact Ht|]. rewrite Hid. reflexivity.
Qed.

Lemma published_message_drives_pipeline_witness :
  exists items,
    topic (snd (create_job sample_py working_publisher 7 100 1 sample_request
                  empty_app)) = [JObj items] /\
    field items "job_id" JNull = JStr (sample_uuid_text 7) /\
    field items "vendor" (JStr "?") = JStr "eodhd".
Proof.
  destruct (published_message_drives_pipeline working_services sample_py
              "2024-02-01T00:00:00" working_publisher (fun _ => Ok "m-1")
              7 100 1 sample_request empty_app _ _ eq_refl eq_refl)
    as (items & Ht & _).
  exists items. split; [exact Ht|].
  cbn in Ht. injection Ht as <-. split; reflexivity.
Defined.

(** ** Redelivery *)

Lemma apply_writes_app (ws ws' : list (string * Blob)) (g : Blobs) :
  apply_writes (ws ++ ws') g = apply_writes ws' (apply_writes ws g).
Proof. unfold apply_writes. apply fold_left_app. Qed.

Lemma get_blob_apply_writes (name : string) (ws : list (string * Blob))
    (g : Blobs) :
  get_blob name (apply_writes ws g) =
  match last_write name ws with
  | Some b => Some b
  | None => get_blob name g
  end.
Proof.
  revert g. induction ws as [|[n b] ws IH]; intros g; [reflexivity|].
  change (apply_writes ((n, b) :: ws) g)
    with (apply_writes ws (put_blob n b g)).
  rewrite IH. cbn [last_write]. destruct (last_write name ws); [reflexivity|].
  destruct (String.eqb_spec n name) as [->|Hne].
  - apply get_blob_put_same.
  - now apply get_blob_put_other.
Qed.

Lemma last_write_some_in (name : string) (ws : list (string * Blob)) :
  last_write name ws <> None <-> In name (map fst ws).
Proof.
  induction ws as [|[n b] ws IH]; cbn; [tauto|].
  destruct (last_write name ws).
  - split; [intros _; right; apply IH; discriminate | discriminate].
  - destruct (String.eqb_spec n name) as [->|Hne].
    + split; [auto | discriminate].
    + split; [congruence|]. intros [E|Hin]; [contradiction|].
      apply IH in Hin. congruence.
Qed.

Lemma same_writes_last (skip name : string) (ws1 ws2 : list (string * Blob)) :
  same_writes_but skip ws1 ws2 ->
  map fst ws1 = map fst ws2 /\
  (name <> skip -> last_write name ws1 = last_write name ws2).
Proof.
  intros H. induction H as [|[n1 b1] [n2 b2] ws1 ws2 [Hn Hb] H [IHn IHl]];
    cbn in *; [auto|]. subst n2.
  split; [congruence|]. intros Hne. rewrite (IHl Hne).
  destruct (last_write name ws2); [reflexivity|].
  destruct (String.eqb_spec n1 name) as [->|]; [|reflexivity].
  now rewrite (Hb Hne).
Qed.

Lemma same_writes_app (skip : string) (a1 a2 b1 b2 : list (string * Blob)) :
  same_writes_but skip a1 a2 -> same_writes_but skip b1 b2 ->
  same_writes_but skip (a1 ++ b1) (a2 ++ b2).
Proof. apply Forall2_app. Qed.

(** Uploads under names that the bucket holds create no name. *)
Lemma apply_writes_names (ws : list (string * Blob)) (g : Blobs) :
  (forall name, In name (map fst ws) -> get_blob name g <> None) ->
  map fst (apply_writes ws g) = map fst g.
Proof.
  revert g. induction ws as [|[n b] ws IH]; intros g H; [reflexivity|].
  change (apply_writes ((n, b) :: ws) g)
    with (apply_writes ws (put_blob n b g)).
  rewrite IH.
  - apply put_blob_names. apply H. now left.
  - intros name Hin. destruct (String.eqb_spec n name) as [->|Hne].
    + rewrite get_blob_put_same. discriminate.
    + rewrite get_blob_put_other by exact Hne. apply H. now right.
Qed.

Section Oblivious.

Variable skip : string.

Lemma oblivious2_lift {A} (r : result A) : oblivious2 skip (lift r) (lift r).
Proof. exists r, [], []. repeat split. constructor. Qed.

Lemma oblivious2_ret {A} (a : A) : oblivious2 skip (ret a) (ret a).
Proof. exists (Ok a), [], []. repeat split. constructor. Qed.

Lemma oblivious2_raise {A} (e : exn) : oblivious2 skip (@raise A e) (raise e).
Proof. exists (Raise e), [], []. repeat split. constructor. Qed.

Lemma oblivious2_write (sv : Services) (py : PyLib) (job_id : json)
    (filename : string) (b1 b2 : Blob) :
  (job_path py job_id filename <> skip -> b1 = b2) ->
  oblivious2 skip (write_blob sv py job_id filename b1)
    (write_blob sv py job_id filename b2).
Proof.
  intros Hb. unfold write_blob.
  destruct (bucket sv); [|apply oblivious2_raise].
  destruct (upload sv (job_path py job_id filename)) as [u|e].
  - exists (Ok (job_path py job_id filename)),
      [(job_path py job_id filename, b1)], [(job_path py job_id filename, b2)].
    repeat split. constructor; [|constructor]. cbn. auto.
  - exists (Raise e), [], []. repeat split. constructor.
Qed.

Lemma oblivious2_bind {A B} (m1 m2 : M A) (k1 k2 : A -> M B) :
  oblivious2 skip m1 m2 -> (forall a, oblivious2 skip (k1 a) (k2 a)) ->
  oblivious2 skip (bindM m1 k1) (bindM m2 k2).
Proof.
  intros (r & ws1 & ws2 & Hs & H1 & H2) Hk. destruct r as [a|e].
  - destruct (Hk a) as (r' & ws1' & ws2' & Hs' & H1' & H2').
    exists r', (ws1 ++ ws1')%list, (ws2 ++ ws2')%list.
    split; [now apply same_writes_app|].
    split; intros g; unfold bindM; [rewrite H1, H1' | rewrite H2, H2'];
      now rewrite apply_writes_app.
  - exists (Raise e), ws1, ws2. split; [exact Hs|].
    split; intros g; unfold bindM; [rewrite H1 | rewrite H2]; reflexivity.
Qed.

Lemma tail_reader2_bind {A B} (m1 m2 : M A) (k1 k2 : A -> M B) :
  oblivious2 skip m1 m2 -> (forall a, tail_reader2 skip (k1 a) (k2 a)) ->
  tail_reader2 skip (bindM m1 k1) (bindM m2 k2).
Proof.
  intros (r & ws1 & ws2 & Hs & H1 & H2) Hk. destruct r as [a|e].
  - destruct (Hk a) as (ws1' & ws2' & F & Hs' & H1' & H2').
    exists (ws1 ++ ws1')%list, (ws2 ++ ws2')%list, F.
    split; [now apply same_writes_app|].
    split; intros g; unfold bindM; [rewrite H1, H1' | rewrite H2, H2'];
      now rewrite apply_writes_app.
  - exists ws1, ws2, (fun _ => Raise e). split; [exact Hs|].
    split; intros g; unfold bindM; [rewrite H1 | rewrite H2]; reflexivity.
Qed.

Lemma tail_reader2_signed_urls {B} (sv : Services) (py : PyLib)
    (job_id : json) (f : list string -> B) :
  tail_reader2 skip
    (bindM (generate_signed_urls sv py job_id) (fun u => ret (f u)))
    (bindM (generate_signed_urls sv py job_id) (fun u => ret (f u))).
Proof.
  exists [], [],
    (fun names =>
       if bucket sv then
         match list_blobs sv (job_path py job_id "") with
         | Raise e => Raise e
         | Ok _ =>
             match mapM (signed_url sv)
                     (sort_names
                        (filter (String.prefix (job_path py job_id "")) names))
             with
             | Ok u => Ok (f u)
             | Raise e => Raise e
             end
         end
       else Raise (Exception "RuntimeError" "GCS client not available")).
  split; [constructor|].
  assert (H : forall g,
             bindM (generate_signed_urls sv py job_id) (fun u => ret (f u)) g =
             ((if bucket sv then
                 match list_blobs sv (job_path py job_id "") with
                 | Raise e => Raise e
                 | Ok _ =>
                     match mapM (signed_url sv)
                             (sort_names
                                (filter (String.prefix (job_path py job_id ""))
                                   (map fst g))) with
                     | Ok u => Ok (f u)
                     | Raise e => Raise e
                     end
                 end
               else Raise (Exception "RuntimeError" "GCS client not available")),
              g)).
  { intros g. unfold bindM, generate_signed_urls, raise, ret.
    destruct (bucket sv); [|reflexivity].
    destruct (list_blobs sv _); [|reflexivity].
    destruct (mapM _ _); reflexivity. }
  split; intros g; apply H.
Qed.

End Oblivious.

Section Redelivery.

Variables (sv : Services) (py : PyLib).

Ltac oblivious :=
  repeat first
    [ apply oblivious2_lift | apply oblivious2_ret | apply oblivious2_raise
    | apply oblivious2_write; intros ?Hne;
      first [reflexivity | exfalso; apply Hne; reflexivity]
    | apply oblivious2_bind; [|intros ?]
    | match goal with
      | |- oblivious2 _ (if ?c then _ else _) (if ?c then _ else _) =>
          destruct c
      end ].

(** The pipeline at two instants: the same uploads, the same result, and
    the same objects outside [summary.json]. *)
Lemma process_job_try_two_instants (now1 now2 : string)
    (job_id job_type syms start_date end_date ival vend adj params : json) :
  tail_reader2 (job_path py job_id "summary.json")
    (process_job_try sv py now1 job_id job_type syms start_date end_date
       ival vend adj params)
    (process_job_try sv py now2 job_id job_type syms start_date end_date
       ival vend adj params).
Proof.
  unfold process_job_try, write_metrics_json, write_artifact_dataframe,
    write_job_summary. cbv zeta.
  repeat first
    [ apply tail_reader2_signed_urls
    | apply tail_reader2_bind; [solve [oblivious] | intros ?] ].
Qed.

Lemma process_job_try_again (now1 now2 : string)
    (job_id job_type syms start_date end_date ival vend adj params : json)
    (g g' : Blobs) (v : json) :
  process_job_try sv py now1 job_id job_type syms start_date end_date
    ival vend adj params g = (Ok v, g') ->
  exists g'',
    process_job_try sv py now2 job_id job_type syms start_date end_date
      ival vend adj params g' = (Ok v, g'') /\
    map fst g'' = map fst g' /\
    (forall name, name <> job_path py job_id "summary.json" ->
                  get_blob name g'' = get_blob name g').
Proof.
  intros H.
  destruct (process_job_try_two_instants now1 now2 job_id job_type syms
              start_date end_date ival vend adj params)
    as (ws1 & ws2 & F & Hs & H1 & H2).
  rewrite H1 in H. injection H as HF Hg.
  assert (Hnames : map fst (apply_writes ws2 g') = map fst g').
  { apply apply_writes_names. intros name Hin.
    rewrite <- (proj1 (same_writes_last _ name _ _ Hs)) in Hin.
    apply last_write_some_in in Hin.
    rewrite <- Hg, get_blob_apply_writes.
    destruct (last_write name ws1); [discriminate|contradiction]. }
  exists (apply_writes ws2 g'). split; [|split].
  - rewrite H2, Hnames, <- Hg, HF. reflexivity.
  - exact Hnames.
  - intros name Hne. rewrite get_blob_apply_writes.
    rewrite <- (proj2 (same_writes_last _ name _ _ Hs) Hne).
    rewrite <- Hg, get_blob_apply_writes.
    destruct (last_write name ws1); reflexivity.
Qed.

Lemma process_job_ok_iff (now_iso : string) (items : list (string * json))
    (g g' : Blobs) (v : json) :
  process_job sv py now_iso (JObj items) g = (Ok v, g') <->
  pipeline_run sv py now_iso items g = (Ok v, g').
Proof.
  rewrite process_job_dict. unfold try_except at 1.
  destruct (pipeline_run sv py now_iso items g) as [[v0|e] g0].
  - reflexivity.
  - unfold bindM, raise.
    destruct (record_error sv py now_iso (field items "job_id" JNull) e g0)
      as [[u|e'] g1]; split; discriminate.
Qed.

(** X21: a message that was processed with success can be delivered again,
    at any later instant: the handler gives the same response, no object is
    added to the bucket, and every object holds what it held, except
    [summary.json] of the job, which is written anew with its time of
    creation; the job store and the topic are not touched. *)
Theorem redelivery_after_success (now1 now2 : string) (request : Request)
    (job_data : json) (s s' : System) (resp : JSONResponse) :
  carries py request job_data ->
  deliver sv py now1 request s = (Ok resp, s') ->
  exists s'',
    deliver sv py now2 request s' = (Ok resp, s'') /\
    app s'' = app s' /\
    map fst (gcs s'') = map fst (gcs s') /\
    (forall name,
        name <> job_path py (job_id_of job_data) "summary.json" ->
        get_blob name (gcs s'') = get_blob name (gcs s')).
Proof.
  intros Hc H. rewrite (deliver_decoded sv py now1 _ _ _ Hc) in H.
  destruct (process_job sv py now1 job_data (gcs s)) as [[v|e] g'] eqn:Hr;
    [|discriminate].
  destruct (process_job_not_dict _ _ _ _ _ _ _ Hr) as [items ->].
  cbn [py_get] in H. injection H as <- <-.
  apply process_job_ok_iff in Hr. unfold pipeline_run in Hr.
  destruct (process_job_try_again now1 now2 _ _ _ _ _ _ _ _ _ _ _ _ Hr)
    as (g'' & Hrun & Hn & Hb).
  exists (mkSystem (app s) g''). cbn [app gcs job_id_of].
  split; [|auto].
  rewrite (deliver_decoded sv py now2 _ _ _ Hc). cbn [gcs app].
  assert (Hr2 : process_job sv py now2 (JObj items) g' = (Ok v, g''))
    by (apply process_job_ok_iff; exact Hrun).
  rewrite Hr2. reflexivity.
Qed.

End Redelivery.

Lemma redelivery_after_success_witness :
  exists s' resp,
    deliver working_services sample_py "2024-02-01T00:00:00" sample_push
      (system_of []) = (Ok resp, s') /\
    fst (deliver working_services sample_py "2024-02-02T00:00:00" sample_push
           s') = Ok resp /\
    map fst (gcs (snd (deliver working_services sample_py
                         "2024-02-02T00:00:00" sample_push s'))) =
    map fst (gcs s').
Proof.
  eexists. eexists. split; [reflexivity|].
  match goal with
  | |- fst (deliver _ _ _ _ ?s') = Ok ?resp /\ _ =>
      destruct (redelivery_after_success working_services sample_py
                  "2024-02-01T00:00:00" "2024-02-02T00:00:00" sample_push _
                  (system_of []) s' resp sample_push_carries eq_refl)
        as (s2 & Hd & _ & Hn & _)
  end.
  rewrite Hd. split; [reflexivity | exact Hn].
Defined.

Section Success.

Variables (sv : Services) (py : PyLib) (now_iso : string).

Ltac path_neq :=
  let E := fresh in intros E; apply job_path_inj in E; discriminate.

Ltac lookup :=
  repeat first [ rewrite get_blob_put_same
               | rewrite get_blob_put_other by path_neq ].

Ltac split_run H :=
  repeat (cbv beta iota in H;
          match type of H with
          | context [match ?x with _ => _ end] =>
              lazymatch x with
              | context [match _ with _ => _ end] => fail
              | _ => destruct x eqn:?; try discriminate H
              end
          end).

(** X22: when [process_job] returns, the warehouse has answered with the
    prices and the model with its results, which hold metrics; the result
    of [process_job] has the status [completed] and carries these metrics;
    the artifacts it lists are [metrics.json], then [prices.csv] when the
    model returned prices, then the paths of a Monte Carlo job or the
    weights of a Markowitz job, all of them in the directory of the job and
    in the bucket; [metrics.json] holds the metrics of the model,
    [prices.csv] the prices of the warehouse, the file of the paths or of
    the weights the table made of them, and [summary.json] the fields of
    the message, the instant, the same metrics and the same list of
    artifacts; and the signed links are those of the objects under the
    directory of the job, in the order of their names. *)
Theorem successful_run_artifacts (items : list (string * json))
    (g g' : Blobs) (v : json) :
  process_job sv py now_iso (JObj items) g = (Ok v, g') ->
  exists prices_df model_results metrics urls,
    load_prices sv (field items "symbols" (JArr []))
      (field items "start_date" JNull) (field items "end_date" JNull)
      (field items "interval" (JStr "1d"))
      (field items "adjusted" (JBool true))
      (field items "vendor" (JStr "eodhd")) = Ok prices_df /\
    run_model sv (field items "type" JNull) (field items "params" (JObj []))
      prices_df = Ok model_results /\
    assoc "metrics" model_results = Some metrics /\
    v = JObj [ ("job_id", field items "job_id" JNull);
               ("status", JStr "completed");
               ("artifacts",
                JArr (map JStr
                        (artifacts_of py (field items "job_id" JNull)
                           (field items "type" JNull) model_results)));
               ("signed_urls", JArr (map JStr urls));
               ("metrics", metrics) ] /\
    Forall (fun a => in_job_dir py (field items "job_id" JNull) a = true /\
                     get_blob a g' <> None)
      (artifacts_of py (field items "job_id" JNull)
         (field items "type" JNull) model_results) /\
    get_blob (job_path py (field items "job_id" JNull) "metrics.json") g' =
      Some (JsonBlob metrics) /\
    (has_key "prices" model_results = true ->
     get_blob (job_path py (field items "job_id" JNull) "prices.csv") g' =
       Some (CsvBlob prices_df)) /\
    (is_str (field items "type" JNull) "montecarlo"
     && has_key "paths" model_results = true ->
     exists paths paths_df,
       assoc "paths" model_results = Some paths /\
       to_DataFrame sv paths = Ok paths_df /\
       get_blob (job_path py (field items "job_id" JNull)
                   "simulation_paths.csv") g' = Some (CsvBlob paths_df)) /\
    (is_str (field items "type" JNull) "montecarlo"
     && has_key "paths" model_results = false ->
     is_str (field items "type" JNull) "markowitz"
     && has_key "weights" model_results = true ->
     exists weights weights_df,
       assoc "weights" model_results = Some weights /\
       to_DataFrame sv weights = Ok weights_df /\
       get_blob (job_path py (field items "job_id" JNull)
                   "portfolio_weights.csv") g' = Some (CsvBlob weights_df)) /\
    get_blob (job_path py (field items "job_id" JNull) "summary.json") g' =
      Some (JsonBlob
              (JObj [ ("job_id", field items "job_id" JNull);
                      ("job_type", field items "type" JNull);
                      ("symbols", field items "symbols" (JArr []));
                      ("start_date", field items "start_date" JNull);
                      ("end_date", field items "end_date" JNull);
                      ("created_at", JStr now_iso);
                      ("metrics", metrics);
                      ("artifacts",
                       JArr (map JStr
                               (artifacts_of py (field items "job_id" JNull)
                                  (field items "type" JNull)
                                  model_results))) ])) /\
    mapM (signed_url sv)
      (sort_names (filter (in_job_dir py (field items "job_id" JNull))
                     (map fst g'))) = Ok urls.
Proof.
  intros H. apply process_job_ok_iff in H.
  unfold pipeline_run, process_job_try, write_job_summary,
    write_metrics_json, write_artifact_dataframe, write_blob,
    generate_signed_urls, getitem, bindM, lift, ret, raise in H.
  cbv zeta in H. destruct (bucket sv); split_run H.
  all: cbv beta iota in H.
  all: injection H as <- <-.
  all: eexists; eexists; eexists; eexists.
  all: split; [first [eassumption | reflexivity]|].
  all: split; [eassumption|].
  all: split; [eassumption|].
  all: unfold artifacts_of.
  all: repeat match goal with
              | Hb : _ = true |- _ => rewrite Hb
              | Hb : _ = false |- _ => rewrite Hb
              end.
  all: cbn [List.app map String.append].
  all: split; [reflexivity|].
  all: split;
    [repeat constructor; try apply job_path_in_job_dir; lookup; discriminate|].
  all: split; [lookup; reflexivity|].
  all: split; [intros Hk; first [discriminate Hk | lookup; reflexivity]|].
  all: split;
    [intros Hk;
     first [discriminate Hk
           | eexists; eexists; split; [eassumption|]; split; [eassumption|];
             lookup; reflexivity]|].
  all: split;
    [intros Hk Hk';
     first [discriminate Hk | discriminate Hk'
           | eexists; eexists; split; [eassumption|]; split; [eassumption|];
             lookup; reflexivity]|].
  all: split; [lookup; reflexivity|].
  all: match goal with
       | Hm : mapM _ _ = Ok _ |- _ => exact Hm
       end.
Qed.

End Success.

Lemma successful_run_artifacts_witness :
  get_blob (job_path sample_py (JStr (sample_uuid_text 7)) "metrics.json")
    (snd (process_job working_services sample_py "2024-02-01T00:00:00"
            (JObj [("job_id", JStr (sample_uuid_text 7));
                   ("type", JStr "blackscholes")]) [])) =
  Some (JsonBlob (JObj [("delta", JFloat 0.5%float)])).
Proof.
  destruct (successful_run_artifacts working_services sample_py
              "2024-02-01T00:00:00"
              [("job_id", JStr (sample_uuid_text 7)); ("type", JStr "blackscholes")]
              []
              (snd (process_job working_services sample_py
                      "2024-02-01T00:00:00"
                      (JObj [("job_id", JStr (sample_uuid_text 7));
                             ("type", JStr "blackscholes")]) []))
              _ eq_refl)
    as (prices_df & model_results & metrics & urls & _ & Hr & Hm & _ & _
        & Hb & _).
  injection Hr as <-. injection Hm as <-. exact Hb.
Defined.

(** ** The publisher *)

(** X23: the publisher is built once.  When [GCP_PROJECT] is unset or
    empty, or the library is missing, or the client cannot be built at the
    first call, the module keeps a publisher without a client for good:
    every later call returns it whatever the environment has become, and a
    submission made with it publishes nothing. *)
Theorem publisher_disabled_for_good (GCP_PROJECT : option string)
    (PUBSUB_AVAILABLE : bool) (client : result (json -> result string)) :
  GCP_PROJECT = None \/ GCP_PROJECT = Some "" \/ PUBSUB_AVAILABLE = false \/
  (exists e, client = Raise e) ->
  forall (project' : option string) (available' : bool)
         (client' : result (json -> result string)),
    let global :=
      snd (get_pubsub_publisher GCP_PROJECT PUBSUB_AVAILABLE client None) in
    let pubsub := fst (get_pubsub_publisher project' available' client' global) in
    publisher pubsub = None /\
    forall py new_id now user req w,
      topic (snd (create_job py pubsub new_id now user req w)) = topic w.
Proof.
  intros Hcause project' available' client'. cbv zeta.
  assert (Hp : PubSubPublisher_init GCP_PROJECT PUBSUB_AVAILABLE client =
               {| publisher := None |}).
  { unfold PubSubPublisher_init.
    destruct Hcause as [-> | [-> | [-> | [e ->]]]]; cbn.
    - reflexivity.
    - reflexivity.
    - now rewrite andb_false_r.
    - now destruct (_ && _). }
  unfold get_pubsub_publisher. cbn [fst snd]. rewrite Hp.
  split; [reflexivity|].
  intros py new_id now user req w.
  unfold create_job, create_job_try, publish_job. cbn [publisher].
  destruct (persist_request py new_id now user req (db w)) as [[job|e] d1];
    [|reflexivity].
  destruct (JobStatus_of (status job)); reflexivity.
Qed.

Lemma publisher_disabled_for_good_witness :
  topic (snd (create_job sample_py
                (fst (get_pubsub_publisher (Some "my-project") true
                        (Ok (fun _ => Ok "m-1"))
                        (snd (get_pubsub_publisher None true
                                (Ok (fun _ => Ok "m-1")) None))))
                7 100 1 sample_request empty_app)) = [].
Proof.
  apply (publisher_disabled_for_good None true (Ok (fun _ => Ok "m-1"))
           (or_introl eq_refl) (Some "my-project") true
           (Ok (fun _ => Ok "m-1"))).
Defined.

Lemma assoc_dict_set_other (items : list (string * json)) (k key : string)
    (value : json) :
  key <> k -> assoc k (dict_set items key value) = assoc k items.
Proof.
  intros Hne. induction items as [|[k' v] items IH]; cbn.
  - destruct (String.eqb_spec k key); [congruence|reflexivity].
  - destruct (String.eqb_spec k' key) as [->|Hk]; cbn.
    + destruct (String.eqb_spec k key); [congruence|reflexivity].
    + destruct (k =? k')%string; [reflexivity|exact IH].
Qed.

Lemma assoc_fold_dict_set_other (kwargs items : list (string * json))
    (k : string) :
  has_key k kwargs = false ->
  assoc k (fold_left (fun d kv => dict_set d (fst kv) (snd kv)) kwargs items) =
  assoc k items.
Proof.
  revert items. induction kwargs as [|[key v] kwargs IH]; intros items H;
    [reflexivity|].
  unfold has_key in H. cbn in H. cbn [fold_left fst snd].
  destruct (String.eqb_spec k key) as [->|Hne]; [discriminate|].
  rewrite IH.
  - apply assoc_dict_set_other. congruence.
  - unfold has_key. exact H.
Qed.

(** X24: a message that [publish_job_created] publishes carries the job
    identifier and the job type it was given: no keyword argument can
    replace them, since a keyword of one of these names makes the call
    fail before anything is published; the event type is [job_created]
    unless a keyword [event_type] replaces it. *)
Theorem publish_job_created_keeps_identity (self : PubSubPublisher)
    (topic : list json) (job_id job_type : string)
    (kwargs : list (string * json)) :
  (has_key "self" kwargs || has_key "job_id" kwargs
   || has_key "job_type" kwargs = true ->
   exists e,
     publish_job_created self topic job_id job_type kwargs = (Raise e, topic)) /\
  (forall message_id topic',
      publish_job_created self topic job_id job_type kwargs =
        (Ok (Some message_id), topic') ->
      exists message,
        topic' = (topic ++ [message])%list /\
        py_get message "job_id" JNull = Ok (JStr job_id) /\
        py_get message "job_type" JNull = Ok (JStr job_type) /\
        (has_key "event_type" kwargs = false ->
         py_get message "event_type" JNull = Ok (JStr "job_created"))).
Proof.
  unfold publish_job_created. split.
  - intros H. rewrite H. eauto.
  - intros message_id topic' H.
    destruct (has_key "self" kwargs); [discriminate|].
    destruct (has_key "job_id" kwargs) eqn:Hj; [discriminate|].
    destruct (has_key "job_type" kwargs) eqn:Ht; [discriminate|].
    cbn [orb] in H. cbv zeta in H. unfold publish_job in H.
    destruct (publisher self) as [broker|]; [|discriminate].
    destruct (broker _) as [mid|e]; [|discriminate].
    injection H as _ <-. eexists. split; [reflexivity|].
    unfold py_get. rewrite !assoc_fold_dict_set_other by assumption.
    repeat split. intros He. now rewrite assoc_fold_dict_set_other.
Qed.

Lemma publish_job_created_keeps_identity_witness :
  exists message,
    snd (publish_job_created working_publisher [] "7" "montecarlo"
           [("event_type", JStr "job_retried"); ("attempt", JInt 2)]) =
      [message] /\
    py_get message "job_id" JNull = Ok (JStr "7") /\
    py_get message "event_type" JNull = Ok (JStr "job_retried").
Proof.
  destruct (proj2 (publish_job_created_keeps_identity working_publisher []
                     "7" "montecarlo"
                     [("event_type", JStr "job_retried"); ("attempt", JInt 2)])
              "m-1" _ eq_refl) as (message & Ht & Hj & _).
  exists message. split; [exact Ht|]. split; [exact Hj|].
  cbn in Ht. injection Ht as <-. reflexivity.
Defined.

(** ** The test endpoint *)

(** X25: outside production the test endpoint never raises: it answers
    with the status [success] and the result when [process_job] returns,
    and with the status [error] and the text of the exception when it
    raises; in production it answers 404 and does not run the pipeline. *)
Theorem test_endpoint_never_raises (sv : Services) (py : PyLib)
    (now_iso : string) (ENVIRONMENT : option string) (new_uuid : string)
    (g : Blobs) :
  (ENVIRONMENT = Some "production" ->
   test_job_processing sv py now_iso ENVIRONMENT new_uuid g =
     (Raise (HTTPException 404 "Test endpoint not available in production"),
      g)) /\
  (ENVIRONMENT <> Some "production" ->
   snd (test_job_processing sv py now_iso ENVIRONMENT new_uuid g) =
     snd (process_job sv py now_iso (test_job new_uuid) g) /\
   match fst (process_job sv py now_iso (test_job new_uuid) g) with
   | Ok result =>
       fst (test_job_processing sv py now_iso ENVIRONMENT new_uuid g) =
       Ok (JObj [ ("status", JStr "success");
                  ("test_job", test_job new_uuid); ("result", result) ])
   | Raise e =>
       fst (test_job_processing sv py now_iso ENVIRONMENT new_uuid g) =
       Ok (JObj [ ("status", JStr "error");
                  ("test_job", test_job new_uuid);
                  ("error", JStr (str_exn e)) ])
   end).
Proof.
  unfold test_job_processing. split.
  - intros ->. reflexivity.
  - intros Hne.
    assert (Hf : match ENVIRONMENT with
                 | Some env => (env =? "production")%string
                 | None => false
                 end = false).
    { destruct ENVIRONMENT as [env|]; [|reflexivity].
      destruct (String.eqb_spec env "production"); [congruence|reflexivity]. }
    rewrite Hf. unfold try_except, bindM, ret.
    destruct (process_job sv py now_iso (test_job new_uuid) g) as [[r|e] g1];
      split; reflexivity.
Qed.

Lemma test_endpoint_never_raises_witness :
  exists body,
    fst (test_job_processing failing_services sample_py "2024-02-01T00:00:00"
           (Some "staging") "7" []) = Ok (JObj body) /\
    assoc "status" body = Some (JStr "error").
Proof.
  destruct (proj2 (test_endpoint_never_raises failing_services sample_py
                     "2024-02-01T00:00:00" (Some "staging") "7" [])
              ltac:(discriminate)) as [_ H].
  eexists. split; [exact H | reflexivity].
Defined.

(** ** What the requests never do *)

Lemma create_job_rows_untouched (py : PyLib) (pubsub : PubSubPublisher)
    (new_id : UUID) (now : datetime) (user : UUID) (req : CreateJobRequest)
    (w : App) :
  pending (db w) = [] ->
  Forall untouched_row (rows (db w)) ->
  Forall untouched_row
    (rows (db (snd (create_job py pubsub new_id now user req w)))).
Proof.
  intros Hpend Hall. unfold create_job, create_job_try.
  destruct (persist_request py new_id now user req (db w)) as [[job|e] d1] eqn:Hp.
  - destruct (persist_request_ok _ _ _ _ _ _ _ _ Hp)
      as (_ & _ & _ & _ & _ & _ & Hrows & _ & _).
    destruct (persist_request_job _ _ _ _ _ _ _ _ Hp)
      as (start & stop & _ & _ & Hjob).
    rewrite Hpend in Hrows. cbn [List.app] in Hrows.
    assert (Hd1 : Forall untouched_row (rows d1)).
    { rewrite Hrows. apply Forall_app. split; [exact Hall|].
      constructor; [|constructor]. rewrite Hjob.
      unfold untouched_row. cbn. auto. }
    destruct (publish_job pubsub (topic w) (message_data py job req))
      as [[m|e] t1].
    + destruct (JobStatus_of (status job)); exact Hd1.
    + exact Hd1.
  - apply persist_request_raise in Hp. cbn [snd db db_rollback rows].
    now rewrite Hp.
Qed.

Lemma cancel_job_rows_untouched (py : PyLib) (now : datetime) (user : UUID)
    (job_id : string) (w : App) :
  Forall untouched_row (rows (db w)) ->
  Forall untouched_row (rows (db (snd (cancel_job py now user job_id w)))).
Proof.
  intros Hall. unfold cancel_job.
  destruct (load_own_job py user job_id w) as [job|e] eqn:Hl; [|exact Hall].
  destruct (load_own_job_found _ _ _ _ _ Hl) as (_ & Hget & _).
  destruct (negb (status job =? "queued")%string); [exact Hall|].
  rewrite update_status_cancelled. cbn [snd db db_commit_object rows].
  apply Job_get_job_id in Hget. destruct Hget as [_ Hin].
  rewrite Forall_forall in Hall. pose proof (Hall job Hin) as Hjob.
  apply Forall_forall. intros r Hr. apply in_map_iff in Hr.
  destruct Hr as (r0 & <- & Hr0).
  destruct (id r0 =? id job); [|now apply Hall].
  destruct Hjob as (_ & H1 & H2 & H3 & H4).
  unfold untouched_row. cbn. auto.
Qed.

Lemma request_steps_untouched (py : PyLib) (s s' : System) :
  pending (db (app s)) = [] ->
  Forall untouched_row (rows (db (app s))) ->
  request_steps py s s' ->
  pending (db (app s')) = [] /\ Forall untouched_row (rows (db (app s'))).
Proof.
  intros Hpend Hall Hrun. induction Hrun as [s|s s1 s2 Hrun IH Hstep];
    [auto|].
  destruct (IH Hpend Hall) as [Hp1 Ha1].
  split; [exact (proj1 (request_step_status py s1 s2 Hp1 Hstep))|].
  destruct Hstep.
  - cbn [app]. now apply create_job_rows_untouched.
  - cbn [app]. now apply cancel_job_rows_untouched.
  - unfold deliver.
    destruct (process_pubsub_message sv py now_iso request (gcs s0)) as [r g].
    exact Ha1.
Qed.

Lemma JobStatusResponse_of_payload (py : PyLib) (job : Job)
    (v : JobStatusResponse) :
  JobStatusResponse_of py job = Ok v ->
  result_refs job = None ->
  v_metrics v = None /\ v_result_urls v = None.
Proof.
  unfold JobStatusResponse_of. intros H Hr. rewrite Hr in H. cbn in H.
  destruct (JobType_of (type job)); [|discriminate].
  destruct (_calculate_job_progress job); cbn [bind] in H; [|discriminate].
  destruct (JobStatus_of (status job)); [|discriminate].
  match type of H with
  | (if ?c then _ else _) = _ => destruct c; [|discriminate]
  end.
  injection H as <-. split; reflexivity.
Qed.

(** X26: starting from an empty store, whatever submissions, cancellations
    and deliveries follow, also successful ones, no stored job is ever
    started, finished, completed or failed, and none ever gets results or
    an error: the worker never reports back to the store.  So every view
    that [get_job] returns is [QUEUED] with progress 0.0, without start or
    finish time, metrics, links or error. *)
Theorem jobs_never_progress (py : PyLib) (s : System) (topic0 : list json)
    (g0 : Blobs) :
  request_steps py (mkSystem (mkApp (mkSession [] []) topic0) g0) s ->
  Forall untouched_row (rows (db (app s))) /\
  forall user job_id v,
    get_job py user job_id (app s) = Ok v ->
    v_status v = QUEUED /\ v_progress v = Some 0%float /\
    v_started_at v = None /\ v_finished_at v = None /\
    v_metrics v = None /\ v_result_urls v = None /\ v_error v = None.
Proof.
  intros Hrun.
  destruct (request_steps_untouched py
              (mkSystem (mkApp (mkSession [] []) topic0) g0) s eq_refl
              (Forall_nil _) Hrun) as [_ Hall].
  split; [exact Hall|]. intros user job_id v Hget. unfold get_job in Hget.
  destruct (load_own_job py user job_id (app s)) as [job|e] eqn:Hl;
    [|discriminate].
  cbn [bind] in Hget.
  destruct (load_own_job_found _ _ _ _ _ Hl) as (_ & Hj & _).
  apply Job_get_job_id in Hj. destruct Hj as [_ Hin].
  rewrite Forall_forall in Hall.
  destruct (Hall job Hin) as (Hst & Hsa & Hfa & Hrr & Her).
  destruct (JobStatusResponse_of_mirrors _ _ _ Hget)
    as (_ & _ & _ & Hs & _ & _ & Hvs & Hvf & Hve & Hp).
  destruct (JobStatusResponse_of_payload _ _ _ Hget Hrr) as [Hm Hu].
  assert (Hq : status job = "queued").
  { destruct Hst as [Hq|Hc]; [exact Hq|].
    rewrite Hc in Hs. destruct (v_status v); discriminate. }
  rewrite (calculate_job_progress_queued job Hq) in Hp.
  injection Hp as Hp. rewrite Hq in Hs.
  repeat split; try congruence.
  destruct (v_status v); try discriminate. reflexivity.
Qed.

Lemma jobs_never_progress_witness :
  let s0 := mkSystem (mkApp (mkSession [] []) []) [] in
  let s1 := mkSystem (snd (create_job sample_py working_publisher 7 100 1
                             sample_request (app s0))) (gcs s0) in
  let s2 := snd (deliver working_services sample_py "2024-02-01T00:00:00"
                   sample_push s1) in
  exists v,
    get_job sample_py 1 (sample_uuid_text 7) (app s2) = Ok v /\
    v_status v = QUEUED /\ v_progress v = Some 0%float /\
    List.length (gcs s2) = 2%nat.
Proof.
  cbv zeta. eexists. split; [reflexivity|].
  set (s0 := mkSystem (mkApp (mkSession [] []) []) []).
  set (s1 := mkSystem (snd (create_job sample_py working_publisher 7 100 1
                              sample_request (app s0))) (gcs s0)).
  set (s2 := snd (deliver working_services sample_py "2024-02-01T00:00:00"
                    sample_push s1)).
  assert (Hrun : request_steps sample_py s0 s2).
  { eapply steps_more; [eapply steps_more; [apply steps_none|]|].
    - apply (step_create_job sample_py working_publisher 7 100 1
               sample_request s0).
    - apply (step_deliver sample_py working_services "2024-02-01T00:00:00"
               sample_push s1). }
  destruct (proj2 (jobs_never_progress sample_py s2 [] [] Hrun) 1
              (sample_uuid_text 7) _ eq_refl) as (Hs & Hp & _).
  split; [exact Hs|]. split; [exact Hp | reflexivity].
Defined.
